(** * Webtop backend (webtop_backend_script.py): a shallow embedding

    The development follows the Python module:

    - [Text]: Python [str] and [bytes] values, the string methods the
      module calls, UTF-8 decoding and encoding;
    - character classes and the fragment of Python's [re] the two
      patterns of the module need, as a backtracking matcher;
    - the manifest inspectors [extract_user_from_yaml] and
      [extract_port_from_yaml];
    - [os.path.join], path resolution, [secure_filename] and the
      multipart [request.files];
    - the file system below the upload root, the external runtime and the
      views [deploy_webtop], [check_webtop_status], [stop_webtop],
      [cleanup_webtop] and [list_webtops], written in a
      state-and-exception monad;
    - the helpers of the run file, [create_run_sh_file],
      [delete_run_sh_file] and [run_run_sh_file].

    What Python takes from tables that are not part of the module is a
    variable of the section: the Unicode character database (the classes
    behind [\s], [\w], [\d] above U+007F, NFKD normalisation), the
    answers of the container runtime and of the process launcher, and the
    text of a traceback.  Every theorem holds for all of them.

    Calls of [print] are left out: they write to the log of the service
    and nothing reads it.  The file system is an ideal one: operations
    fail for the shape of the tree only (a missing parent, a directory
    where a file is expected), not for permissions or devices.  The view
    [index] returns a constant and is not embedded. *)

From stdpp Require Import gmap list strings.
From Stdlib Require Import ZArith Lia.
From Stdlib Require DecimalNat.
From Stdlib.Strings Require Import Byte.

Local Open Scope Z_scope.

(** ** Text: [str] as code points, [bytes] as bytes *)

Module Text.

(** A Python [str] is a sequence of Unicode code points. *)
Abbreviation str := (list Z).

(** A Python [bytes] object. *)
Abbreviation bytes := (list byte).

(** A string literal of the source (ASCII only). *)
Definition lit (s : String.string) : str :=
  map (fun a => Z.of_N (Ascii.N_of_ascii a)) (String.list_ascii_of_string s).

Arguments lit s%_string.

Fixpoint str_eqb (a b : str) : bool :=
  match a, b with
  | [], [] => true
  | x :: a', y :: b' => (x =? y) && str_eqb a' b'
  | _, _ => false
  end.

(** [s.startswith(p)] *)
Fixpoint startswith (s p : str) {struct p} : bool :=
  match p, s with
  | [], _ => true
  | a :: p', b :: s' => (a =? b) && startswith s' p'
  | _ :: _, [] => false
  end.

(** [s.endswith(p)] *)
Definition endswith (s p : str) : bool := startswith (rev s) (rev p).

(** [a < b] and [a <= b] on [str]: lexicographic on code points. *)
Fixpoint str_ltb (a b : str) : bool :=
  match a, b with
  | _, [] => false
  | [], _ :: _ => true
  | x :: a', y :: b' => (x <? y) || ((x =? y) && str_ltb a' b')
  end.

Definition str_leb (a b : str) : bool := negb (str_ltb b a).

(** [s.replace(old, new)] for a non-empty [old]: every occurrence, left to
    right, without overlap.  [skip] counts the characters of an occurrence
    still to be dropped. *)
Fixpoint replace_from (old new : str) (skip : nat) (s : str) : str :=
  match s with
  | [] => []
  | c :: s' =>
      match skip with
      | S k => replace_from old new k s'
      | O =>
          if startswith s old
          then new ++ replace_from old new (Nat.pred (length old)) s'
          else c :: replace_from old new O s'
      end
  end.

Definition replace (s old new : str) : str := replace_from old new O s.

(** [c in chars] *)
Definition char_in (chars : str) (c : Z) : bool := existsb (Z.eqb c) chars.

(** Stripping the characters that satisfy [p] from both ends. *)
Fixpoint lstrip_by (p : Z -> bool) (s : str) : str :=
  match s with
  | c :: s' => if p c then lstrip_by p s' else s
  | [] => []
  end.

Definition strip_by (p : Z -> bool) (s : str) : str :=
  rev (lstrip_by p (rev (lstrip_by p s))).

(** [s.strip(chars)] *)
Definition strip (chars : str) (s : str) : str := strip_by (char_in chars) s.

(** The longest prefix whose characters satisfy [p]. *)
Fixpoint take_while (p : Z -> bool) (s : str) : str :=
  match s with
  | c :: s' => if p c then c :: take_while p s' else []
  | [] => []
  end.

(** Truth value of a [str]: non-empty. *)
Definition nonempty (s : str) : bool :=
  match s with [] => false | _ :: _ => true end.

(** The fields of [s.split(sep)] for a one-character separator; [cur] is
    the field being read, reversed. *)
Fixpoint split_on (sep : Z) (s : str) (cur : str) : list str :=
  match s with
  | [] => [rev cur]
  | c :: s' =>
      if c =? sep then rev cur :: split_on sep s' []
      else split_on sep s' (c :: cur)
  end.

(** [sep.join(parts)] *)
Fixpoint join_with (sep : str) (parts : list str) : str :=
  match parts with
  | [] => []
  | [p] => p
  | p :: rest => p ++ sep ++ join_with sep rest
  end.

(** [str(n)] / [f"{n}"] for a non-negative integer. *)
Fixpoint uint_digits (d : Decimal.uint) : str :=
  match d with
  | Decimal.Nil => []
  | Decimal.D0 d => 48 :: uint_digits d
  | Decimal.D1 d => 49 :: uint_digits d
  | Decimal.D2 d => 50 :: uint_digits d
  | Decimal.D3 d => 51 :: uint_digits d
  | Decimal.D4 d => 52 :: uint_digits d
  | Decimal.D5 d => 53 :: uint_digits d
  | Decimal.D6 d => 54 :: uint_digits d
  | Decimal.D7 d => 55 :: uint_digits d
  | Decimal.D8 d => 56 :: uint_digits d
  | Decimal.D9 d => 57 :: uint_digits d
  end.

Definition str_of_nat (n : nat) : str := uint_digits (Nat.to_uint n).

(** *** UTF-8 *)

Definition byte_val (b : byte) : Z := Z.of_N (Byte.to_N b).

Definition byte_of_Z (z : Z) : byte :=
  match Byte.of_N (Z.to_N z) with Some b => b | None => x00 end.

Definition is_cont (b : Z) : bool := (128 <=? b) && (b <=? 191).

Definition in_range (lo hi b : Z) : bool := (lo <=? b) && (b <=? hi).

(** The second byte of a three-byte sequence: E0 excludes over-long
    forms, ED excludes the surrogates. *)
Definition second_of_3 (b0 b1 : Z) : bool :=
  if b0 =? 224 then in_range 160 191 b1
  else if b0 =? 237 then in_range 128 159 b1
  else is_cont b1.

(** The second byte of a four-byte sequence: F0 excludes over-long forms,
    F4 stops at U+10FFFF. *)
Definition second_of_4 (b0 b1 : Z) : bool :=
  if b0 =? 240 then in_range 144 191 b1
  else if b0 =? 244 then in_range 128 143 b1
  else is_cont b1.

(** [b.decode('utf-8')] in strict mode; [None] is [UnicodeDecodeError]. *)
Fixpoint utf8_decode_vals (bs : list Z) : option str :=
  match bs with
  | [] => Some []
  | b0 :: t0 =>
      if b0 <? 128 then cons b0 <$> utf8_decode_vals t0
      else if in_range 194 223 b0 then
        match t0 with
        | b1 :: t1 =>
            if is_cont b1
            then cons ((b0 - 192) * 64 + (b1 - 128)) <$> utf8_decode_vals t1
            else None
        | [] => None
        end
      else if in_range 224 239 b0 then
        match t0 with
        | b1 :: b2 :: t2 =>
            if second_of_3 b0 b1 && is_cont b2
            then cons ((b0 - 224) * 4096 + (b1 - 128) * 64 + (b2 - 128))
                   <$> utf8_decode_vals t2
            else None
        | _ => None
        end
      else if in_range 240 244 b0 then
        match t0 with
        | b1 :: b2 :: b3 :: t3 =>
            if second_of_4 b0 b1 && is_cont b2 && is_cont b3
            then cons ((b0 - 240) * 262144 + (b1 - 128) * 4096
                       + (b2 - 128) * 64 + (b3 - 128))
                   <$> utf8_decode_vals t3
            else None
        | _ => None
        end
      else None
  end.

Definition utf8_decode (b : bytes) : option str :=
  utf8_decode_vals (map byte_val b).

(** [s.encode('utf-8')]; [None] is [UnicodeEncodeError] (a surrogate). *)
Definition utf8_encode_char (c : Z) : option (list Z) :=
  if in_range 0 127 c then Some [c]
  else if in_range 128 2047 c then Some [192 + c / 64; 128 + c mod 64]
  else if in_range 55296 57343 c then None
  else if in_range 2048 65535 c then
    Some [224 + c / 4096; 128 + (c / 64) mod 64; 128 + c mod 64]
  else if in_range 65536 1114111 c then
    Some [240 + c / 262144; 128 + (c / 4096) mod 64;
          128 + (c / 64) mod 64; 128 + c mod 64]
  else None.

Fixpoint utf8_encode_vals (s : str) : option (list Z) :=
  match s with
  | [] => Some []
  | c :: s' =>
      match utf8_encode_char c, utf8_encode_vals s' with
      | Some bs, Some rest => Some (bs ++ rest)
      | _, _ => None
      end
  end.

Definition utf8_encode (s : str) : option bytes :=
  map byte_of_Z <$> utf8_encode_vals s.

(** The bytes of an ASCII literal. *)
Definition blit (s : String.string) : bytes :=
  map (fun a => byte_of_Z (Z.of_N (Ascii.N_of_ascii a)))
      (String.list_ascii_of_string s).

Arguments blit s%_string.

End Text.

Export Text.

(** ** Character classes *)

(** What the Unicode character database says about a code point, as far
    as [re] and [int] ask: white space ([str.isspace]), a decimal digit
    (category Nd) with its value, another alphanumeric ([str.isalnum]),
    or none of these. *)
Inductive uclass :=
| USpace
| UDecimal (value : Z)
| UAlnum
| UOther.

(** The ASCII part of the database. *)
Definition ascii_class (c : Z) : uclass :=
  if in_range 9 13 c || in_range 28 31 c || (c =? 32) then USpace
  else if in_range 48 57 c then UDecimal (c - 48)
  else if in_range 65 90 c || in_range 97 122 c then UAlnum
  else UOther.

(** ** Uploaded files *)

(** A werkzeug [FileStorage]: the client's file name and the stream with
    its read position. *)
Record FileStorage := {
  filename : str;
  stream : bytes;
  position : nat
}.

Definition seek0 (f : FileStorage) : FileStorage :=
  {| filename := filename f; stream := stream f; position := O |}.

(** [f.read()]: the rest of the stream; the position moves to the end. *)
Definition read (f : FileStorage) : bytes * FileStorage :=
  (drop (position f) (stream f),
   {| filename := filename f; stream := stream f;
      position := length (stream f) |}).

(** A werkzeug [MultiDict], here [request.files]: the file fields of the
    request in the order they were submitted; a field name may occur more
    than once. *)
Abbreviation MultiDict := (list (str * FileStorage)).

(** A state of the matcher of regular expressions: the input still to
    read and the text of group 1, if it has matched. *)
Abbreviation mstate := (str * option str)%type.

(** ** JSON responses *)

#[local] Unset Elimination Schemes.

Inductive json :=
| JNull
| JBool (b : bool)
| JInt (n : Z)
| JStr (s : str)
| JList (items : list json)
| JDict (fields : list (string * json)).

#[local] Set Elimination Schemes.

(** What a view returns: [jsonify(payload), status]. *)
Abbreviation response := (json * Z)%type.

Fixpoint assoc (key : string) (fields : list (string * json)) : option json :=
  match fields with
  | [] => None
  | (k, v) :: rest => if String.eqb k key then Some v else assoc key rest
  end.

(** The member [key] of a JSON object. *)
Definition jget (key : string) (j : json) : option json :=
  match j with JDict fields => assoc key fields | _ => None end.

(** ** The registry file system and the outside world *)

(** A file system object: a regular file with its mode bits, or a
    directory.  The file system maps resolved locations to objects. *)
Inductive obj :=
| FileObj (data : bytes) (mode : Z)
| DirObj.

(** What the service does to the outside world, in order. *)
Inductive event :=
| EvMakedirs (path : str)
| EvWrite (path : str)
| EvChmod (path : str) (mode : Z)
| EvRmtree (path : str)
| EvRun (argv : list str) (cwd : option str)
| EvPopen (argv : list str) (cwd : str).

Record world := {
  fs : gmap (list str) obj;
  trace : list event
}.

Definition set_fs (w : world) (m : gmap (list str) obj) : world :=
  {| fs := m; trace := trace w |}.

Definition log (w : world) (e : event) : world :=
  {| fs := fs w; trace := trace w ++ [e] |}.

(** A Python exception: its class and [str(e)]. *)
Inductive exn := Exception (class : string) (message : str).

Definition str_of_exn (e : exn) : str :=
  match e with Exception _ m => m end.

Inductive result (A : Type) :=
| Ok (a : A)
| Raise (e : exn).

Arguments Ok {A} a.
Arguments Raise {A} e.

(** Computations that read and change the world and may raise. *)
Definition M (A : Type) : Type := world -> result A * world.

Definition ret {A} (a : A) : M A := fun w => (Ok a, w).

Definition raise {A} (e : exn) : M A := fun w => (Raise e, w).

Definition bind {A B} (c : M A) (k : A -> M B) : M B :=
  fun w =>
    match c w with
    | (Ok a, w') => k a w'
    | (Raise e, w') => (Raise e, w')
    end.

(** [try: c except Exception as e: h e] *)
Definition try_except {A} (c : M A) (h : exn -> M A) : M A :=
  fun w =>
    match c w with
    | (Ok a, w') => (Ok a, w')
    | (Raise e, w') => h e w'
    end.

Notation "x <- c ;; k" := (bind c (fun x => k))
  (at level 100, c at next level, right associativity).
Notation "c ;; k" := (bind c (fun _ => k))
  (at level 100, right associativity).

(** A [subprocess.CompletedProcess] with captured text streams. *)
Record CompletedProcess := {
  returncode : Z;
  stdout : str;
  stderr : str
}.

Section Backend.

(** The Unicode character database above U+007F. *)
Variable unicode_class : Z -> uclass.

Definition classify (c : Z) : uclass :=
  if c <? 128 then ascii_class c else unicode_class c.

(** [\s] *)
Definition is_space (c : Z) : bool :=
  match classify c with USpace => true | _ => false end.

(** [\d] *)
Definition is_digit (c : Z) : bool :=
  match classify c with UDecimal _ => true | _ => false end.

(** [\w]: alphanumerics and the underscore. *)
Definition is_word (c : Z) : bool :=
  match classify c with
  | UDecimal _ | UAlnum => true
  | _ => c =? 95
  end.

Definition digit_value (c : Z) : Z :=
  match classify c with UDecimal v => v | _ => 0 end.

(** The number a string of decimal digits denotes. *)
Definition decimal_value (s : str) : Z :=
  fold_left (fun acc c => 10 * acc + digit_value c) s 0.

(** [sys.int_info.default_max_str_digits]: the longest string of digits
    that [int] converts.  The module leaves the limit of the interpreter
    as it is. *)
Definition int_max_str_digits : nat := 4300.

(** [int(s)] on a string of decimal digits; every digit counts towards
    the limit, leading zeros too.  [None] is the [ValueError] for a
    string that exceeds it. *)
Definition int_of_str (s : str) : option Z :=
  if (length s <=? int_max_str_digits)%nat then Some (decimal_value s)
  else None.

(** ** The fragment of [re] the module uses *)

Inductive cclass := CSpace | CWord | CDigit.

Definition in_class (k : cclass) (c : Z) : bool :=
  match k with
  | CSpace => is_space c
  | CWord => is_word c
  | CDigit => is_digit c
  end.

Inductive regex :=
| RLit (s : str)          (* literal characters *)
| RStar (k : cclass)      (* [\k*], greedy *)
| RPlus (k : cclass)      (* [\k+], greedy *)
| RSeq (r1 r2 : regex)    (* concatenation *)
| RGroup (r : regex).     (* [( r )], group 1 *)


(** All the ways of extending a match by [\k*], the longest first: the
    order in which the backtracking matcher tries them. *)
Fixpoint star_states (k : cclass) (s : str) (g : option str) : list mstate :=
  match s with
  | c :: s' =>
      if in_class k c then star_states k s' g ++ [(s, g)] else [(s, g)]
  | [] => [([], g)]
  end.

(** All the ways [r] matches a prefix of [s], in the order backtracking
    tries them. *)
Fixpoint rmatch (r : regex) (s : str) (g : option str) : list mstate :=
  match r with
  | RLit l => if startswith s l then [(drop (length l) s, g)] else []
  | RStar k => star_states k s g
  | RPlus k =>
      match s with
      | c :: s' => if in_class k c then star_states k s' g else []
      | [] => []
      end
  | RSeq r1 r2 =>
      flat_map (fun st : mstate => rmatch r2 st.1 st.2) (rmatch r1 s g)
  | RGroup r1 =>
      map (fun st : mstate =>
             (st.1, Some (take (length s - length st.1) s)))
          (rmatch r1 s g)
  end.

(** [re.search(r, s)]: the first way of matching at the leftmost position
    that has one; the result is the match object, reduced to its group 1. *)
Fixpoint search (r : regex) (s : str) : option (option str) :=
  match rmatch r s None with
  | st :: _ => Some st.2
  | [] =>
      match s with
      | [] => None
      | _ :: s' => search r s'
      end
  end.

(** [r'container_name:\s*webtop-ubuntu-xfce-(\w+)'] *)
Definition user_pattern : regex :=
  RSeq (RLit (lit "container_name:"))
    (RSeq (RStar CSpace)
       (RSeq (RLit (lit "webtop-ubuntu-xfce-"))
          (RGroup (RPlus CWord)))).

(** [r'-\s*(\d+):3000'] *)
Definition port_pattern : regex :=
  RSeq (RLit (lit "-"))
    (RSeq (RStar CSpace)
       (RSeq (RGroup (RPlus CDigit))
          (RLit (lit ":3000")))).

(** ** Manifest inspectors *)

(** [extract_user_from_yaml].  A decoding error is caught by the
    [except] clause: the function returns [None] and the second [seek(0)]
    has not run. *)
Definition extract_user_from_yaml (yaml_file : FileStorage)
  : option str * FileStorage :=
  let yaml_file := seek0 yaml_file in
  let '(data, yaml_file) := read yaml_file in
  match utf8_decode data with
  | None => (None, yaml_file)
  | Some content =>
      let yaml_file := seek0 yaml_file in
      match search user_pattern content with
      | Some group1 => (group1, yaml_file)
      | None => (None, yaml_file)
      end
  end.

(** [extract_port_from_yaml].  A [ValueError] of [int] is caught by the
    [except] clause as well: the function returns [None], after the
    second [seek(0)]. *)
Definition extract_port_from_yaml (yaml_file : FileStorage)
  : option Z * FileStorage :=
  let yaml_file := seek0 yaml_file in
  let '(data, yaml_file) := read yaml_file in
  match utf8_decode data with
  | None => (None, yaml_file)
  | Some content =>
      let yaml_file := seek0 yaml_file in
      match search port_pattern content with
      | Some (Some group1) => (int_of_str group1, yaml_file)
      | _ => (None, yaml_file)
      end
  end.


(** ** Paths *)

(** [os.path.join(a, b)] of [posixpath]. *)
Definition path_join (a b : str) : str :=
  if startswith b (lit "/") then b
  else if negb (nonempty a) || endswith a (lit "/") then a ++ b
  else a ++ lit "/" ++ b.

(** One step of path resolution: the directory reached so far and the
    next component. *)
Definition resolve_step (dir : list str) (comp : str) : list str :=
  if str_eqb comp [] || str_eqb comp (lit ".") then dir
  else if str_eqb comp (lit "..") then removelast dir
  else dir ++ [comp].

(** The location an absolute path names: its components from the root,
    with empty components, [.] and [..] resolved. *)
Definition resolve (p : str) : list str :=
  fold_left resolve_step (split_on 47 p []) [].

(** ** [werkzeug.utils.secure_filename]

    The library function, after its definition in werkzeug (POSIX case):
    NFKD normalisation, removal of what is not ASCII, path separators
    turned into spaces, white space runs joined by [_], removal of every
    character outside [A-Za-z0-9_.-], and [strip("._")]. *)

(** [unicodedata.normalize("NFKD", _)] *)
Variable nfkd : str -> str.

(** The fields of [s.split()]: maximal runs without white space. *)
Fixpoint split_ws (s : str) (cur : str) : list str :=
  match s with
  | [] => if nonempty cur then [rev cur] else []
  | c :: s' =>
      if is_space c
      then if nonempty cur then rev cur :: split_ws s' [] else split_ws s' []
      else split_ws s' (c :: cur)
  end.

(** [[A-Za-z0-9_.-]] *)
Definition safe_char (c : Z) : bool :=
  in_range 65 90 c || in_range 97 122 c || in_range 48 57 c
  || (c =? 95) || (c =? 46) || (c =? 45).

Definition secure_filename (filename : str) : str :=
  let filename := nfkd filename in
  let filename := List.filter (in_range 0 127) filename in
  let filename := replace filename (lit "/") (lit " ") in
  let filename := join_with (lit "_") (split_ws filename []) in
  let filename := List.filter safe_char filename in
  strip (lit "._") filename.

(** ** The multipart [request.files] *)


(** [files.get(key)] and [files[key]]: the first value of the key. *)
Fixpoint md_get (files : MultiDict) (key : str) : option FileStorage :=
  match files with
  | [] => None
  | (k, f) :: files' => if str_eqb k key then Some f else md_get files' key
  end.

(** [files.keys()]: each key once, in order of first occurrence. *)
Fixpoint md_keys_from (seen : list str) (files : MultiDict) : list str :=
  match files with
  | [] => []
  | (k, _) :: files' =>
      if existsb (str_eqb k) seen then md_keys_from seen files'
      else k :: md_keys_from (k :: seen) files'
  end.

Definition md_keys (files : MultiDict) : list str := md_keys_from [] files.

(** [sorted(keys)] *)
Fixpoint insert_sorted (k : str) (l : list str) : list str :=
  match l with
  | [] => [k]
  | x :: l' => if str_leb k x then k :: l else x :: insert_sorted k l'
  end.

Definition sorted (l : list str) : list str := fold_right insert_sorted [] l.

(** Truth value of a [FileStorage]: [bool(self.filename)]. *)
Definition file_truthy (f : FileStorage) : bool := nonempty (filename f).

(** [a or b] on [str] *)
Definition str_or (a b : str) : str := if nonempty a then a else b.

(** ** File system operations *)

Definition is_dir (o : option obj) : bool :=
  match o with Some DirObj => true | _ => false end.

Definition lookup_path (m : gmap (list str) obj) (p : str) : option obj :=
  match resolve p with
  | [] => Some DirObj
  | loc => m !! loc
  end.

(** [os.path.exists(p)] *)
Definition path_exists (p : str) : M bool :=
  fun w =>
    (Ok (match lookup_path (fs w) p with Some _ => true | None => false end),
     w).


(** The name of [loc] inside [dir], when [loc] is an entry of [dir]. *)
Fixpoint entry_name (dir loc : list str) : option str :=
  match dir, loc with
  | [], [n] => Some n
  | d :: dir', c :: loc' =>
      if bool_decide (d = c) then entry_name dir' loc' else None
  | _, _ => None
  end.

Definition entries (m : gmap (list str) obj) (dir : list str) : list str :=
  omap (fun kv : list str * obj => entry_name dir kv.1) (map_to_list m).

(** [os.listdir(p)]; the order of the entries is the file system's. *)
Definition listdir (p : str) : M (list str) :=
  fun w =>
    match lookup_path (fs w) p with
    | Some DirObj => (Ok (entries (fs w) (resolve p)), w)
    | Some (FileObj _ _) =>
        (Raise (Exception "NotADirectoryError" p), w)
    | None => (Raise (Exception "FileNotFoundError" p), w)
    end.

(** [os.makedirs(p, exist_ok=True)]: the missing directories along [p]
    are created, from the root down. *)
Fixpoint makedirs_from (done todo : list str) (m : gmap (list str) obj)
  : result (gmap (list str) obj) :=
  match todo with
  | [] => Ok m
  | c :: rest =>
      let d := done ++ [c] in
      match m !! d with
      | Some DirObj => makedirs_from d rest m
      | Some (FileObj _ _) =>
          Raise (Exception
                   (if rest is [] then "FileExistsError"
                    else "NotADirectoryError")
                   (join_with (lit "/") ([] :: d)))
      | None => makedirs_from d rest (<[d := DirObj]> m)
      end
  end.

Definition makedirs (p : str) : M unit :=
  fun w =>
    match makedirs_from [] (resolve p) (fs w) with
    | Ok m => (Ok tt, log (set_fs w m) (EvMakedirs p))
    | Raise e => (Raise e, w)
    end.

(** Mode of a newly created file (umask 022). *)
Definition default_mode : Z := 420.

Definition parent_is_dir (m : gmap (list str) obj) (loc : list str) : bool :=
  match removelast loc with
  | [] => true
  | par => is_dir (m !! par)
  end.

(** [open(p, "w")] followed by writing [data] and closing: the file is
    created or replaced. *)
Definition write_file (p : str) (data : bytes) : M unit :=
  fun w =>
    let loc := resolve p in
    if endswith p (lit "/") || is_dir (lookup_path (fs w) p)
    then (Raise (Exception "IsADirectoryError" p), w)
    else
      match fs w !! loc with
      | Some (FileObj _ mode) =>
          (Ok tt, log (set_fs w (<[loc := FileObj data mode]> (fs w)))
                      (EvWrite p))
      | _ =>
          if parent_is_dir (fs w) loc
          then (Ok tt,
                log (set_fs w (<[loc := FileObj data default_mode]> (fs w)))
                    (EvWrite p))
          else (Raise (Exception "FileNotFoundError" p), w)
      end.

(** [os.chmod(p, mode)] *)
Definition chmod (p : str) (mode : Z) : M unit :=
  fun w =>
    match lookup_path (fs w) p with
    | Some (FileObj data _) =>
        (Ok tt, log (set_fs w (<[resolve p := FileObj data mode]> (fs w)))
                    (EvChmod p mode))
    | Some DirObj => (Ok tt, log w (EvChmod p mode))
    | None => (Raise (Exception "FileNotFoundError" p), w)
    end.

(** [shutil.rmtree(p)]: the directory and everything below it. *)
Definition rmtree (p : str) : M unit :=
  fun w =>
    match lookup_path (fs w) p with
    | Some DirObj =>
        (Ok tt,
         log (set_fs w (filter (fun kv : list str * obj =>
                                  ¬ (resolve p `prefix_of` kv.1)) (fs w)))
             (EvRmtree p))
    | Some (FileObj _ _) =>
        (Raise (Exception "NotADirectoryError" p), w)
    | None => (Raise (Exception "FileNotFoundError" p), w)
    end.

(** [FileStorage.save(dst)]: the stream from its current position. *)
Definition save (f : FileStorage) (dst : str) : M unit :=
  write_file dst (drop (position f) (stream f)).

(** *** The container runtime and the launcher *)

(** What [subprocess.run(argv, capture_output=True, text=True, cwd=cwd)]
    answers in a given world: a completed process, whatever its exit
    status, or an exception when the program cannot be started. *)
Variable run_outcome : world -> list str -> option str -> result CompletedProcess.

(** What [subprocess.Popen(argv, ..., cwd=cwd)] answers: the process
    identifier of the child, or an exception. *)
Variable popen_outcome : world -> list str -> str -> result Z.

(** [traceback.format_exc()] *)
Variable format_exc : exn -> str.

Definition subprocess_run (argv : list str) (cwd : option str)
  : M CompletedProcess :=
  fun w => (run_outcome w argv cwd, log w (EvRun argv cwd)).

Definition subprocess_Popen (argv : list str) (cwd : str) : M Z :=
  fun w => (popen_outcome w argv cwd, log w (EvPopen argv cwd)).

(** ** The module *)

Definition UPLOAD_DIR : str := lit "/opt/webtops/uploads".

Definition nl : str := [10].

(** [enumerate(l, start)] *)
Definition enumerate {A} (l : list A) (start : nat) : list (nat * A) :=
  combine (seq start (length l)) l.

(** *** The run script *)

(** [f"webtop-custom-{webtop_id}-{i}"] *)
Definition image_tag (webtop_id : str) (i : nat) : str :=
  lit "webtop-custom-" ++ webtop_id ++ lit "-" ++ str_of_nat i.

(** The six [f.write] calls of one turn of the build loop. *)
Definition build_writes (webtop_id : str) (entry : nat * str) : list str :=
  let '(i, dockerfile) := entry in
  let image_tag := image_tag webtop_id i in
  [ lit "echo 'Building Docker image: " ++ image_tag ++ lit "'" ++ nl;
    lit "docker build -f " ++ dockerfile ++ lit " -t " ++ image_tag
      ++ lit " ." ++ nl;
    lit "if [ $? -ne 0 ]; then" ++ nl;
    lit "    echo 'Error: Failed to build " ++ image_tag ++ lit "'" ++ nl;
    lit "    exit 1" ++ nl;
    lit "fi" ++ nl ++ nl ].

(** The [f.write] calls of the [with open(run_sh_path, "w")] block, in
    order. *)
Definition run_sh_writes (webtop_id webtop_dir yaml_filename : str)
    (dockerfiles : list str) : list str :=
  [ lit "#!/bin/bash" ++ nl;
    lit "# Webtop deployment script for user: " ++ webtop_id ++ nl;
    lit "# Generated automatically by Webtop API" ++ nl ++ nl;
    lit "cd " ++ webtop_dir ++ nl ++ nl ]
  ++ (match dockerfiles with
      | [] => []
      | _ :: _ =>
          (lit "# Build custom Docker images" ++ nl)
            :: flat_map (build_writes webtop_id) (enumerate dockerfiles 1)
      end)
  ++ [ lit "# Launch Docker Compose" ++ nl;
       lit "echo 'Starting Docker Compose with " ++ yaml_filename
         ++ lit "'" ++ nl;
       lit "docker compose -f " ++ yaml_filename ++ lit " up -d" ++ nl;
       lit "if [ $? -eq 0 ]; then" ++ nl;
       lit "    echo 'Webtop deployment successful for user: " ++ webtop_id
         ++ lit "'" ++ nl;
       lit "else" ++ nl;
       lit "    echo 'Error: Docker Compose failed'" ++ nl;
       lit "    exit 1" ++ nl;
       lit "fi" ++ nl ].

(** The text of the script: what the writes leave in the file. *)
Definition run_sh_text (webtop_id webtop_dir yaml_filename : str)
    (dockerfiles : list str) : str :=
  concat (run_sh_writes webtop_id webtop_dir yaml_filename dockerfiles).

(** The bytes a sequence of text writes produces; a write that cannot be
    encoded raises and ends the sequence. *)
Fixpoint encode_writes (chunks : list str) : bytes * option exn :=
  match chunks with
  | [] => ([], None)
  | c :: rest =>
      match utf8_encode c with
      | None => ([], Some (Exception "UnicodeEncodeError" c))
      | Some b => let '(bs, e) := encode_writes rest in (b ++ bs, e)
      end
  end.

(** [with open(p, "w", encoding="utf-8") as f:] followed by one
    [f.write] per chunk. *)
Definition write_text (p : str) (chunks : list str) : M unit :=
  let '(data, err) := encode_writes chunks in
  write_file p data ;;
  match err with
  | Some e => raise e
  | None => ret tt
  end.

(** *** [deploy_webtop] *)

(** [os.path.join(UPLOAD_DIR, f"webtop_{webtop_id}")] *)
Definition webtop_dir_of (webtop_id : str) : str :=
  path_join UPLOAD_DIR (lit "webtop_" ++ webtop_id).

(** One of the two loops [for key in sorted(files.keys())]: the files
    whose field name starts with [prefix] are saved under their
    sanitised names, [fallback] numbering the ones without a name.
    [keys] is what is left of the sorted keys, [saved] the names saved
    so far, [count] their number. *)
Fixpoint save_group (prefix fallback : str) (files : MultiDict)
    (webtop_dir : str) (keys : list str) (saved : list str) (count : nat)
  : M (list str) :=
  match keys with
  | [] => ret saved
  | key :: keys' =>
      if startswith key prefix then
        match md_get files key with
        | None => raise (Exception "KeyError" key)
        | Some file =>
            let name :=
              secure_filename
                (str_or (filename file)
                        (fallback ++ str_of_nat (count + 1))) in
            let path := path_join webtop_dir name in
            save file path ;;
            save_group prefix fallback files webtop_dir keys'
                       (saved ++ [name]) (S count)
        end
      else save_group prefix fallback files webtop_dir keys' saved count
  end.

Definition save_dockerfiles (files : MultiDict) (webtop_dir : str)
  : M (list str) :=
  save_group (lit "dockerfile-") (lit "Dockerfile.") files webtop_dir
             (sorted (md_keys files)) [] O.

Definition save_resources (files : MultiDict) (webtop_dir : str)
  : M (list str) :=
  save_group (lit "resource-") (lit "resource_") files webtop_dir
             (sorted (md_keys files)) [] O.

Definition json_of_port (port : option Z) : json :=
  match port with Some n => JInt n | None => JNull end.

Definition saved_files_json (yaml_filename : str)
    (dockerfiles resources : list str) : json :=
  JDict [ ("yaml", JStr yaml_filename);
          ("dockerfiles", JList (map JStr dockerfiles));
          ("resources", JList (map JStr resources)) ].

(** [webtop_id] after [if not webtop_id: webtop_id = "default_user"]. *)
Definition id_or_default (extracted : option str) : str :=
  match extracted with
  | Some i => if nonempty i then i else lit "default_user"
  | None => lit "default_user"
  end.

(** The statements of the [try] from [os.makedirs] to the final
    [return], with the values the statements before them have computed. *)
Definition deploy_steps (files : MultiDict) (yaml_file : FileStorage)
    (yaml_filename webtop_id : str) (port : option Z) (webtop_dir : str)
  : M response :=
  makedirs webtop_dir ;;
  let yaml_path := path_join webtop_dir yaml_filename in
  save yaml_file yaml_path ;;
  dockerfiles <- save_dockerfiles files webtop_dir ;;
  resources <- save_resources files webtop_dir ;;
  let run_sh_path := path_join webtop_dir (lit "run.sh") in
  write_text run_sh_path
    (run_sh_writes webtop_id webtop_dir yaml_filename dockerfiles) ;;
  chmod run_sh_path 493 ;;
  pid <- subprocess_Popen [lit "bash"; run_sh_path] webtop_dir ;;
  ret (JDict
         [ ("status", JStr (lit "success"));
           ("message",
            JStr (lit "Webtop deployment initiated for user: " ++ webtop_id));
           ("webtop_dir", JStr webtop_dir);
           ("webtop_id", JStr webtop_id);
           ("port", json_of_port port);
           ("files", saved_files_json yaml_filename dockerfiles resources);
           ("process_id", JInt pid);
           ("container_name", JStr (lit "webtop-ubuntu-xfce-" ++ webtop_id)) ],
       200).

(** The [except Exception as e] clause of [deploy_webtop]. *)
Definition deploy_except (webtop_id webtop_dir : str) (e : exn) : M response :=
  ret (JDict
         [ ("status", JStr (lit "error"));
           ("message", JStr (str_of_exn e));
           ("webtop_id", JStr webtop_id);
           ("webtop_dir", JStr webtop_dir);
           ("traceback", JStr (format_exc e)) ],
       500).

(** The [try] once the manifest field has been found.  Nothing before
    [os.makedirs] can raise, so [webtop_id] and [webtop_dir] are assigned
    when the [except] clause reads them. *)
Definition deploy_files (files : MultiDict) (yaml_file : FileStorage)
  : M response :=
  let yaml_filename :=
    secure_filename (str_or (filename yaml_file) (lit "docker-compose.yaml")) in
  let '(extracted, yaml_file) := extract_user_from_yaml yaml_file in
  let '(port, yaml_file) := extract_port_from_yaml yaml_file in
  let webtop_id := id_or_default extracted in
  let webtop_dir := webtop_dir_of webtop_id in
  try_except
    (deploy_steps files yaml_file yaml_filename webtop_id port webtop_dir)
    (deploy_except webtop_id webtop_dir).

Definition deploy_webtop (files : MultiDict) : M response :=
  match files with
  | [] =>
      ret (JDict [ ("status", JStr (lit "error"));
                   ("message", JStr (lit "No files received")) ], 400)
  | _ :: _ =>
      match md_get files (lit "docker-compose") with
      | Some yaml_file =>
          if file_truthy yaml_file then deploy_files files yaml_file
          else
            ret (JDict [ ("status", JStr (lit "error"));
                         ("message", JStr (lit "Missing docker-compose file")) ],
                 400)
      | None =>
          ret (JDict [ ("status", JStr (lit "error"));
                       ("message", JStr (lit "Missing docker-compose file")) ],
               400)
      end
  end.

(** *** [stop_webtop], [cleanup_webtop], [list_webtops] *)

(** [f.endswith(('.yaml', '.yml'))] *)
Definition is_yaml (f : str) : bool :=
  endswith f (lit ".yaml") || endswith f (lit ".yml").

Definition compose_down (yaml_path : str) : list str :=
  [lit "docker"; lit "compose"; lit "-f"; yaml_path; lit "down"].

(** The responses of [stop_webtop] and [cleanup_webtop]. *)
Definition dir_not_found (webtop_id : str) : response :=
  (JDict [ ("status", JStr (lit "error"));
           ("message",
            JStr (lit "Webtop directory not found: " ++ webtop_id)) ],
   404).

Definition yaml_not_found (webtop_id : str) : response :=
  (JDict [ ("status", JStr (lit "error"));
           ("message",
            JStr (lit "No YAML file found in webtop directory: "
                  ++ webtop_id)) ],
   404).

Definition stopped (webtop_id webtop_dir : str) (result : CompletedProcess)
  : response :=
  (JDict [ ("status", JStr (lit "success"));
           ("message", JStr (lit "Webtop stopped: " ++ webtop_id));
           ("output", JStr (stdout result));
           ("webtop_dir", JStr webtop_dir) ],
   200).

Definition stop_failed (webtop_id : str) (result : CompletedProcess)
  : response :=
  (JDict [ ("status", JStr (lit "error"));
           ("message", JStr (lit "Failed to stop webtop"));
           ("error", JStr (stderr result));
           ("webtop_id", JStr webtop_id) ],
   500).

Definition cleaned_up (webtop_id webtop_dir : str) : response :=
  (JDict [ ("status", JStr (lit "success"));
           ("message", JStr (lit "Webtop cleaned up: " ++ webtop_id));
           ("removed_directory", JStr webtop_dir) ],
   200).

(** The [except Exception as e] clause of the two views. *)
Definition internal_error (webtop_id : str) (e : exn) : response :=
  (JDict [ ("status", JStr (lit "error"));
           ("message", JStr (str_of_exn e));
           ("webtop_id", JStr webtop_id) ],
   500).

Definition stop_webtop (webtop_id : str) : M response :=
  try_except
    (let webtop_dir := webtop_dir_of webtop_id in
     present <- path_exists webtop_dir ;;
     if negb present then ret (dir_not_found webtop_id)
     else
       names <- listdir webtop_dir ;;
       match List.filter is_yaml names with
       | [] => ret (yaml_not_found webtop_id)
       | first :: _ =>
           let yaml_path := path_join webtop_dir first in
           result <- subprocess_run (compose_down yaml_path) (Some webtop_dir) ;;
           if returncode result =? 0
           then ret (stopped webtop_id webtop_dir result)
           else ret (stop_failed webtop_id result)
       end)
    (fun e => ret (internal_error webtop_id e)).

Definition cleanup_webtop (webtop_id : str) : M response :=
  try_except
    (let webtop_dir := webtop_dir_of webtop_id in
     present <- path_exists webtop_dir ;;
     if negb present then ret (dir_not_found webtop_id)
     else
       names <- listdir webtop_dir ;;
       match List.filter is_yaml names with
       | first :: _ =>
           let yaml_path := path_join webtop_dir first in
           subprocess_run (compose_down yaml_path) (Some webtop_dir) ;;
           ret tt
       | [] => ret tt
       end ;;
       rmtree webtop_dir ;;
       ret (cleaned_up webtop_id webtop_dir))
    (fun e => ret (internal_error webtop_id e)).

Definition docker_ps (webtop_id : str) : list str :=
  [ lit "docker"; lit "ps"; lit "--filter";
    lit "name=webtop-ubuntu-xfce-" ++ webtop_id;
    lit "--format"; lit "{{.Names}}" ].

(** The entry [list_webtops] appends for a directory name. *)
Definition webtop_entry (dir_name : str) (is_running : bool) : json :=
  let webtop_id := replace dir_name (lit "webtop_") [] in
  JDict [ ("webtop_id", JStr webtop_id);
          ("directory", JStr (path_join UPLOAD_DIR dir_name));
          ("is_running", JBool is_running);
          ("container_name",
           if is_running then JStr (lit "webtop-ubuntu-xfce-" ++ webtop_id)
           else JNull) ].

(** The loop [for dir_name in os.listdir(UPLOAD_DIR)]. *)
Fixpoint list_loop (dir_names : list str) (webtops : list json)
  : M (list json) :=
  match dir_names with
  | [] => ret webtops
  | dir_name :: rest =>
      if startswith dir_name (lit "webtop_") then
        let webtop_id := replace dir_name (lit "webtop_") [] in
        result <- subprocess_run (docker_ps webtop_id) None ;;
        let is_running := nonempty (strip_by is_space (stdout result)) in
        list_loop rest (webtops ++ [webtop_entry dir_name is_running])
      else list_loop rest webtops
  end.

(** The responses of [list_webtops]. *)
Definition listing (webtops : list json) : response :=
  (JDict [ ("status", JStr (lit "success"));
           ("webtops", JList webtops);
           ("count", JInt (Z.of_nat (length webtops))) ],
   200).

Definition list_failed (e : exn) : response :=
  (JDict [ ("status", JStr (lit "error"));
           ("message", JStr (str_of_exn e)) ],
   500).

Definition list_webtops : M response :=
  try_except
    (present <- path_exists UPLOAD_DIR ;;
     if negb present then
       ret (JDict [ ("status", JStr (lit "success"));
                    ("webtops", JList []);
                    ("count", JInt 0) ],
            200)
     else
       dir_names <- listdir UPLOAD_DIR ;;
       webtops <- list_loop dir_names [] ;;
       ret (listing webtops))
    (fun e => ret (list_failed e)).

(** *** [check_webtop_status] *)

Definition docker_inspect_status (container_name : str) : list str :=
  [ lit "docker"; lit "inspect"; container_name;
    lit "--format"; lit "{{.State.Status}}" ].

Definition docker_port (container_name : str) : list str :=
  [ lit "docker"; lit "port"; container_name ].

(** The two answers of [check_webtop_status] outside its [except]
    clause. *)
Definition running (webtop_id container_name container_status ports : str)
  : response :=
  (JDict [ ("status", JStr (lit "running"));
           ("container", JStr container_name);
           ("container_status", JStr container_status);
           ("webtop_id", JStr webtop_id);
           ("ports", JStr ports) ],
   200).

Definition not_running (webtop_id : str) : response :=
  (JDict [ ("status", JStr (lit "not_running"));
           ("webtop_id", JStr webtop_id);
           ("message", JStr (lit "Container not found or stopped")) ],
   200).

Definition check_webtop_status (webtop_id : str) : M response :=
  try_except
    (result <- subprocess_run (docker_ps webtop_id) None ;;
     let container_name := strip_by is_space (stdout result) in
     if nonempty container_name then
       inspect_result <-
         subprocess_run (docker_inspect_status container_name) None ;;
       let container_status := strip_by is_space (stdout inspect_result) in
       port_result <- subprocess_run (docker_port container_name) None ;;
       ret (running webtop_id container_name container_status
              (strip_by is_space (stdout port_result)))
     else ret (not_running webtop_id))
    (fun e => ret (internal_error webtop_id e)).

(** *** The helpers of the run file

    [RUN_FILE] is a relative path: the helpers work in the working
    directory of the process, here the parameter [cwd], an absolute
    path. *)

Definition RUN_FILE : str := lit "run.sh".

(** The path a relative path names from the working directory. *)
Definition from_cwd (cwd p : str) : str := path_join cwd p.

(** [os.remove(p)].  The working directory of a process is a directory,
    so a name that is missing in it is reported as such. *)
Definition remove (p : str) : M unit :=
  fun w =>
    match lookup_path (fs w) p with
    | Some (FileObj _ _) =>
        if endswith p (lit "/")
        then (Raise (Exception "NotADirectoryError" p), w)
        else (Ok tt, set_fs w (delete (resolve p) (fs w)))
    | Some DirObj => (Raise (Exception "IsADirectoryError" p), w)
    | None => (Raise (Exception "FileNotFoundError" p), w)
    end.

(** [isinstance(e, cls)] for a class without subclasses. *)
Definition is_class (cls : string) (e : exn) : bool :=
  match e with Exception c _ => String.eqb c cls end.

(** The three [f.write] calls of [create_run_sh_file]; 233 is the code
    point of the accented letter of the comment line. *)
Definition run_file_writes (yaml_filename : str) : list str :=
  [ lit "#!/bin/sh" ++ nl;
    lit "# Script utilis" ++ [233] ++ lit " pour ex" ++ [233]
      ++ lit "cuter l'image " ++ yaml_filename
      ++ lit " dans le conteneur " ++ yaml_filename ++ nl;
    lit "docker compose -f " ++ yaml_filename ++ lit ".yml up" ++ nl ].

Definition create_run_sh_file (cwd yaml_filename : str) : M Z :=
  try_except
    (write_text (from_cwd cwd RUN_FILE) (run_file_writes yaml_filename) ;;
     chmod (from_cwd cwd RUN_FILE) 493 ;;
     ret 0)
    (fun _ => ret 1).

Definition delete_run_sh_file (cwd : str) : M Z :=
  try_except
    (remove (from_cwd cwd RUN_FILE) ;;
     ret 0)
    (fun e => if is_class "FileNotFoundError" e then ret 1 else ret 2).

(** [run_run_sh_file].  With [check=True] an exit status other than 0
    raises [CalledProcessError], the one class the [except] clause
    catches; an exception of [subprocess.run] itself (the script cannot
    be started) is not caught. *)
Definition run_run_sh_file : M Z :=
  result <- subprocess_run [lit "./run.sh"] None ;;
  if returncode result =? 0
  then if nonempty (stderr result) then ret 1 else ret 0
  else ret 1.

(** ** Specification vocabulary *)

(** The first group of the first way of matching, if there is one. *)
Definition first_group (l : list mstate) : option (option str) :=
  match l with
  | st :: _ => Some st.2
  | [] => None
  end.

(** The first suffix of [s], from the left, at which [at_pos] answers. *)
Fixpoint find_first {A} (at_pos : str -> option A) (s : str) : option A :=
  match at_pos s with
  | Some a => Some a
  | None =>
      match s with
      | [] => None
      | _ :: s' => find_first at_pos s'
      end
  end.

(** The deterministic reading of a pattern [L1 \k1* L2 (\k2+)] at the
    start of [s]: the text of the group. *)
Definition lit_star_lit_group_at (L1 : str) (k1 : cclass) (L2 : str)
    (k2 : cclass) (s : str) : option str :=
  if startswith s L1 then
    let r := lstrip_by (in_class k1) (drop (length L1) s) in
    if startswith r L2 then
      let tok := take_while (in_class k2) (drop (length L2) r) in
      if nonempty tok then Some tok else None
    else None
  else None.

(** The deterministic reading of a pattern [L1 \k1* (\k2+) L3]. *)
Definition lit_star_group_lit_at (L1 : str) (k1 k2 : cclass) (L3 : str)
    (s : str) : option str :=
  if startswith s L1 then
    let r := lstrip_by (in_class k1) (drop (length L1) s) in
    let tok := take_while (in_class k2) r in
    if nonempty tok && startswith (lstrip_by (in_class k2) r) L3
    then Some tok else None
  else None.

(** What [deploy_webtop] computes from the manifest before it touches the
    file system. *)
Definition deploy_yaml_name (yaml_file : FileStorage) : str :=
  secure_filename (str_or (filename yaml_file) (lit "docker-compose.yaml")).

Definition deploy_id (yaml_file : FileStorage) : str :=
  id_or_default (extract_user_from_yaml yaml_file).1.

Definition deploy_port (yaml_file : FileStorage) : option Z :=
  (extract_port_from_yaml (extract_user_from_yaml yaml_file).2).1.

(** The manifest's file object after the two inspections. *)
Definition inspected (yaml_file : FileStorage) : FileStorage :=
  (extract_port_from_yaml (extract_user_from_yaml yaml_file).2).2.

(** The names under which one of the saving loops saves its files. *)
Fixpoint group_names (prefix fallback : str) (files : MultiDict)
    (keys : list str) (count : nat) : list str :=
  match keys with
  | [] => []
  | key :: keys' =>
      if startswith key prefix then
        match md_get files key with
        | None => []
        | Some file =>
            secure_filename
              (str_or (filename file) (fallback ++ str_of_nat (count + 1)))
              :: group_names prefix fallback files keys' (S count)
        end
      else group_names prefix fallback files keys' count
  end.

(** The saved build files of a request, in the order they are saved. *)
Definition build_names (files : MultiDict) : list str :=
  group_names (lit "dockerfile-") (lit "Dockerfile.") files
              (sorted (md_keys files)) O.

Definition resource_names (files : MultiDict) : list str :=
  group_names (lit "resource-") (lit "resource_") files
              (sorted (md_keys files)) O.

(** An event that does not write outside the directory [dir]: a file
    write goes to [os.path.join(dir, name)] for a non-empty name of safe
    characters that is a sanitised client name or [run.sh], and that path
    names the entry [name] of [dir]. *)
Definition inside_write (dir : str) (e : event) : Prop :=
  match e with
  | EvWrite p =>
      exists name,
        name <> []
        /\ Forall (fun c => safe_char c = true) name
        /\ (name = lit "run.sh" \/ exists x, name = secure_filename x)
        /\ p = path_join dir name
        /\ resolve p = resolve dir ++ [name]
  | _ => True
  end.

(** From [w] to [w'] nothing changed but entries of the directory [dir],
    and every file write went into [dir]. *)
Definition confined (dir : str) (w w' : world) : Prop :=
  (exists evs, trace w' = trace w ++ evs /\ Forall (inside_write dir) evs)
  /\ (forall loc, (forall name, loc <> resolve dir ++ [name]) ->
                  fs w' !! loc = fs w !! loc).

Definition Confined {A} (dir : str) (c : M A) : Prop :=
  forall w r w', c w = (r, w') -> confined dir w w'.

(** [dir] can be joined with a name: it is not empty and has no trailing
    separator. *)
Definition plain_dir (dir : str) : Prop :=
  dir <> [] /\ endswith dir (lit "/") = false.

(** A workload identity as [deploy_webtop] uses it: word characters. *)
Definition word_id (webtop_id : str) : Prop :=
  webtop_id <> [] /\ Forall (fun c => is_word c = true) webtop_id.

(** *** Reading the run script line by line *)

(** The lines of a script text: what the newlines separate. *)
Definition script_lines (text : str) : list str := split_on 10 text [].

(** Each line followed by a newline. *)
Definition unlines (ls : list str) : str := flat_map (fun l => l ++ nl) ls.

(** The build invocation for a saved build file. *)
Definition build_line (webtop_id : str) (entry : nat * str) : str :=
  lit "docker build -f " ++ entry.2 ++ lit " -t "
    ++ image_tag webtop_id entry.1 ++ lit " .".

(** A build-and-check block: the announcement, the build invocation, the
    check of its exit status that leaves the script with status 1, and an
    empty line. *)
Definition build_block (webtop_id : str) (entry : nat * str) : list str :=
  [ lit "echo 'Building Docker image: " ++ image_tag webtop_id entry.1
      ++ lit "'";
    build_line webtop_id entry;
    lit "if [ $? -ne 0 ]; then";
    lit "    echo 'Error: Failed to build " ++ image_tag webtop_id entry.1
      ++ lit "'";
    lit "    exit 1";
    lit "fi";
    [] ].

(** The bring-up invocation for the saved manifest. *)
Definition compose_line (yaml_filename : str) : str :=
  lit "docker compose -f " ++ yaml_filename ++ lit " up -d".

(** What comes before the blocks. *)
Definition script_prologue (webtop_id webtop_dir : str)
    (dockerfiles : list str) : list str :=
  [ lit "#!/bin/bash";
    lit "# Webtop deployment script for user: " ++ webtop_id;
    lit "# Generated automatically by Webtop API";
    [];
    lit "cd " ++ webtop_dir;
    [] ]
  ++ match dockerfiles with
     | [] => []
     | _ :: _ => [lit "# Build custom Docker images"]
     end.

(** What comes after the blocks: the bring-up invocation and its check,
    a success diagnostic or exit status 1. *)
Definition script_epilogue (webtop_id yaml_filename : str) : list str :=
  [ lit "# Launch Docker Compose";
    lit "echo 'Starting Docker Compose with " ++ yaml_filename ++ lit "'";
    compose_line yaml_filename;
    lit "if [ $? -eq 0 ]; then";
    lit "    echo 'Webtop deployment successful for user: " ++ webtop_id
      ++ lit "'";
    lit "else";
    lit "    echo 'Error: Docker Compose failed'";
    lit "    exit 1";
    lit "fi" ].

Definition is_build_line (l : str) : bool := startswith l (lit "docker build ").

Definition is_compose_line (l : str) : bool :=
  startswith l (lit "docker compose ").

(** The text of the run script of an identity in a world: what the bytes
    of the file decode to. *)
Definition script_of (w : world) (webtop_id : str) : option str :=
  match lookup_path (fs w)
          (path_join (webtop_dir_of webtop_id) (lit "run.sh")) with
  | Some (FileObj data _) => utf8_decode data
  | _ => None
  end.

(** The sanitised names of the build files of a request in the order of
    submission. *)
Definition submitted_build_names (files : MultiDict) : list str :=
  map (fun kv : str * FileStorage => secure_filename (filename kv.2))
      (List.filter
         (fun kv : str * FileStorage => startswith kv.1 (lit "dockerfile-"))
         files).

(** The reading of the run script with its blocks in the order of
    submission: after a successful deploy of [files] in [w], the build
    invocations of the script are those of the submitted build files, in
    that order, numbered from 1. *)
Definition blocks_follow_submission (files : MultiDict) (w : world) : Prop :=
  forall resp w',
    deploy_webtop files w = (Ok (resp, 200), w') ->
    exists webtop_id text,
      jget "webtop_id" resp = Some (JStr webtop_id)
      /\ script_of w' webtop_id = Some text
      /\ List.filter is_build_line (script_lines text)
         = map (build_line webtop_id)
               (enumerate (submitted_build_names files) 1).

(** *** The scenario of the specification *)

(** The manifest bytes of the deploy scenario: the naming-convention
    field, a newline, and the quoted port mapping of a compose file. *)
Definition scenario_manifest : bytes :=
  blit "container_name: webtop-ubuntu-xfce-bob" ++ [x0a]
    ++ blit "    - " ++ [x22] ++ blit "3030:3000" ++ [x22].

Definition scenario_file : FileStorage :=
  {| filename := lit "docker-compose.yml";
     stream := scenario_manifest;
     position := O |}.

(** A request that carries this manifest and no other file. *)
Definition scenario_files : MultiDict :=
  [ (lit "docker-compose", scenario_file) ].

(** The names in the registry root that [list_webtops] reports: those
    starting with the workload prefix, in the order of the listing. *)
Definition listed (w : world) : list str :=
  List.filter (fun dir_name => startswith dir_name (lit "webtop_"))
              (entries (fs w) (resolve UPLOAD_DIR)).

(** The payload of a response that was returned. *)
Definition ok_body (r : result response) : json :=
  match r with
  | Ok (body, _) => body
  | Raise _ => JNull
  end.

(** *** Tables, runtimes, worlds and requests of the examples *)

(** A character database with nothing above U+007F. *)
Definition no_unicode : Z -> uclass := fun _ => UOther.

(** NFKD on text that is normalised already. *)
Definition nfkd_id : str -> str := fun s => s.

(** A runtime whose commands exit with status 0 and print nothing. *)
Definition runtime_ok
  : world -> list str -> option str -> result CompletedProcess :=
  fun _ _ _ => Ok {| returncode := 0; stdout := []; stderr := [] |}.

(** A runtime whose commands exit with status 1 and a complaint. *)
Definition runtime_failing
  : world -> list str -> option str -> result CompletedProcess :=
  fun _ _ _ =>
    Ok {| returncode := 1; stdout := []; stderr := lit "no such service" |}.

(** A launcher whose process identifiers grow with the events so far. *)
Definition launcher : world -> list str -> str -> result Z :=
  fun w _ _ => Ok (1000 + Z.of_nat (length (trace w))).

Definition no_traceback : exn -> str := fun _ => [].

(** Nothing on disk, nothing done. *)
Definition empty_world : world := {| fs := ∅; trace := [] |}.

(** A registry that holds the workload of [bob] with its manifest. *)
Definition bob_world : world :=
  {| fs :=
       list_to_map
         [ ([lit "opt"], DirObj);
           ([lit "opt"; lit "webtops"], DirObj);
           ([lit "opt"; lit "webtops"; lit "uploads"], DirObj);
           ([lit "opt"; lit "webtops"; lit "uploads"; lit "webtop_bob"],
            DirObj);
           ([lit "opt"; lit "webtops"; lit "uploads"; lit "webtop_bob";
             lit "docker-compose.yml"],
            FileObj scenario_manifest 420) ];
     trace := [] |}.

(** A manifest with the naming-convention field alone, one with an
    unquoted port mapping alone, and bytes that are not UTF-8. *)
Definition named_manifest : FileStorage :=
  {| filename := lit "compose.yml";
     stream := blit "container_name: webtop-ubuntu-xfce-bob";
     position := O |}.

Definition unquoted_port_manifest : FileStorage :=
  {| filename := lit "compose.yml";
     stream := blit "- 3030:3000";
     position := O |}.

Definition undecodable_manifest : FileStorage :=
  {| filename := lit "compose.yml"; stream := [xff]; position := O |}.

(** A manifest whose port mapping is a number of 4301 digits, and its
    text. *)
Definition long_port_manifest : FileStorage :=
  {| filename := lit "compose.yml";
     stream := blit "- " ++ replicate 4301 x31 ++ blit ":3000";
     position := O |}.

Definition long_port_text : str :=
  lit "- " ++ replicate 4301 49 ++ lit ":3000".

(** The scenario manifest with two build files, the one under the field
    name [dockerfile-2] submitted before the one under [dockerfile-1]. *)
Definition two_build_files : MultiDict :=
  [ (lit "docker-compose", scenario_file);
    (lit "dockerfile-2",
     {| filename := lit "Dockerfile.web";
        stream := blit "FROM nginx";
        position := O |});
    (lit "dockerfile-1",
     {| filename := lit "Dockerfile.db";
        stream := blit "FROM postgres";
        position := O |}) ].

(** A request whose file names try to leave the workload directory. *)
Definition traversal_files : MultiDict :=
  [ (lit "docker-compose",
     {| filename := lit "../../etc/cron.d/job.yml";
        stream := scenario_manifest;
        position := O |});
    (lit "resource-1",
     {| filename := lit "/root/.ssh/authorized_keys";
        stream := blit "ssh-rsa AAAA";
        position := O |}) ].

(** The two patterns of the module, read deterministically. *)
Definition user_at : str -> option str :=
  lit_star_lit_group_at (lit "container_name:") CSpace
                        (lit "webtop-ubuntu-xfce-") CWord.

Definition port_at : str -> option str :=
  lit_star_group_lit_at (lit "-") CSpace CDigit (lit ":3000").

(** The manifest text [content] has, after [pre], a naming-convention
    field [container_name: webtop-ubuntu-xfce-<tok>]: any white space
    after the colon, and [tok] the whole run of word characters that
    follows the prefix. *)
Definition has_user_field (content pre tok : str) : Prop :=
  exists ws post,
    content = pre ++ lit "container_name:" ++ ws
                  ++ lit "webtop-ubuntu-xfce-" ++ tok ++ post
    /\ Forall (fun c => is_space c = true) ws
    /\ tok <> []
    /\ Forall (fun c => is_word c = true) tok
    /\ (forall c post', post = c :: post' -> is_word c = false).

(** The manifest text [content] has, after [pre], a port mapping
    [- <digits>:3000]: any white space after the dash. *)
Definition has_port_mapping (content pre digits : str) : Prop :=
  exists ws post,
    content = pre ++ lit "-" ++ ws ++ digits ++ lit ":3000" ++ post
    /\ Forall (fun c => is_space c = true) ws
    /\ digits <> []
    /\ Forall (fun c => is_digit c = true) digits.

(** [x] is what the first occurrence of [field] in [content] carries. *)
Definition first_field (field : str -> str -> str -> Prop)
    (content x : str) : Prop :=
  exists pre,
    field content pre x
    /\ forall pre' x', field content pre' x' -> (length pre <= length pre')%nat.

(** No occurrence of [field] in [content]. *)
Definition no_field (field : str -> str -> str -> Prop) (content : str)
  : Prop :=
  forall pre x, ~ field content pre x.

(** The reading of port extraction without a limit on the length of
    the number: whatever the digits of the first mapping, the port is the
    number they denote. *)
Definition port_of_first_mapping (yaml_file : FileStorage) : Prop :=
  forall content digits,
    utf8_decode (stream yaml_file) = Some content ->
    first_field has_port_mapping content digits ->
    (extract_port_from_yaml yaml_file).1 = Some (decimal_value digits).

(** *** The queries of [list_webtops] *)

(** The query for a name of the upload root: the containers named after
    the identity reported for it. *)
Definition ps_query (dir_name : str) : list str :=
  docker_ps (replace dir_name (lit "webtop_") []).

(** The world after the queries for [dir_names] were run, in order. *)
Definition asked (w : world) (dir_names : list str) : world :=
  fold_left (fun w1 dir_name => log w1 (EvRun (ps_query dir_name) None))
            dir_names w.

(** The runtime answers each of the queries for [dir_names], run in
    order from [w]. *)
Definition answered (w : world) (dir_names : list str) : Prop :=
  forall pre dir_name post,
    dir_names = pre ++ dir_name :: post ->
    exists result,
      run_outcome (asked w pre) (ps_query dir_name) None = Ok result.

(** *** What a deploy does, and what it leaves *)

(** The effects of a deploy of [files] with the manifest [yaml_file] when
    no step fails, in the order of the statements of [deploy_webtop]. *)
Definition deploy_plan (files : MultiDict) (yaml_file : FileStorage)
  : list event :=
  let webtop_dir := webtop_dir_of (deploy_id yaml_file) in
  let run_sh_path := path_join webtop_dir (lit "run.sh") in
  [ EvMakedirs webtop_dir;
    EvWrite (path_join webtop_dir (deploy_yaml_name yaml_file)) ]
  ++ map (fun name => EvWrite (path_join webtop_dir name)) (build_names files)
  ++ map (fun name => EvWrite (path_join webtop_dir name))
         (resource_names files)
  ++ [ EvWrite run_sh_path;
       EvChmod run_sh_path 493;
       EvPopen [lit "bash"; run_sh_path] webtop_dir ].

(** The names under which a deploy writes into the workload directory. *)
Definition saved_names (files : MultiDict) (yaml_file : FileStorage)
  : list str :=
  deploy_yaml_name yaml_file
    :: build_names files ++ resource_names files ++ [lit "run.sh"].

(** The bytes [save] writes for the manifest after the two inspections:
    all of them when they are UTF-8, none when they are not (the stream
    is then left at its end). *)
Definition manifest_bytes (yaml_file : FileStorage) : bytes :=
  match utf8_decode (stream yaml_file) with
  | Some _ => stream yaml_file
  | None => []
  end.

(** The bytes [save] writes for an upload: the stream from its read
    position. *)
Definition upload_bytes (f : FileStorage) : bytes :=
  drop (position f) (stream f).

(** The files one of the saving loops saves, in order: the names of
    [group_names], each with the bytes saved under it. *)
Fixpoint group_saves (prefix fallback : str) (files : MultiDict)
    (keys : list str) (count : nat) : list (str * bytes) :=
  match keys with
  | [] => []
  | key :: keys' =>
      if startswith key prefix then
        match md_get files key with
        | None => []
        | Some file =>
            (secure_filename
               (str_or (filename file) (fallback ++ str_of_nat (count + 1))),
             upload_bytes file)
              :: group_saves prefix fallback files keys' (S count)
        end
      else group_saves prefix fallback files keys' count
  end.

(** Everything a deploy writes into the workload directory, in order:
    the manifest, the build files, the resources, and the run script
    with the bytes [script]. *)
Definition deploy_saves (files : MultiDict) (yaml_file : FileStorage)
    (script : bytes) : list (str * bytes) :=
  (deploy_yaml_name yaml_file, manifest_bytes yaml_file)
    :: group_saves (lit "dockerfile-") (lit "Dockerfile.") files
         (sorted (md_keys files)) O
    ++ group_saves (lit "resource-") (lit "resource_") files
         (sorted (md_keys files)) O
    ++ [(lit "run.sh", script)].

(** The bytes of the last file saved under [name]. *)
Fixpoint last_saved (saves : list (str * bytes)) (name : str)
  : option bytes :=
  match saves with
  | [] => None
  | (n, data) :: rest =>
      match last_saved rest name with
      | Some later => Some later
      | None => if str_eqb n name then Some data else None
      end
  end.

(** The mode a file has after it was written: the one it had, or the
    mode of a new file. *)
Definition mode_of (o : option obj) : Z :=
  match o with Some (FileObj _ mode) => mode | _ => default_mode end.

(** Writing [data] to the entry [name] of the directory at [dir]. *)
Definition put (dir : list str) (m : gmap (list str) obj)
    (save : str * bytes) : gmap (list str) obj :=
  <[dir ++ [save.1] := FileObj save.2 (mode_of (m !! (dir ++ [save.1])))]> m.

(** The file system after the writes [saves] into [dir], the last of
    them the run script, made executable. *)
Definition written (dir : list str) (saves : list (str * bytes))
    (script : bytes) (m : gmap (list str) obj) : gmap (list str) obj :=
  <[dir ++ [lit "run.sh"] := FileObj script 493]> (fold_left (put dir) saves m).

(** [old] occurs in [s]. *)
Definition occurs (old s : str) : Prop :=
  exists pre post, s = pre ++ old ++ post.

(** The computation has run to a value. *)
Definition returned {A} (r : result A) : Prop :=
  match r with Ok _ => True | Raise _ => False end.

(** From [w] to [w'] the events [evs] were added: a beginning of [plan],
    and all of it when the computation returned. *)
Definition follows {A} (plan : list event) (w : world) (r : result A)
    (w' : world) : Prop :=
  exists evs,
    trace w' = trace w ++ evs
    /\ evs `prefix_of` plan
    /\ (returned r -> evs = plan).

Definition Follows {A} (plan : list event) (c : M A) : Prop :=
  forall w r w', c w = (r, w') -> follows plan w r w'.

Definition is_file (o : option obj) : bool :=
  match o with Some (FileObj _ _) => true | _ => false end.

(** What is there stays, a file as a file and a directory as a
    directory. *)
Definition same_kind (o o' : option obj) : Prop :=
  match o with
  | Some (FileObj _ _) => is_file o' = true
  | Some DirObj => o' = Some DirObj
  | None => True
  end.

(** A computation that changes the file system at the entries [names] of
    the directory [dir] only, and removes nothing. *)
Definition Within {A} (dir : str) (names : list str) (c : M A) : Prop :=
  forall w r w',
    c w = (r, w') ->
    (forall loc, (forall name, In name names -> loc <> resolve dir ++ [name]) ->
                 fs w' !! loc = fs w !! loc)
    /\ (forall loc, same_kind (fs w !! loc) (fs w' !! loc)).

(** A runtime that cannot be started: the program is not installed. *)
Definition runtime_missing
  : world -> list str -> option str -> result CompletedProcess :=
  fun _ _ _ => Raise (Exception "FileNotFoundError" (lit "docker")).

(** A runtime that finds no container and complains on exit. *)
Definition runtime_down
  : world -> list str -> option str -> result CompletedProcess :=
  fun _ _ _ =>
    Ok {| returncode := 1; stdout := lit " " ++ nl;
          stderr := lit "Cannot connect to the Docker daemon" |}.

(** A runtime that finds the container of [bob]. *)
Definition runtime_up
  : world -> list str -> option str -> result CompletedProcess :=
  fun _ _ _ =>
    Ok {| returncode := 0; stdout := lit "webtop-ubuntu-xfce-bob" ++ nl;
          stderr := [] |}.

(** A manifest whose name ends in upper case, one whose name has no safe
    character, and the requests that carry them. *)
Definition upper_case_files : MultiDict :=
  [ (lit "docker-compose",
     {| filename := lit "docker-compose.YML";
        stream := scenario_manifest;
        position := O |}) ].

Definition unnameable_files : MultiDict :=
  [ (lit "docker-compose",
     {| filename := lit "..";
        stream := scenario_manifest;
        position := O |}) ].

(** A manifest that maps a number beyond the range of ports. *)
Definition large_port_manifest : FileStorage :=
  {| filename := lit "compose.yml";
     stream := blit "ports:" ++ [x0a] ++ blit "  - 70000:3000" ++ [x0a];
     position := O |}.

(** A request with two resources whose names collide with other files
    of the deploy: one is sanitised to the name of the manifest, the
    other is named like the run script. *)
Definition colliding_files : MultiDict :=
  [ (lit "docker-compose", scenario_file);
    (lit "resource-1",
     {| filename := lit "../docker-compose.yml";
        stream := blit "services: {}";
        position := O |});
    (lit "resource-2",
     {| filename := lit "run.sh";
        stream := blit "rm -rf /";
        position := O |}) ].

(** A request whose manifest is not UTF-8. *)
Definition undecodable_files : MultiDict :=
  [ (lit "docker-compose", undecodable_manifest) ].

(** A request without a manifest field, and one whose manifest field has
    no file name. *)
Definition no_manifest_files : MultiDict :=
  [ (lit "dockerfile-1",
     {| filename := lit "Dockerfile"; stream := blit "FROM nginx";
        position := O |}) ].

Definition unnamed_manifest_files : MultiDict :=
  [ (lit "docker-compose",
     {| filename := []; stream := scenario_manifest; position := O |}) ].

(** The registry root alone. *)
Definition root_world : world :=
  {| fs :=
       list_to_map
         [ ([lit "opt"], DirObj);
           ([lit "opt"; lit "webtops"], DirObj);
           ([lit "opt"; lit "webtops"; lit "uploads"], DirObj) ];
     trace := [] |}.

(** * Properties *)

(** ** UTF-8 *)

Lemma in_range_spec lo hi b : in_range lo hi b = true <-> lo <= b <= hi.
Proof. unfold in_range. rewrite andb_true_iff, !Z.leb_le. tauto. Qed.

Ltac decide_bool :=
  repeat match goal with
         | |- context [?a <? ?b] =>
             first [ rewrite (proj2 (Z.ltb_lt a b)) by lia
                   | rewrite (proj2 (Z.ltb_ge a b)) by lia ]
         | |- context [?a <=? ?b] =>
             first [ rewrite (proj2 (Z.leb_le a b)) by lia
                   | rewrite (proj2 (Z.leb_gt a b)) by lia ]
         | |- context [?a =? ?b] =>
             first [ rewrite (proj2 (Z.eqb_eq a b)) by lia
                   | rewrite (proj2 (Z.eqb_neq a b)) by lia ]
         end.

Lemma utf8_decode_encode_char c bs rest :
  utf8_encode_char c = Some bs ->
  utf8_decode_vals (bs ++ rest) = cons c <$> utf8_decode_vals rest.
Proof.
  unfold utf8_encode_char.
  destruct (in_range 0 127 c) eqn:E1.
  { apply in_range_spec in E1. intros [= <-]. cbn [app utf8_decode_vals].
    by decide_bool. }
  destruct (in_range 128 2047 c) eqn:E2.
  { apply in_range_spec in E2. intros [= <-]. cbn [app utf8_decode_vals].
    pose proof (Z.div_mod c 64 ltac:(lia)) as Hdm.
    pose proof (Z.mod_pos_bound c 64 ltac:(lia)) as Hm.
    assert (2 <= c / 64 <= 31) by lia.
    unfold in_range, is_cont. decide_bool. cbn [andb]. do 2 f_equal. lia. }
  destruct (in_range 55296 57343 c) eqn:E3; [discriminate|].
  destruct (in_range 2048 65535 c) eqn:E4.
  { apply in_range_spec in E4. intros [= <-]. cbn [app utf8_decode_vals].
    assert (~ (55296 <= c <= 57343)) as Hs
      by (rewrite <- in_range_spec; congruence).
    pose proof (Z.div_mod c 64 ltac:(lia)) as Hdm.
    pose proof (Z.mod_pos_bound c 64 ltac:(lia)) as Hm.
    pose proof (Z.div_mod (c / 64) 64 ltac:(lia)) as Hdm2.
    pose proof (Z.mod_pos_bound (c / 64) 64 ltac:(lia)) as Hm2.
    assert (c / 4096 = c / 64 / 64) as Hd by (rewrite Z.div_div by lia; reflexivity).
    assert (0 <= c / 4096 <= 15) by lia.
    unfold in_range, is_cont, second_of_3, in_range, is_cont.
    destruct (Z.eqb_spec (224 + c / 4096) 224);
      [|destruct (Z.eqb_spec (224 + c / 4096) 237)];
      decide_bool; cbn [andb]; do 2 f_equal; lia. }
  destruct (in_range 65536 1114111 c) eqn:E5; [|discriminate].
  apply in_range_spec in E5. intros [= <-]. cbn [app utf8_decode_vals].
  pose proof (Z.div_mod c 64 ltac:(lia)) as Hdm.
  pose proof (Z.mod_pos_bound c 64 ltac:(lia)) as Hm.
  pose proof (Z.div_mod (c / 64) 64 ltac:(lia)) as Hdm2.
  pose proof (Z.mod_pos_bound (c / 64) 64 ltac:(lia)) as Hm2.
  pose proof (Z.div_mod (c / 4096) 64 ltac:(lia)) as Hdm3.
  pose proof (Z.mod_pos_bound (c / 4096) 64 ltac:(lia)) as Hm3.
  assert (c / 4096 = c / 64 / 64) as Hd by (rewrite Z.div_div by lia; reflexivity).
  assert (c / 262144 = c / 4096 / 64) as Hd2 by (rewrite Z.div_div by lia; reflexivity).
  assert (0 <= c / 262144 <= 4) by lia.
  unfold in_range, is_cont, second_of_4, in_range, is_cont.
  destruct (Z.eqb_spec (240 + c / 262144) 240);
    [|destruct (Z.eqb_spec (240 + c / 262144) 244)];
    decide_bool; cbn [andb]; do 2 f_equal; lia.
Qed.

Lemma byte_val_of_Z z : 0 <= z < 256 -> byte_val (byte_of_Z z) = z.
Proof.
  intros Hz. unfold byte_val, byte_of_Z.
  destruct (Byte.of_N (Z.to_N z)) as [b|] eqn:E.
  - apply Byte.to_of_N in E. rewrite E. lia.
  - apply Byte.of_N_None_iff in E. lia.
Qed.

Lemma utf8_encode_char_bytes c bs :
  utf8_encode_char c = Some bs -> Forall (fun b => 0 <= b < 256) bs.
Proof.
  unfold utf8_encode_char.
  destruct (in_range 0 127 c) eqn:E1.
  { apply in_range_spec in E1. intros [= <-]. repeat constructor; lia. }
  destruct (in_range 128 2047 c) eqn:E2.
  { apply in_range_spec in E2. intros [= <-].
    pose proof (Z.div_mod c 64 ltac:(lia)).
    pose proof (Z.mod_pos_bound c 64 ltac:(lia)).
    repeat constructor; lia. }
  destruct (in_range 55296 57343 c); [discriminate|].
  destruct (in_range 2048 65535 c) eqn:E4.
  { apply in_range_spec in E4. intros [= <-].
    pose proof (Z.div_mod c 4096 ltac:(lia)).
    pose proof (Z.mod_pos_bound c 4096 ltac:(lia)).
    pose proof (Z.mod_pos_bound c 64 ltac:(lia)).
    pose proof (Z.mod_pos_bound (c / 64) 64 ltac:(lia)).
    repeat constructor; lia. }
  destruct (in_range 65536 1114111 c) eqn:E5; [|discriminate].
  apply in_range_spec in E5. intros [= <-].
  pose proof (Z.div_mod c 262144 ltac:(lia)).
  pose proof (Z.mod_pos_bound c 262144 ltac:(lia)).
  pose proof (Z.mod_pos_bound c 64 ltac:(lia)).
  pose proof (Z.mod_pos_bound (c / 64) 64 ltac:(lia)).
  pose proof (Z.mod_pos_bound (c / 4096) 64 ltac:(lia)).
  repeat constructor; lia.
Qed.

Lemma utf8_encode_vals_bytes s bs :
  utf8_encode_vals s = Some bs -> Forall (fun b => 0 <= b < 256) bs.
Proof.
  revert bs; induction s as [|c s IH]; intros bs; simpl.
  - intros [= <-]. constructor.
  - destruct (utf8_encode_char c) as [bc|] eqn:Ec; [|discriminate].
    destruct (utf8_encode_vals s) as [rest|]; [|discriminate].
    intros [= <-]. apply Forall_app. split; [|by apply IH].
    by eapply utf8_encode_char_bytes.
Qed.

Lemma utf8_decode_encode_vals s bs :
  utf8_encode_vals s = Some bs -> utf8_decode_vals bs = Some s.
Proof.
  revert bs; induction s as [|c s IH]; intros bs; simpl.
  - by intros [= <-].
  - destruct (utf8_encode_char c) as [bc|] eqn:Ec; [|discriminate].
    destruct (utf8_encode_vals s) as [rest|]; [|discriminate].
    intros [= <-]. rewrite (utf8_decode_encode_char c bc rest Ec).
    by rewrite (IH rest eq_refl).
Qed.

(** Decoding what encoding has produced gives the text back. *)
Lemma utf8_decode_encode s data :
  utf8_encode s = Some data -> utf8_decode data = Some s.
Proof.
  unfold utf8_encode, utf8_decode.
  destruct (utf8_encode_vals s) as [bs|] eqn:E; [|discriminate].
  intros [= <-]. rewrite map_map.
  rewrite (map_ext_Forall _ id).
  - rewrite map_id. by apply utf8_decode_encode_vals.
  - eapply Forall_impl; [by eapply utf8_encode_vals_bytes|].
    intros b Hb. by apply byte_val_of_Z.
Qed.

(** ** Strings *)

Lemma startswith_true s p : startswith s p = true <-> exists rest, s = p ++ rest.
Proof.
  revert s; induction p as [|a p IH]; intros s; simpl.
  - split; [intros _; by exists s | done].
  - destruct s as [|b s]; simpl.
    + split; [discriminate | intros [rest H]; discriminate].
    + rewrite andb_true_iff, Z.eqb_eq, IH. split.
      * intros [-> [rest ->]]. eauto.
      * intros [rest H]. injection H as -> ->. eauto.
Qed.

Lemma startswith_app p rest : startswith (p ++ rest) p = true.
Proof. apply startswith_true. eauto. Qed.

Lemma startswith_head_ne c s a p : c <> a -> startswith (c :: s) (a :: p) = false.
Proof.
  intros H. simpl. destruct (Z.eqb_spec a c); [congruence | reflexivity].
Qed.

Lemma take_while_lstrip p s : take_while p s ++ lstrip_by p s = s.
Proof.
  induction s as [|c s IH]; simpl; [reflexivity|].
  destruct (p c); simpl; [by rewrite IH | reflexivity].
Qed.

Lemma take_while_Forall p s : Forall (fun c => p c = true) (take_while p s).
Proof.
  induction s as [|c s IH]; simpl; [constructor|].
  destruct (p c) eqn:E; constructor; assumption.
Qed.

Lemma lstrip_by_head p s c s' : lstrip_by p s = c :: s' -> p c = false.
Proof.
  induction s as [|a s IH]; simpl; [discriminate|].
  destruct (p a) eqn:E; [exact IH | congruence].
Qed.

Lemma take_length_lstrip p s :
  take (length s - length (lstrip_by p s)) s = take_while p s.
Proof.
  rewrite <- (take_while_lstrip p s) at 1 3.
  rewrite length_app.
  replace (length (take_while p s) + length (lstrip_by p s)
           - length (lstrip_by p s))%nat
    with (length (take_while p s)) by lia.
  by rewrite take_app_length.
Qed.

Lemma lstrip_by_app p ws rest :
  Forall (fun c => p c = true) ws ->
  (forall c rest', rest = c :: rest' -> p c = false) ->
  lstrip_by p (ws ++ rest) = rest.
Proof.
  intros Hws Hrest. induction Hws as [|c ws Hc _ IH]; simpl.
  - destruct rest as [|c rest']; [reflexivity|].
    simpl. by rewrite (Hrest c rest').
  - by rewrite Hc.
Qed.

Lemma take_while_app p tok rest :
  Forall (fun c => p c = true) tok ->
  (forall c rest', rest = c :: rest' -> p c = false) ->
  take_while p (tok ++ rest) = tok.
Proof.
  intros Htok Hrest. induction Htok as [|c tok Hc _ IH]; simpl.
  - destruct rest as [|c rest']; [reflexivity|].
    simpl. by rewrite (Hrest c rest').
  - by rewrite Hc, IH.
Qed.

Lemma nonempty_true s : nonempty s = true <-> s <> [].
Proof. destruct s; simpl; split; congruence. Qed.

(** ** The matcher *)

Lemma star_states_head k s g :
  exists rest, star_states k s g = (lstrip_by (in_class k) s, g) :: rest.
Proof.
  induction s as [|c s [rest IH]]; simpl; [eauto|].
  destruct (in_class k c); [|eauto].
  rewrite IH. simpl. eauto.
Qed.

(** Backtracking over [\k*] finds nothing when what follows cannot start
    with a character of the class: only the longest run is left. *)
Lemma flat_map_star {B} (f : mstate -> list B) k s g :
  (forall c s', in_class k c = true -> f (c :: s', g) = []) ->
  flat_map f (star_states k s g) = f (lstrip_by (in_class k) s, g).
Proof.
  intros Hf. induction s as [|c s IH]; simpl.
  - by rewrite app_nil_r.
  - destruct (in_class k c) eqn:E; simpl.
    + rewrite flat_map_app, IH. simpl. rewrite (Hf c s E).
      by rewrite !app_nil_r.
    + by rewrite app_nil_r.
Qed.

Lemma flat_map_map {A B C} (f : B -> list C) (h : A -> B) l :
  flat_map f (map h l) = flat_map (fun x => f (h x)) l.
Proof. induction l as [|x l IH]; simpl; [reflexivity | by rewrite IH]. Qed.

Lemma first_group_app_nil (l : list mstate) : first_group (l ++ []) = first_group l.
Proof. by rewrite app_nil_r. Qed.

Lemma rmatch_lit_star_lit_group L1 k1 c2 L2 k2 s :
  in_class k1 c2 = false ->
  first_group
    (rmatch (RSeq (RLit L1)
               (RSeq (RStar k1) (RSeq (RLit (c2 :: L2)) (RGroup (RPlus k2)))))
            s None)
  = Some <$> lit_star_lit_group_at L1 k1 (c2 :: L2) k2 s.
Proof.
  intros Hc2. unfold lit_star_lit_group_at.
  cbn [rmatch]. destruct (startswith s L1); [|reflexivity].
  cbn [flat_map fst snd]. rewrite app_nil_r.
  rewrite flat_map_star.
  2:{ intros c s' Hc. cbn [fst snd flat_map].
      rewrite startswith_head_ne; [reflexivity|]. congruence. }
  cbn [fst snd]. set (r := lstrip_by (in_class k1) (drop (length L1) s)).
  destruct (startswith r (c2 :: L2)); [|reflexivity].
  cbn [flat_map fst snd]. rewrite app_nil_r.
  set (t := drop (length (c2 :: L2)) r).
  destruct t as [|c t']; [reflexivity|]. cbn [take_while].
  destruct (in_class k2 c) eqn:E; [|reflexivity].
  destruct (star_states_head k2 t' None) as [rest ->].
  cbn [map first_group fst snd nonempty fmap option_fmap option_map].
  do 2 f_equal.
  pose proof (take_length_lstrip (in_class k2) (c :: t')) as H.
  cbn [lstrip_by take_while] in H. rewrite E in H. exact H.
Qed.

Lemma rmatch_lit_star_group_lit L1 k1 k2 c3 L3 s :
  (forall c, in_class k1 c = true -> in_class k2 c = false) ->
  in_class k2 c3 = false ->
  first_group
    (rmatch (RSeq (RLit L1)
               (RSeq (RStar k1) (RSeq (RGroup (RPlus k2)) (RLit (c3 :: L3)))))
            s None)
  = Some <$> lit_star_group_lit_at L1 k1 k2 (c3 :: L3) s.
Proof.
  intros Hdisj Hc3. unfold lit_star_group_lit_at.
  cbn [rmatch]. destruct (startswith s L1); [|reflexivity].
  cbn [flat_map fst snd]. rewrite app_nil_r.
  rewrite flat_map_star.
  2:{ intros c s' Hc. cbn [fst snd]. by rewrite (Hdisj c Hc). }
  cbn [fst snd]. set (r := lstrip_by (in_class k1) (drop (length L1) s)).
  destruct r as [|c r']; [reflexivity|]. cbn [take_while lstrip_by].
  destruct (in_class k2 c) eqn:E; [|reflexivity].
  rewrite flat_map_map, flat_map_star.
  2:{ intros c' s' Hc'. cbn [fst snd].
      rewrite startswith_head_ne; [reflexivity|]. congruence. }
  cbn [fst snd nonempty andb].
  destruct (startswith (lstrip_by (in_class k2) r') (c3 :: L3)); [|reflexivity].
  cbn [first_group snd fmap option_fmap option_map]. do 2 f_equal.
  pose proof (take_length_lstrip (in_class k2) (c :: r')) as H.
  cbn [lstrip_by take_while] in H. rewrite E in H. exact H.
Qed.

Lemma search_find_first r at_pos :
  (forall s, first_group (rmatch r s None) = Some <$> at_pos s) ->
  forall s, search r s = Some <$> find_first at_pos s.
Proof.
  intros H s. induction s as [|c s IH]; simpl.
  - specialize (H []). destruct (rmatch r [] None); simpl in H;
      destruct (at_pos []); simpl in *; congruence.
  - specialize (H (c :: s)). destruct (rmatch r (c :: s) None); simpl in H;
      destruct (at_pos (c :: s)); simpl in *; congruence.
Qed.

Lemma find_first_unfold {A} (at_pos : str -> option A) s :
  find_first at_pos s =
  match at_pos s with
  | Some a => Some a
  | None => match s with [] => None | _ :: s' => find_first at_pos s' end
  end.
Proof. destruct s; reflexivity. Qed.

Lemma find_first_Some {A} (at_pos : str -> option A) s a :
  find_first at_pos s = Some a <->
  exists pre suf,
    s = pre ++ suf /\ at_pos suf = Some a
    /\ forall pre' suf', s = pre' ++ suf' ->
                         (length pre' < length pre)%nat -> at_pos suf' = None.
Proof.
  induction s as [|c s IH]; rewrite find_first_unfold.
  - destruct (at_pos []) eqn:E.
    + split.
      * intros [= ->]. exists [], []. repeat split; [done|]. simpl; lia.
      * intros (pre & suf & Hs & Hat & _).
        symmetry in Hs. apply app_eq_nil in Hs as [-> ->]. congruence.
    + split; [discriminate|].
      intros (pre & suf & Hs & Hat & _).
      symmetry in Hs. apply app_eq_nil in Hs as [-> ->]. congruence.
  - destruct (at_pos (c :: s)) eqn:E.
    + split.
      * intros [= ->]. exists [], (c :: s). repeat split; [done|]. simpl; lia.
      * intros (pre & suf & Hs & Hat & Hmin). destruct pre as [|c' pre].
        -- simpl in Hs. subst suf. congruence.
        -- rewrite (Hmin [] (c :: s)) in E; [discriminate | done | simpl; lia].
    + rewrite IH. split.
      * intros (pre & suf & -> & Hat & Hmin). exists (c :: pre), suf.
        repeat split; [done|]. intros pre' suf' Hs Hlen.
        destruct pre' as [|c' pre']; simpl in Hs.
        -- by subst suf'.
        -- injection Hs as -> Hs. apply (Hmin pre' suf' Hs). simpl in Hlen; lia.
      * intros (pre & suf & Hs & Hat & Hmin). destruct pre as [|c' pre].
        -- simpl in Hs. subst suf. congruence.
        -- injection Hs as -> ->. exists pre, suf. repeat split; [done|].
           intros pre' suf' Hs Hlen. apply (Hmin (c' :: pre') suf').
           ++ simpl. by rewrite Hs.
           ++ simpl. lia.
Qed.

Lemma find_first_None {A} (at_pos : str -> option A) s :
  find_first at_pos s = None <->
  forall pre suf, s = pre ++ suf -> at_pos suf = None.
Proof.
  induction s as [|c s IH]; rewrite find_first_unfold.
  - destruct (at_pos []) eqn:E.
    + split; [discriminate|]. intros H. rewrite (H [] []) in E; done.
    + split; [|done]. intros _ pre suf Hs.
      symmetry in Hs. apply app_eq_nil in Hs as [-> ->]. done.
  - destruct (at_pos (c :: s)) eqn:E.
    + split; [discriminate|]. intros H. rewrite (H [] (c :: s)) in E; done.
    + rewrite IH. split.
      * intros H pre suf Hs. destruct pre as [|c' pre]; simpl in Hs.
        -- by subst suf.
        -- injection Hs as -> Hs. by apply (H pre).
      * intros H pre suf Hs. apply (H (c :: pre)). simpl. by rewrite Hs.
Qed.

(** The deterministic readings say what the field predicates say. *)
Lemma lit_star_lit_group_at_Some L1 k1 c2 L2 k2 s tok :
  in_class k1 c2 = false ->
  lit_star_lit_group_at L1 k1 (c2 :: L2) k2 s = Some tok <->
  exists ws post,
    s = L1 ++ ws ++ (c2 :: L2) ++ tok ++ post
    /\ Forall (fun c => in_class k1 c = true) ws
    /\ tok <> []
    /\ Forall (fun c => in_class k2 c = true) tok
    /\ (forall c post', post = c :: post' -> in_class k2 c = false).
Proof.
  intros Hc2. unfold lit_star_lit_group_at. split.
  - destruct (startswith s L1) eqn:E1; [|discriminate].
    apply startswith_true in E1 as [rest ->]. rewrite drop_app_length.
    destruct (startswith _ (c2 :: L2)) eqn:E2; [|discriminate].
    apply startswith_true in E2 as [t E2]. rewrite E2, drop_app_length.
    destruct (nonempty _) eqn:E3; [|discriminate]. intros [= <-].
    exists (take_while (in_class k1) rest), (lstrip_by (in_class k2) t).
    repeat split.
    + rewrite (take_while_lstrip (in_class k2) t), <- E2.
      by rewrite (take_while_lstrip (in_class k1) rest).
    + apply take_while_Forall.
    + by apply nonempty_true.
    + apply take_while_Forall.
    + intros c post'. apply lstrip_by_head.
  - intros (ws & post & -> & Hws & Hne & Htok & Hpost).
    rewrite startswith_app, drop_app_length.
    rewrite lstrip_by_app; [|done|].
    2:{ intros c rest' [= <- _]. done. }
    rewrite startswith_app, drop_app_length.
    rewrite take_while_app; [|done|done].
    apply nonempty_true in Hne. by rewrite Hne.
Qed.

Lemma lit_star_group_lit_at_Some L1 k1 k2 c3 L3 s tok :
  (forall c, in_class k1 c = true -> in_class k2 c = false) ->
  in_class k2 c3 = false ->
  lit_star_group_lit_at L1 k1 k2 (c3 :: L3) s = Some tok <->
  exists ws post,
    s = L1 ++ ws ++ tok ++ (c3 :: L3) ++ post
    /\ Forall (fun c => in_class k1 c = true) ws
    /\ tok <> []
    /\ Forall (fun c => in_class k2 c = true) tok.
Proof.
  intros Hdisj Hc3. unfold lit_star_group_lit_at. split.
  - destruct (startswith s L1) eqn:E1; [|discriminate].
    apply startswith_true in E1 as [rest ->]. rewrite drop_app_length.
    set (r := lstrip_by (in_class k1) rest).
    destruct (nonempty _) eqn:E3; [|discriminate]. cbn [andb].
    destruct (startswith _ (c3 :: L3)) eqn:E2; [|discriminate].
    apply startswith_true in E2 as [post E2]. intros [= <-].
    exists (take_while (in_class k1) rest), post. repeat split.
    + rewrite <- E2, (take_while_lstrip (in_class k2) r). subst r.
      by rewrite (take_while_lstrip (in_class k1) rest).
    + apply take_while_Forall.
    + by apply nonempty_true.
    + apply take_while_Forall.
  - intros (ws & post & -> & Hws & Hne & Htok).
    rewrite startswith_app, drop_app_length.
    assert (Hhd : forall c rest', tok ++ (c3 :: L3) ++ post = c :: rest' ->
                                  in_class k1 c = false).
    { intros c rest' Heq. destruct Htok as [|c' tok Hc' _]; [done|].
      injection Heq as <- _. destruct (in_class k1 c') eqn:E; [|done].
      by rewrite (Hdisj c' E) in Hc'. }
    rewrite lstrip_by_app; [|done|done].
    assert (Hhd3 : forall c rest', (c3 :: L3) ++ post = c :: rest' ->
                                   in_class k2 c = false).
    { intros c rest' [= <- _]. done. }
    rewrite take_while_app; [|done|done].
    rewrite (lstrip_by_app (in_class k2) tok); [|done|done].
    rewrite startswith_app. apply nonempty_true in Hne. by rewrite Hne.
Qed.

Lemma first_field_find_first (field : str -> str -> str -> Prop)
    (at_pos : str -> option str) :
  (forall pre suf x, field (pre ++ suf) pre x <-> at_pos suf = Some x) ->
  (forall content pre x, field content pre x -> exists suf, content = pre ++ suf) ->
  forall content x,
    first_field field content x <-> find_first at_pos content = Some x.
Proof.
  intros Hat Hsplit content x. rewrite find_first_Some. split.
  - intros (pre & Hf & Hmin). destruct (Hsplit _ _ _ Hf) as [suf ->].
    exists pre, suf. split; [done|]. split; [by apply (proj1 (Hat pre suf x))|].
    intros pre' suf' Hs Hlen. destruct (at_pos suf') as [x'|] eqn:E; [|done].
    apply (proj2 (Hat pre' suf' x')) in E. rewrite <- Hs in E.
    specialize (Hmin pre' x' E). lia.
  - intros (pre & suf & -> & Hsome & Hmin). exists pre.
    split; [by apply (proj2 (Hat pre suf x))|].
    intros pre' x' Hf. destruct (Hsplit _ _ _ Hf) as [suf' Hs].
    destruct (decide (length pre' < length pre)%nat) as [Hlt|]; [|lia].
    rewrite Hs in Hf. apply (proj1 (Hat pre' suf' x')) in Hf.
    rewrite (Hmin pre' suf' Hs Hlt) in Hf. discriminate.
Qed.

Lemma no_field_find_first (field : str -> str -> str -> Prop)
    (at_pos : str -> option str) :
  (forall pre suf x, field (pre ++ suf) pre x <-> at_pos suf = Some x) ->
  (forall content pre x, field content pre x -> exists suf, content = pre ++ suf) ->
  forall content, no_field field content <-> find_first at_pos content = None.
Proof.
  intros Hat Hsplit content. rewrite find_first_None. split.
  - intros Hno pre suf ->. destruct (at_pos suf) as [x|] eqn:E; [|done].
    apply (proj2 (Hat pre suf x)) in E. by apply Hno in E.
  - intros Hnone pre x Hf. destruct (Hsplit _ _ _ Hf) as [suf Hs].
    rewrite Hs in Hf. apply (proj1 (Hat pre suf x)) in Hf.
    by rewrite (Hnone pre suf Hs) in Hf.
Qed.

(** ** The manifest inspectors *)

Lemma search_user_pattern content :
  search user_pattern content = Some <$> find_first user_at content.
Proof.
  apply search_find_first. intros s.
  apply (rmatch_lit_star_lit_group (lit "container_name:") CSpace
           119 (lit "ebtop-ubuntu-xfce-") CWord).
  reflexivity.
Qed.

Lemma space_not_digit c : in_class CSpace c = true -> in_class CDigit c = false.
Proof. unfold in_class, is_space, is_digit. by destruct (classify c). Qed.

Lemma search_port_pattern content :
  search port_pattern content = Some <$> find_first port_at content.
Proof.
  apply search_find_first. intros s.
  apply (rmatch_lit_star_group_lit (lit "-") CSpace CDigit 58 (lit "3000")).
  - apply space_not_digit.
  - reflexivity.
Qed.

Lemma has_user_field_at pre suf tok :
  has_user_field (pre ++ suf) pre tok <-> user_at suf = Some tok.
Proof.
  unfold user_at.
  rewrite (lit_star_lit_group_at_Some (lit "container_name:") CSpace
             119 (lit "ebtop-ubuntu-xfce-") CWord suf tok eq_refl).
  unfold has_user_field. split.
  - intros (ws & post & Heq & H). apply app_inv_head in Heq. eauto.
  - intros (ws & post & -> & H). eauto.
Qed.

Lemma has_port_mapping_at pre suf digits :
  has_port_mapping (pre ++ suf) pre digits <-> port_at suf = Some digits.
Proof.
  unfold port_at.
  rewrite (lit_star_group_lit_at_Some (lit "-") CSpace CDigit
             58 (lit "3000") suf digits space_not_digit eq_refl).
  unfold has_port_mapping. split.
  - intros (ws & post & Heq & H). apply app_inv_head in Heq. eauto.
  - intros (ws & post & -> & H). eauto.
Qed.

Lemma has_user_field_split content pre tok :
  has_user_field content pre tok -> exists suf, content = pre ++ suf.
Proof. intros (ws & post & -> & _). eauto. Qed.

Lemma has_port_mapping_split content pre digits :
  has_port_mapping content pre digits -> exists suf, content = pre ++ suf.
Proof. intros (ws & post & -> & _). eauto. Qed.

Lemma extract_user_value yaml_file :
  (extract_user_from_yaml yaml_file).1 =
  match utf8_decode (stream yaml_file) with
  | Some content => find_first user_at content
  | None => None
  end.
Proof.
  unfold extract_user_from_yaml, read, seek0. cbn [position stream].
  rewrite drop_0.
  destruct (utf8_decode (stream yaml_file)) as [content|]; [|reflexivity].
  rewrite search_user_pattern.
  by destruct (find_first user_at content).
Qed.

Lemma extract_port_value yaml_file :
  (extract_port_from_yaml yaml_file).1 =
  match utf8_decode (stream yaml_file) with
  | Some content =>
      match find_first port_at content with
      | Some digits => int_of_str digits
      | None => None
      end
  | None => None
  end.
Proof.
  unfold extract_port_from_yaml, read, seek0. cbn [position stream].
  rewrite drop_0.
  destruct (utf8_decode (stream yaml_file)) as [content|]; [|reflexivity].
  rewrite search_port_pattern.
  by destruct (find_first port_at content).
Qed.

(** What identity extraction returns comes from the first field. *)
Lemma extract_user_Some yaml_file tok :
  (extract_user_from_yaml yaml_file).1 = Some tok ->
  exists content,
    utf8_decode (stream yaml_file) = Some content
    /\ first_field has_user_field content tok.
Proof.
  rewrite extract_user_value.
  destruct (utf8_decode (stream yaml_file)) as [content|]; [|discriminate].
  intros H. exists content. split; [done|].
  by apply (proj2 (first_field_find_first has_user_field user_at
                     has_user_field_at has_user_field_split content tok)).
Qed.

(** C2. Identity extraction: when the manifest bytes decode to a text
    with a naming-convention field [container_name: webtop-ubuntu-xfce-<token>],
    the result is the token of the first such field; when the text has no
    such field, or the bytes do not decode, the result is [None]. *)
Theorem extract_user_from_yaml_spec (yaml_file : FileStorage) :
  (forall content tok,
      utf8_decode (stream yaml_file) = Some content ->
      first_field has_user_field content tok ->
      (extract_user_from_yaml yaml_file).1 = Some tok)
  /\ ((utf8_decode (stream yaml_file) = None
       \/ exists content,
            utf8_decode (stream yaml_file) = Some content
            /\ no_field has_user_field content) ->
      (extract_user_from_yaml yaml_file).1 = None).
Proof.
  rewrite extract_user_value. split.
  - intros content tok -> Hfirst.
    by apply (proj1 (first_field_find_first has_user_field user_at
                       has_user_field_at has_user_field_split content tok)).
  - intros [-> | (content & -> & Hno)]; [reflexivity|].
    by apply (proj1 (no_field_find_first has_user_field user_at
                       has_user_field_at has_user_field_split content)).
Qed.

(** What port extraction returns is [int] of the digits of the first
    mapping. *)
Lemma extract_port_first_mapping yaml_file content digits :
  utf8_decode (stream yaml_file) = Some content ->
  first_field has_port_mapping content digits ->
  (extract_port_from_yaml yaml_file).1 = int_of_str digits.
Proof.
  rewrite extract_port_value. intros -> Hfirst.
  apply (proj1 (first_field_find_first has_port_mapping port_at
                  has_port_mapping_at has_port_mapping_split content digits))
    in Hfirst.
  by rewrite Hfirst.
Qed.

(** C3, as the code has it.  Port extraction: when the manifest bytes
    decode to a text with a port mapping [- <N>:3000], the result is the
    integer the digits of the first such mapping denote, provided they
    are no more than the 4300 digits that [int] converts; when they are
    more, or the text has no such mapping, or the bytes do not decode,
    the result is [None].  The function is total: no exception leaves
    it. *)
Theorem extract_port_from_yaml_spec (yaml_file : FileStorage) :
  (forall content digits,
      utf8_decode (stream yaml_file) = Some content ->
      first_field has_port_mapping content digits ->
      (length digits <= int_max_str_digits)%nat ->
      (extract_port_from_yaml yaml_file).1 = Some (decimal_value digits))
  /\ (forall content digits,
         utf8_decode (stream yaml_file) = Some content ->
         first_field has_port_mapping content digits ->
         (int_max_str_digits < length digits)%nat ->
         (extract_port_from_yaml yaml_file).1 = None)
  /\ ((utf8_decode (stream yaml_file) = None
       \/ exists content,
            utf8_decode (stream yaml_file) = Some content
            /\ no_field has_port_mapping content) ->
      (extract_port_from_yaml yaml_file).1 = None).
Proof.
  split; [|split].
  - intros content digits Hdec Hfirst Hlen.
    rewrite (extract_port_first_mapping _ _ _ Hdec Hfirst). unfold int_of_str.
    by rewrite (proj2 (Nat.leb_le _ _) Hlen).
  - intros content digits Hdec Hfirst Hlen.
    rewrite (extract_port_first_mapping _ _ _ Hdec Hfirst). unfold int_of_str.
    by rewrite (proj2 (Nat.leb_gt _ _) Hlen).
  - rewrite extract_port_value.
    intros [-> | (content & -> & Hno)]; [reflexivity|].
    apply (proj1 (no_field_find_first has_port_mapping port_at
                    has_port_mapping_at has_port_mapping_split content)) in Hno.
    by rewrite Hno.
Qed.

(** ** Paths and sanitised names *)

Lemma str_eqb_eq a b : str_eqb a b = true <-> a = b.
Proof.
  revert b; induction a as [|x a IH]; intros [|y b]; simpl;
    try (split; congruence).
  rewrite andb_true_iff, Z.eqb_eq, IH. split; [intros [-> ->]; done|].
  intros [= -> ->]; done.
Qed.

Lemma str_eqb_false a b : a <> b -> str_eqb a b = false.
Proof.
  intros H. destruct (str_eqb a b) eqn:E; [|done].
  by apply str_eqb_eq in E.
Qed.

Lemma split_on_app sep a b cur :
  split_on sep (a ++ sep :: b) cur = split_on sep a cur ++ split_on sep b [].
Proof.
  revert cur; induction a as [|c a IH]; intros cur; simpl.
  - by rewrite Z.eqb_refl.
  - destruct (c =? sep); [by rewrite IH | apply IH].
Qed.

Lemma split_on_no_sep sep n cur :
  Forall (fun c => c <> sep) n -> split_on sep n cur = [rev cur ++ n].
Proof.
  intros H; revert cur; induction H as [|c n Hc _ IH]; intros cur; simpl.
  - by rewrite app_nil_r.
  - destruct (Z.eqb_spec c sep); [done|].
    rewrite IH. simpl. by rewrite <- app_assoc.
Qed.

(** A last component without separator that is not empty, [.] or [..]
    names an entry of the directory the rest of the path names. *)
Lemma resolve_app_component a n :
  Forall (fun c => c <> 47) n ->
  n <> [] -> n <> lit "." -> n <> lit ".." ->
  resolve (a ++ lit "/" ++ n) = resolve a ++ [n].
Proof.
  intros Hsep Hne Hdot Hdotdot. unfold resolve.
  change (a ++ lit "/" ++ n) with (a ++ 47 :: n).
  rewrite split_on_app, fold_left_app, (split_on_no_sep 47 n []); [|done].
  simpl. unfold resolve_step.
  rewrite (str_eqb_false n []), (str_eqb_false n (lit ".")),
    (str_eqb_false n (lit "..")); done.
Qed.

(** A trailing separator does not change the directory a path names. *)
Lemma resolve_trailing_slash a : resolve (a ++ lit "/") = resolve a.
Proof.
  unfold resolve. change (a ++ lit "/") with (a ++ 47 :: []).
  by rewrite split_on_app, fold_left_app.
Qed.

Lemma startswith_slash_false n :
  Forall (fun c => c <> 47) n -> startswith n (lit "/") = false.
Proof.
  intros H; destruct H as [|c n' Hc _]; [reflexivity|].
  change (lit "/") with [47]. by apply startswith_head_ne.
Qed.

Lemma endswith_slash_false a b :
  b <> [] -> Forall (fun c => c <> 47) b -> endswith (a ++ b) (lit "/") = false.
Proof.
  intros Hne Hb. unfold endswith. rewrite rev_app_distr.
  destruct (rev b) as [|c rb] eqn:E.
  - apply (f_equal (@rev Z)) in E. rewrite rev_involutive in E. done.
  - assert (c <> 47) as Hc.
    { apply (proj1 (List.Forall_forall (fun c => c <> 47) b) Hb).
      apply in_rev. rewrite E. by left. }
    change (rev (lit "/")) with [47]. by apply startswith_head_ne.
Qed.

Lemma path_join_plain a b :
  a <> [] -> endswith a (lit "/") = false -> startswith b (lit "/") = false ->
  path_join a b = a ++ lit "/" ++ b.
Proof.
  intros Ha He Hs. unfold path_join. rewrite Hs, He.
  apply nonempty_true in Ha. by rewrite Ha.
Qed.

Lemma lstrip_by_Forall (P : Z -> Prop) p s :
  Forall P s -> Forall P (lstrip_by p s).
Proof.
  induction 1 as [|c s Hc Hs IH]; simpl; [constructor|].
  destruct (p c); [done | by constructor].
Qed.

Lemma Forall_rev_str (P : Z -> Prop) (s : str) : Forall P s -> Forall P (rev s).
Proof.
  rewrite !List.Forall_forall. intros H x Hx. apply H. by apply in_rev.
Qed.

Lemma strip_by_Forall (P : Z -> Prop) p s :
  Forall P s -> Forall P (strip_by p s).
Proof.
  intros H. unfold strip_by.
  by apply Forall_rev_str, lstrip_by_Forall, Forall_rev_str, lstrip_by_Forall.
Qed.

Lemma strip_by_head p s c rest : strip_by p s = c :: rest -> p c = false.
Proof.
  unfold strip_by. set (t := lstrip_by p s). intros H.
  pose proof (take_while_lstrip p (rev t)) as Hsplit.
  apply (f_equal (@rev Z)) in Hsplit.
  rewrite rev_app_distr, rev_involutive, H in Hsplit.
  simpl in Hsplit. symmetry in Hsplit. by apply lstrip_by_head in Hsplit.
Qed.

Lemma filter_Forall_str (p : Z -> bool) (s : str) :
  Forall (fun c => p c = true) (List.filter p s).
Proof.
  induction s as [|c s IH]; simpl; [constructor|].
  destruct (p c) eqn:E; [by constructor | done].
Qed.

Lemma secure_filename_safe x :
  Forall (fun c => safe_char c = true) (secure_filename x).
Proof. unfold secure_filename, strip. apply strip_by_Forall, filter_Forall_str. Qed.

Lemma secure_filename_head x c rest :
  secure_filename x = c :: rest -> c <> 46.
Proof.
  unfold secure_filename, strip. intros H. apply strip_by_head in H.
  intros ->. discriminate.
Qed.

Lemma safe_char_not_sep c : safe_char c = true -> c <> 47.
Proof. intros H ->. discriminate. Qed.

Lemma safe_char_not_nl c : safe_char c = true -> c <> 10.
Proof. intros H ->. discriminate. Qed.

Lemma is_word_not_sep c : is_word c = true -> c <> 47.
Proof. intros H ->. discriminate. Qed.

Lemma is_word_not_nl c : is_word c = true -> c <> 10.
Proof. intros H ->. discriminate. Qed.

Lemma secure_filename_no_sep x : Forall (fun c => c <> 47) (secure_filename x).
Proof.
  eapply Forall_impl; [apply secure_filename_safe|]. apply safe_char_not_sep.
Qed.

(** A sanitised name is a single path component: it never is [.] or [..]. *)
Lemma secure_filename_component x :
  secure_filename x <> lit "." /\ secure_filename x <> lit "..".
Proof.
  split; intros H; by apply secure_filename_head in H.
Qed.

(** ** Computations *)

Lemma bind_Ok {A B} (c : M A) (k : A -> M B) w b w' :
  bind c k w = (Ok b, w') ->
  exists a w1, c w = (Ok a, w1) /\ k a w1 = (Ok b, w').
Proof. unfold bind. destruct (c w) as [[a|e] w1]; [eauto | discriminate]. Qed.

(** A run is known once its result is. *)
Lemma run_eq {A} (c : M A) w a : (c w).1 = Ok a -> c w = (Ok a, (c w).2).
Proof. destruct (c w) as [r w']. simpl. by intros ->. Qed.

Lemma confined_refl dir w : confined dir w w.
Proof.
  split; [|done]. exists []. by rewrite app_nil_r.
Qed.

Lemma confined_trans dir w1 w2 w3 :
  confined dir w1 w2 -> confined dir w2 w3 -> confined dir w1 w3.
Proof.
  intros [(evs1 & Ht1 & He1) Hf1] [(evs2 & Ht2 & He2) Hf2]. split.
  - exists (evs1 ++ evs2). rewrite Ht2, Ht1, <- app_assoc.
    split; [done | by apply Forall_app].
  - intros loc Hloc. by rewrite Hf2, Hf1.
Qed.

Lemma Confined_ret {A} dir (a : A) : Confined dir (ret a).
Proof. intros w r w' [= _ <-]. apply confined_refl. Qed.

Lemma Confined_raise {A} dir e : Confined dir (raise (A := A) e).
Proof. intros w r w' [= _ <-]. apply confined_refl. Qed.

Lemma Confined_bind {A B} dir (c : M A) (k : A -> M B) :
  Confined dir c -> (forall a, Confined dir (k a)) -> Confined dir (bind c k).
Proof.
  intros Hc Hk w r w' H. unfold bind in H.
  destruct (c w) as [[a|e] w1] eqn:E.
  - eapply confined_trans; [by eapply Hc | by eapply Hk].
  - injection H as _ <-. by eapply Hc.
Qed.

Lemma Confined_try_except {A} dir (c : M A) (h : exn -> M A) :
  Confined dir c -> (forall e, Confined dir (h e)) ->
  Confined dir (try_except c h).
Proof.
  intros Hc Hh w r w' H. unfold try_except in H.
  destruct (c w) as [[a|e] w1] eqn:E.
  - injection H as _ <-. by eapply Hc.
  - eapply confined_trans; [by eapply Hc | by eapply Hh].
Qed.

(** ** File system operations *)

Lemma lookup_path_resolved m p :
  resolve p <> [] -> lookup_path m p = m !! resolve p.
Proof. unfold lookup_path. by destruct (resolve p). Qed.

Lemma write_file_inv p data w r w' :
  write_file p data w = (r, w') ->
  (exists e, r = Raise e /\ w' = w)
  \/ (r = Ok tt /\ endswith p (lit "/") = false
      /\ exists mode,
           w' = log (set_fs w (<[resolve p := FileObj data mode]> (fs w)))
                    (EvWrite p)).
Proof.
  unfold write_file. destruct (endswith p (lit "/")); simpl.
  { intros [= <- <-]. left. eauto. }
  destruct (is_dir _).
  { intros [= <- <-]. left. eauto. }
  destruct (fs w !! resolve p) as [[d mode|]|].
  - intros [= <- <-]. right. eauto.
  - destruct (parent_is_dir _ _); intros [= <- <-]; [right|left]; eauto.
  - destruct (parent_is_dir _ _); intros [= <- <-]; [right|left]; eauto.
Qed.

Lemma endswith_app a b : endswith (a ++ b) b = true.
Proof. unfold endswith. rewrite rev_app_distr. apply startswith_app. Qed.

(** The names the service gives to the files it writes. *)
Lemma safe_name_props name :
  name = lit "run.sh" \/ (exists x, name = secure_filename x) ->
  Forall (fun c => safe_char c = true) name
  /\ name <> lit "." /\ name <> lit "..".
Proof.
  intros [-> | [x ->]].
  - split; [|done]. by repeat constructor.
  - split; [apply secure_filename_safe | apply secure_filename_component].
Qed.

Lemma path_join_name dir name :
  plain_dir dir ->
  Forall (fun c => safe_char c = true) name ->
  path_join dir name = dir ++ lit "/" ++ name.
Proof.
  intros [Hne Hend] Hsafe. apply path_join_plain; [done | done |].
  apply startswith_slash_false. eapply Forall_impl; [done|].
  apply safe_char_not_sep.
Qed.

Lemma resolve_join_name dir name :
  plain_dir dir ->
  name = lit "run.sh" \/ (exists x, name = secure_filename x) ->
  name <> [] ->
  resolve (path_join dir name) = resolve dir ++ [name].
Proof.
  intros Hdir Hname Hne. destruct (safe_name_props name Hname) as (Hs & H1 & H2).
  rewrite path_join_name; [|done|done].
  apply resolve_app_component; [|done|done|done].
  eapply Forall_impl; [done|]. apply safe_char_not_sep.
Qed.

Lemma path_join_empty dir : plain_dir dir -> path_join dir [] = dir ++ lit "/".
Proof. intros H. by rewrite path_join_name; [|done|constructor]. Qed.

Lemma confined_insert dir name w o e :
  inside_write dir e ->
  confined dir w (log (set_fs w (<[resolve dir ++ [name] := o]> (fs w))) e).
Proof.
  intros He. split.
  - exists [e]. split; [done | by constructor].
  - intros loc Hloc. simpl. apply lookup_insert_ne. intros <-. by eapply Hloc.
Qed.

Lemma Confined_write_file dir name data :
  plain_dir dir ->
  name = lit "run.sh" \/ (exists x, name = secure_filename x) ->
  Confined dir (write_file (path_join dir name) data).
Proof.
  intros Hdir Hname w r w' H.
  apply write_file_inv in H as [(e & -> & ->) | (-> & Hend & mode & ->)].
  { apply confined_refl. }
  assert (name <> []) as Hne.
  { intros ->. rewrite path_join_empty in Hend; [|done].
    by rewrite endswith_app in Hend. }
  rewrite (resolve_join_name dir name Hdir Hname Hne).
  apply confined_insert. exists name.
  destruct (safe_name_props name Hname) as (Hs & _).
  repeat split; try done. by apply resolve_join_name.
Qed.

Lemma Confined_write_text dir name chunks :
  plain_dir dir ->
  name = lit "run.sh" \/ (exists x, name = secure_filename x) ->
  Confined dir (write_text (path_join dir name) chunks).
Proof.
  intros Hdir Hname. unfold write_text.
  destruct (encode_writes chunks) as [data [e|]].
  - apply Confined_bind; [by apply Confined_write_file|].
    intros _. apply Confined_raise.
  - apply Confined_bind; [by apply Confined_write_file|].
    intros _. apply Confined_ret.
Qed.

Lemma Confined_chmod dir mode :
  plain_dir dir -> Confined dir (chmod (path_join dir (lit "run.sh")) mode).
Proof.
  intros Hdir w r w'. unfold chmod.
  destruct (lookup_path _ _) as [[data m|]|].
  - intros [= _ <-].
    rewrite (resolve_join_name dir (lit "run.sh")); [|done|by left|done].
    by apply confined_insert.
  - intros [= _ <-]. split; [|done]. eexists [_]. split; [done|].
    by constructor.
  - intros [= _ <-]. apply confined_refl.
Qed.

Lemma Confined_Popen dir argv cwd : Confined dir (subprocess_Popen argv cwd).
Proof.
  intros w r w' [= _ <-]. split; [|done]. eexists [_]. split; [done|].
  by constructor.
Qed.

Lemma Confined_save_group dir prefix fallback files keys saved count :
  plain_dir dir ->
  Confined dir (save_group prefix fallback files dir keys saved count).
Proof.
  intros Hdir. revert saved count.
  induction keys as [|key keys IH]; intros saved count; simpl.
  - apply Confined_ret.
  - destruct (startswith key prefix); [|apply IH].
    destruct (md_get files key) as [file|]; [|apply Confined_raise].
    apply Confined_bind; [|intros _; apply IH].
    apply Confined_write_file; [done|]. right. eauto.
Qed.

Lemma save_group_Ok prefix fallback files dir keys saved count w names w' :
  save_group prefix fallback files dir keys saved count w = (Ok names, w') ->
  names = saved ++ group_names prefix fallback files keys count.
Proof.
  revert saved count w.
  induction keys as [|key keys IH]; intros saved count w; simpl.
  - intros [= <- _]. by rewrite app_nil_r.
  - destruct (startswith key prefix); [|apply IH].
    destruct (md_get files key) as [file|]; [|discriminate].
    intros H. apply bind_Ok in H as ([] & w1 & _ & H).
    apply IH in H. by rewrite <- app_assoc in H.
Qed.

Lemma makedirs_from_spec done todo m m' :
  makedirs_from done todo m = Ok m' ->
  (forall loc o, m !! loc = Some o -> m' !! loc = Some o)
  /\ (forall loc, m' !! loc = m !! loc \/ m' !! loc = Some DirObj)
  /\ (todo <> [] -> m' !! (done ++ todo) = Some DirObj).
Proof.
  revert done m. induction todo as [|c rest IH]; intros done m; simpl.
  - intros [= <-]. repeat split; [done | by left | done].
  - rewrite (cons_middle c done rest), app_assoc.
    destruct (m !! (done ++ [c])) as [[data mode|]|] eqn:E; [discriminate| |].
    + intros H. destruct (IH _ _ H) as (H1 & H2 & H3).
      repeat split; [done | done |]. intros _.
      destruct rest as [|c' rest']; [|by apply H3].
      rewrite app_nil_r. by apply H1.
    + intros H. destruct (IH _ _ H) as (H1 & H2 & H3).
      repeat split.
      * intros loc o Hloc. apply H1. rewrite lookup_insert_ne; [done|].
        intros <-. congruence.
      * intros loc. destruct (H2 loc) as [Heq|]; [|by right].
        rewrite Heq. destruct (decide (done ++ [c] = loc)) as [<-|Hne].
        -- right. apply lookup_insert_eq.
        -- left. by apply lookup_insert_ne.
      * intros _. destruct rest as [|c' rest']; [|by apply H3].
        rewrite app_nil_r. apply H1. apply lookup_insert_eq.
Qed.

Lemma makedirs_Ok p w w' :
  makedirs p w = (Ok tt, w') ->
  trace w' = trace w ++ [EvMakedirs p]
  /\ (forall loc o, fs w !! loc = Some o -> fs w' !! loc = Some o)
  /\ (forall loc, fs w' !! loc = fs w !! loc \/ fs w' !! loc = Some DirObj)
  /\ (resolve p <> [] -> fs w' !! resolve p = Some DirObj).
Proof.
  unfold makedirs. destruct (makedirs_from _ _ _) as [m'|e] eqn:E; [|discriminate].
  intros [= <-]. apply makedirs_from_spec in E as (H1 & H2 & H3). done.
Qed.

Lemma makedirs_Raise p w e w' : makedirs p w = (Raise e, w') -> w' = w.
Proof.
  unfold makedirs. destruct (makedirs_from _ _ _); [discriminate|].
  by intros [= _ <-].
Qed.

(** ** The workload directory *)

Lemma webtop_dir_of_eq webtop_id :
  webtop_dir_of webtop_id = UPLOAD_DIR ++ lit "/" ++ lit "webtop_" ++ webtop_id.
Proof. reflexivity. Qed.

Lemma dir_name_no_sep webtop_id :
  Forall (fun c => c <> 47) webtop_id ->
  Forall (fun c => c <> 47) (lit "webtop_" ++ webtop_id).
Proof. intros H. apply Forall_app. split; [by repeat constructor | done]. Qed.

Lemma resolve_webtop_dir webtop_id :
  Forall (fun c => c <> 47) webtop_id ->
  resolve (webtop_dir_of webtop_id)
  = resolve UPLOAD_DIR ++ [lit "webtop_" ++ webtop_id].
Proof.
  intros H. rewrite webtop_dir_of_eq.
  apply resolve_app_component; [by apply dir_name_no_sep|done|done|done].
Qed.

Lemma plain_webtop_dir webtop_id :
  Forall (fun c => c <> 47) webtop_id -> plain_dir (webtop_dir_of webtop_id).
Proof.
  intros H. split; [done|]. rewrite webtop_dir_of_eq.
  rewrite (app_assoc UPLOAD_DIR).
  apply endswith_slash_false; [done | by apply dir_name_no_sep].
Qed.

Lemma word_id_no_sep webtop_id :
  word_id webtop_id -> Forall (fun c => c <> 47) webtop_id.
Proof.
  intros [_ H]. eapply Forall_impl; [done|]. apply is_word_not_sep.
Qed.

Lemma word_id_default : word_id (lit "default_user").
Proof. split; [done|]. by repeat constructor. Qed.

Lemma has_user_field_word content pre tok :
  has_user_field content pre tok -> word_id tok.
Proof. intros (ws & post & _ & _ & Hne & Hw & _). by split. Qed.

(** The identity [deploy_webtop] works with is made of word characters. *)
Lemma deploy_id_cases yaml_file :
  deploy_id yaml_file = lit "default_user"
  \/ (exists content,
        utf8_decode (stream yaml_file) = Some content
        /\ first_field has_user_field content (deploy_id yaml_file)).
Proof.
  unfold deploy_id, id_or_default.
  destruct (extract_user_from_yaml yaml_file).1 as [tok|] eqn:E; [|by left].
  destruct (nonempty tok); [|by left].
  right. by apply extract_user_Some.
Qed.

Lemma deploy_id_word yaml_file : word_id (deploy_id yaml_file).
Proof.
  destruct (deploy_id_cases yaml_file) as [-> | (content & _ & pre & H & _)].
  - apply word_id_default.
  - by eapply has_user_field_word.
Qed.

(** ** [deploy_webtop] *)

Lemma deploy_files_unfold files yaml_file :
  deploy_files files yaml_file =
  try_except
    (deploy_steps files (inspected yaml_file) (deploy_yaml_name yaml_file)
       (deploy_id yaml_file) (deploy_port yaml_file)
       (webtop_dir_of (deploy_id yaml_file)))
    (deploy_except (deploy_id yaml_file) (webtop_dir_of (deploy_id yaml_file))).
Proof.
  unfold deploy_files, inspected, deploy_id, deploy_port, deploy_yaml_name.
  destruct (extract_user_from_yaml yaml_file) as [extracted f1]. simpl.
  by destruct (extract_port_from_yaml f1) as [port f2].
Qed.

Lemma write_text_Ok p chunks w w' :
  write_text p chunks w = (Ok tt, w') ->
  exists data mode,
    encode_writes chunks = (data, None)
    /\ w' = log (set_fs w (<[resolve p := FileObj data mode]> (fs w)))
                (EvWrite p).
Proof.
  unfold write_text. destruct (encode_writes chunks) as [data [e|]]; intros H.
  - apply bind_Ok in H as ([] & w1 & _ & H). discriminate.
  - apply bind_Ok in H as ([] & w1 & Hw & [= <-]).
    apply write_file_inv in Hw as [(e' & He & _) | (_ & _ & mode & ->)];
      [discriminate | eauto].
Qed.

Lemma deploy_steps_Ok files yaml_file yaml_filename webtop_id port dir
    w resp code w' :
  plain_dir dir ->
  deploy_steps files yaml_file yaml_filename webtop_id port dir w
  = (Ok (resp, code), w') ->
  exists pid data,
    resp = JDict
             [ ("status", JStr (lit "success"));
               ("message",
                JStr (lit "Webtop deployment initiated for user: "
                      ++ webtop_id));
               ("webtop_dir", JStr dir);
               ("webtop_id", JStr webtop_id);
               ("port", json_of_port port);
               ("files",
                saved_files_json yaml_filename (build_names files)
                                 (resource_names files));
               ("process_id", JInt pid);
               ("container_name",
                JStr (lit "webtop-ubuntu-xfce-" ++ webtop_id)) ]
    /\ code = 200
    /\ encode_writes
         (run_sh_writes webtop_id dir yaml_filename (build_names files))
       = (data, None)
    /\ fs w' !! (resolve dir ++ [lit "run.sh"]) = Some (FileObj data 493).
Proof.
  intros Hdir H. unfold deploy_steps in H.
  apply bind_Ok in H as ([] & w1 & _ & H).
  apply bind_Ok in H as ([] & w2 & _ & H).
  apply bind_Ok in H as (dockerfiles & w3 & Hd & H).
  apply bind_Ok in H as (resources & w4 & Hr & H).
  apply save_group_Ok in Hd. apply save_group_Ok in Hr. simpl in Hd, Hr.
  fold (build_names files) in Hd. fold (resource_names files) in Hr.
  subst dockerfiles resources.
  apply bind_Ok in H as ([] & w5 & Hw & H).
  apply write_text_Ok in Hw as (data & mode & Henc & ->).
  assert (resolve (path_join dir (lit "run.sh")) = resolve dir ++ [lit "run.sh"])
    as Hres by (apply resolve_join_name; [done | by left | done]).
  apply bind_Ok in H as ([] & w6 & Hc & H).
  unfold chmod in Hc. rewrite lookup_path_resolved in Hc.
  2:{ rewrite Hres. apply not_eq_sym, app_cons_not_nil. }
  simpl in Hc. rewrite lookup_insert_eq in Hc. injection Hc as <-.
  apply bind_Ok in H as (pid & w7 & Hp & [= <- <- <-]).
  unfold subprocess_Popen in Hp. injection Hp as _ <-.
  exists pid, data. repeat split; [done|]. simpl.
  rewrite Hres. apply lookup_insert_eq.
Qed.

Lemma Confined_deploy_rest files yaml_file yaml_filename webtop_id port dir :
  plain_dir dir ->
  (exists x, yaml_filename = secure_filename x) ->
  Confined dir
    (save yaml_file (path_join dir yaml_filename) ;;
     dockerfiles <- save_dockerfiles files dir ;;
     resources <- save_resources files dir ;;
     write_text (path_join dir (lit "run.sh"))
       (run_sh_writes webtop_id dir yaml_filename dockerfiles) ;;
     chmod (path_join dir (lit "run.sh")) 493 ;;
     pid <- subprocess_Popen [lit "bash"; path_join dir (lit "run.sh")] dir ;;
     ret (JDict
            [ ("status", JStr (lit "success"));
              ("message",
               JStr (lit "Webtop deployment initiated for user: "
                     ++ webtop_id));
              ("webtop_dir", JStr dir);
              ("webtop_id", JStr webtop_id);
              ("port", json_of_port port);
              ("files", saved_files_json yaml_filename dockerfiles resources);
              ("process_id", JInt pid);
              ("container_name",
               JStr (lit "webtop-ubuntu-xfce-" ++ webtop_id)) ],
          200)).
Proof.
  intros Hdir Hname.
  apply Confined_bind; [|intros _].
  { apply Confined_write_file; [done | by right]. }
  apply Confined_bind; [by apply Confined_save_group | intros dockerfiles].
  apply Confined_bind; [by apply Confined_save_group | intros resources].
  apply Confined_bind; [apply Confined_write_text; [done | by left] | intros _].
  apply Confined_bind; [by apply Confined_chmod | intros _].
  apply Confined_bind; [apply Confined_Popen | intros pid].
  apply Confined_ret.
Qed.

(** Whatever the outcome, a deploy first makes the workload directory and
    then stays inside it; when the directory cannot be made, nothing has
    changed. *)
Lemma deploy_steps_confined files yaml_file yaml_filename webtop_id port dir
    w r w' :
  plain_dir dir ->
  (exists x, yaml_filename = secure_filename x) ->
  deploy_steps files yaml_file yaml_filename webtop_id port dir w = (r, w') ->
  (w' = w /\ exists e, r = Raise e)
  \/ exists w1, makedirs dir w = (Ok tt, w1) /\ confined dir w1 w'.
Proof.
  intros Hdir Hname H. unfold deploy_steps in H. unfold bind at 1 in H.
  destruct (makedirs dir w) as [[[]|e] w1] eqn:E.
  - right. exists w1. split; [done|].
    by eapply (Confined_deploy_rest files yaml_file yaml_filename webtop_id
                 port dir Hdir Hname).
  - injection H as <- <-. left. split; [by eapply makedirs_Raise | eauto].
Qed.

Lemma deploy_webtop_inv files w r w' :
  deploy_webtop files w = (r, w') ->
  w' = w
  \/ exists yaml_file,
       md_get files (lit "docker-compose") = Some yaml_file
       /\ file_truthy yaml_file = true
       /\ deploy_files files yaml_file w = (r, w').
Proof.
  unfold deploy_webtop. destruct files as [|kv files'].
  { intros [= _ <-]. by left. }
  destruct (md_get _ _) as [yaml_file|]; [|intros [= _ <-]; by left].
  destruct (file_truthy yaml_file) eqn:E; [|intros [= _ <-]; by left].
  intros H. right. eauto.
Qed.

Lemma deploy_webtop_200 files w resp w' :
  deploy_webtop files w = (Ok (resp, 200), w') ->
  exists yaml_file,
    md_get files (lit "docker-compose") = Some yaml_file
    /\ file_truthy yaml_file = true
    /\ deploy_steps files (inspected yaml_file) (deploy_yaml_name yaml_file)
         (deploy_id yaml_file) (deploy_port yaml_file)
         (webtop_dir_of (deploy_id yaml_file)) w
       = (Ok (resp, 200), w').
Proof.
  unfold deploy_webtop. destruct files as [|kv files']; [discriminate|].
  destruct (md_get _ _) as [yaml_file|]; [|discriminate].
  destruct (file_truthy yaml_file) eqn:E; [|discriminate].
  rewrite deploy_files_unfold. unfold try_except.
  destruct (deploy_steps _ _ _ _ _ _ w) as [[a|e] w1] eqn:Es.
  - intros [= -> ->]. eauto.
  - discriminate.
Qed.

Lemma deploy_yaml_name_sanitised yaml_file :
  exists x, deploy_yaml_name yaml_file = secure_filename x.
Proof. unfold deploy_yaml_name. eauto. Qed.

Lemma plain_deploy_dir yaml_file : plain_dir (webtop_dir_of (deploy_id yaml_file)).
Proof. apply plain_webtop_dir, word_id_no_sep, deploy_id_word. Qed.

Lemma resolve_deploy_dir yaml_file :
  resolve (webtop_dir_of (deploy_id yaml_file))
  = resolve UPLOAD_DIR ++ [lit "webtop_" ++ deploy_id yaml_file].
Proof. apply resolve_webtop_dir, word_id_no_sep, deploy_id_word. Qed.

Lemma not_own_entry (dir : list str) name : dir <> dir ++ [name].
Proof.
  intros H. apply (f_equal length) in H. rewrite length_app in H. simpl in H. lia.
Qed.

(** After a successful deploy the workload directory is there. *)
Lemma deploy_steps_dir files yaml_file yaml_filename webtop_id port dir
    w resp code w' :
  plain_dir dir ->
  (exists x, yaml_filename = secure_filename x) ->
  resolve dir <> [] ->
  deploy_steps files yaml_file yaml_filename webtop_id port dir w
  = (Ok (resp, code), w') ->
  fs w' !! resolve dir = Some DirObj.
Proof.
  intros Hdir Hname Hres H.
  apply deploy_steps_confined in H as [(_ & e & [=]) | (w1 & Hmk & _ & Hfs)];
    [|done|done].
  rewrite Hfs; [|intros name; apply not_own_entry].
  by apply makedirs_Ok in Hmk as (_ & _ & _ & Hd); apply Hd.
Qed.

(** C10. A successful deploy reports an identity that is either the
    fallback [default_user] or a non-empty string of word characters
    captured from the first naming-convention field of the manifest; the
    directory name [webtop_<identity>] has no path separator, and the
    workload directory the deploy has created is an entry of the upload
    root. *)
Theorem deploy_identity_is_safe files w resp w' :
  deploy_webtop files w = (Ok (resp, 200), w') ->
  exists yaml_file webtop_id,
    md_get files (lit "docker-compose") = Some yaml_file
    /\ jget "webtop_id" resp = Some (JStr webtop_id)
    /\ (webtop_id = lit "default_user"
        \/ (webtop_id <> []
            /\ Forall (fun c => is_word c = true) webtop_id
            /\ exists content,
                 utf8_decode (stream yaml_file) = Some content
                 /\ first_field has_user_field content webtop_id))
    /\ Forall (fun c => c <> 47) (lit "webtop_" ++ webtop_id)
    /\ jget "webtop_dir" resp = Some (JStr (webtop_dir_of webtop_id))
    /\ resolve (webtop_dir_of webtop_id)
       = resolve UPLOAD_DIR ++ [lit "webtop_" ++ webtop_id]
    /\ fs w' !! (resolve UPLOAD_DIR ++ [lit "webtop_" ++ webtop_id])
       = Some DirObj.
Proof.
  intros H. apply deploy_webtop_200 in H as (yaml_file & Hget & _ & H).
  exists yaml_file, (deploy_id yaml_file).
  pose proof (deploy_id_word yaml_file) as Hword.
  destruct (deploy_steps_Ok _ _ _ _ _ _ _ _ _ _ (plain_deploy_dir yaml_file) H)
    as (pid & data & -> & _).
  split; [done|]. split; [reflexivity|]. split.
  { destruct (deploy_id_cases yaml_file) as [Hd | Hf]; [by left|].
    right. destruct Hword. eauto. }
  split; [by apply dir_name_no_sep, word_id_no_sep|].
  split; [reflexivity|]. split; [apply resolve_deploy_dir|].
  rewrite <- resolve_deploy_dir.
  eapply deploy_steps_dir; [apply plain_deploy_dir | | | exact H].
  - apply deploy_yaml_name_sanitised.
  - rewrite resolve_deploy_dir. apply not_eq_sym, app_cons_not_nil.
Qed.

(** C8. Whatever a deploy request carries, every file the deploy writes
    is written at [os.path.join(webtop_dir, name)] for a sanitised name
    (or [run.sh]), a path that names an entry of the workload directory;
    and no regular file outside the workload directory is created,
    changed or removed. *)
Theorem deploy_writes_stay_inside files w r w' :
  deploy_webtop files w = (r, w') ->
  (md_get files (lit "docker-compose") = None -> w' = w)
  /\ forall yaml_file,
       md_get files (lit "docker-compose") = Some yaml_file ->
       let webtop_id := deploy_id yaml_file in
       let webtop_dir := webtop_dir_of webtop_id in
       (exists evs,
           trace w' = trace w ++ evs
           /\ forall p, In (EvWrite p) evs ->
                exists name,
                  name <> []
                  /\ Forall (fun c => safe_char c = true) name
                  /\ (name = lit "run.sh" \/ exists x, name = secure_filename x)
                  /\ p = path_join webtop_dir name
                  /\ resolve p
                     = resolve UPLOAD_DIR ++ [lit "webtop_" ++ webtop_id; name])
       /\ forall loc data mode,
            ~ (resolve webtop_dir `prefix_of` loc) ->
            fs w !! loc = Some (FileObj data mode)
            <-> fs w' !! loc = Some (FileObj data mode).
Proof.
  intros H. apply deploy_webtop_inv in H as [-> | (yaml_file & Hget & _ & H)].
  { split; [done|]. intros yaml_file _. split; [|done].
    exists []. split; [by rewrite app_nil_r | intros p []]. }
  split; [congruence|]. intros yf Hyf. rewrite Hget in Hyf.
  injection Hyf as <-. cbv zeta.
  rewrite deploy_files_unfold in H. unfold try_except in H.
  destruct (deploy_steps _ _ _ _ _ _ w) as [ra wa] eqn:Es.
  assert (w' = wa) as ->.
  { destruct ra; [by injection H as _ <- | by injection H as _ <-]. }
  apply deploy_steps_confined in Es
    as [(-> & _) | (w1 & Hmk & (evs & Ht & Hev) & Hfs)];
    [| |apply plain_deploy_dir|apply deploy_yaml_name_sanitised].
  { split; [|done]. exists []. split; [by rewrite app_nil_r | intros p []]. }
  apply makedirs_Ok in Hmk as (Ht1 & Hkeep & Hnew & _). split.
  - exists (EvMakedirs (webtop_dir_of (deploy_id yaml_file)) :: evs).
    split; [by rewrite Ht, Ht1, <- app_assoc|].
    intros p [Hp | Hp]; [discriminate|].
    apply (proj1 (List.Forall_forall _ _) Hev) in Hp.
    destruct Hp as (name & Hne & Hsafe & Hname & -> & Hres).
    exists name. repeat split; try done.
    rewrite Hres, resolve_deploy_dir, <- app_assoc. done.
  - intros loc data mode Hout. rewrite Hfs.
    2:{ intros name ->. apply Hout. by exists [name]. }
    split; [apply Hkeep|]. intros Hf.
    destruct (Hnew loc) as [Heq | Hd]; [by rewrite <- Heq | congruence].
Qed.

Lemma utf8_encode_vals_app a b :
  utf8_encode_vals (a ++ b) =
  match utf8_encode_vals a, utf8_encode_vals b with
  | Some x, Some y => Some (x ++ y)
  | _, _ => None
  end.
Proof.
  induction a as [|c a IH]; simpl.
  - by destruct (utf8_encode_vals b).
  - rewrite IH. destruct (utf8_encode_char c); [|done].
    destruct (utf8_encode_vals a); [|done].
    destruct (utf8_encode_vals b); [|done].
    by rewrite app_assoc.
Qed.

(** The bytes the writes leave in the file are the encoding of the text
    the writes make up. *)
Lemma encode_writes_text chunks data :
  encode_writes chunks = (data, None) -> utf8_encode (concat chunks) = Some data.
Proof.
  revert data; induction chunks as [|c chunks IH]; intros data; simpl.
  - by intros [= <-].
  - unfold utf8_encode in *. rewrite utf8_encode_vals_app.
    destruct (utf8_encode_vals c) as [bc|]; simpl; [|discriminate].
    destruct (encode_writes chunks) as [bs [e|]]; [discriminate|].
    intros [= <-]. specialize (IH bs eq_refl).
    destruct (utf8_encode_vals (concat chunks)) as [br|]; [|discriminate].
    simpl in *. injection IH as <-. by rewrite map_app.
Qed.

Lemma JStr_map_inj (a b : list str) : map JStr a = map JStr b -> a = b.
Proof.
  revert b; induction a as [|x a IH]; intros [|y b]; simpl; try congruence.
  intros [= -> H]. by rewrite (IH b H).
Qed.

(** What a successful deploy leaves: the response, and the run script as
    the encoding of the text of its writes. *)
Lemma deploy_webtop_script files w resp w' :
  deploy_webtop files w = (Ok (resp, 200), w') ->
  exists yaml_file pid data,
    md_get files (lit "docker-compose") = Some yaml_file
    /\ resp = JDict
                [ ("status", JStr (lit "success"));
                  ("message",
                   JStr (lit "Webtop deployment initiated for user: "
                         ++ deploy_id yaml_file));
                  ("webtop_dir", JStr (webtop_dir_of (deploy_id yaml_file)));
                  ("webtop_id", JStr (deploy_id yaml_file));
                  ("port", json_of_port (deploy_port yaml_file));
                  ("files",
                   saved_files_json (deploy_yaml_name yaml_file)
                                    (build_names files) (resource_names files));
                  ("process_id", JInt pid);
                  ("container_name",
                   JStr (lit "webtop-ubuntu-xfce-" ++ deploy_id yaml_file)) ]
    /\ utf8_encode
         (run_sh_text (deploy_id yaml_file) (webtop_dir_of (deploy_id yaml_file))
                      (deploy_yaml_name yaml_file) (build_names files))
       = Some data
    /\ lookup_path (fs w')
         (path_join (webtop_dir_of (deploy_id yaml_file)) (lit "run.sh"))
       = Some (FileObj data 493)
    /\ script_of w' (deploy_id yaml_file)
       = Some (run_sh_text (deploy_id yaml_file)
                 (webtop_dir_of (deploy_id yaml_file))
                 (deploy_yaml_name yaml_file) (build_names files)).
Proof.
  intros H. apply deploy_webtop_200 in H as (yaml_file & Hget & _ & H).
  destruct (deploy_steps_Ok _ _ _ _ _ _ _ _ _ _ (plain_deploy_dir yaml_file) H)
    as (pid & data & -> & _ & Henc & Hfs).
  apply encode_writes_text in Henc.
  assert (lookup_path (fs w')
            (path_join (webtop_dir_of (deploy_id yaml_file)) (lit "run.sh"))
          = Some (FileObj data 493)) as Hlook.
  { rewrite lookup_path_resolved.
    - rewrite resolve_join_name; [done | apply plain_deploy_dir | by left | done].
    - rewrite resolve_join_name; [|apply plain_deploy_dir | by left | done].
      apply not_eq_sym, app_cons_not_nil. }
  exists yaml_file, pid, data. split; [done|]. split; [done|].
  split; [done|]. split; [done|].
  unfold script_of. rewrite Hlook. by apply utf8_decode_encode.
Qed.

(** C5. The run script is a function of the saved-artifact set: two
    successful deploys, of whatever requests and in whatever states of
    the world, that report the same identity and the same saved files
    leave byte-for-byte the same script, the encoding of a text computed
    from the identity, the manifest name and the ordered build-file names
    alone. *)
Theorem run_script_deterministic files1 files2 w1 w2 resp1 resp2 w1' w2' :
  deploy_webtop files1 w1 = (Ok (resp1, 200), w1') ->
  deploy_webtop files2 w2 = (Ok (resp2, 200), w2') ->
  jget "webtop_id" resp1 = jget "webtop_id" resp2 ->
  jget "files" resp1 = jget "files" resp2 ->
  exists webtop_id yaml_filename dockerfiles resources data,
    jget "webtop_id" resp1 = Some (JStr webtop_id)
    /\ jget "files" resp1
       = Some (saved_files_json yaml_filename dockerfiles resources)
    /\ utf8_encode
         (run_sh_text webtop_id (webtop_dir_of webtop_id) yaml_filename
                      dockerfiles)
       = Some data
    /\ lookup_path (fs w1') (path_join (webtop_dir_of webtop_id) (lit "run.sh"))
       = Some (FileObj data 493)
    /\ lookup_path (fs w2') (path_join (webtop_dir_of webtop_id) (lit "run.sh"))
       = Some (FileObj data 493).
Proof.
  intros H1 H2 Hid Hfiles.
  apply deploy_webtop_script
    in H1 as (y1 & pid1 & data1 & _ & -> & He1 & Hf1 & _).
  apply deploy_webtop_script
    in H2 as (y2 & pid2 & data2 & _ & -> & He2 & Hf2 & _).
  simpl in Hid, Hfiles. injection Hid as Hid.
  injection Hfiles as Hy Hd Hr. apply JStr_map_inj in Hd.
  rewrite <- Hid, <- Hy, <- Hd in He2. rewrite <- Hid in Hf2.
  assert (data2 = data1) as -> by congruence.
  exists (deploy_id y1), (deploy_yaml_name y1), (build_names files1),
    (resource_names files1), data1.
  repeat split; done.
Qed.

(** ** The run script, line by line *)

Lemma split_on_line l rest :
  Forall (fun c => c <> 10) l ->
  split_on 10 (l ++ 10 :: rest) [] = l :: split_on 10 rest [].
Proof. intros H. by rewrite split_on_app, split_on_no_sep. Qed.

Lemma script_lines_unlines ls :
  Forall (Forall (fun c => c <> 10)) ls ->
  script_lines (unlines ls) = ls ++ [[]].
Proof.
  unfold script_lines. induction 1 as [|l ls Hl _ IH]; [reflexivity|].
  simpl. rewrite <- app_assoc. change (nl ++ unlines ls) with (10 :: unlines ls).
  by rewrite split_on_line, IH.
Qed.

Lemma unlines_app a b : unlines (a ++ b) = unlines a ++ unlines b.
Proof. apply flat_map_app. Qed.

Lemma build_writes_unlines webtop_id entry :
  concat (build_writes webtop_id entry) = unlines (build_block webtop_id entry).
Proof.
  destruct entry as [i dockerfile]. unfold build_writes, build_block, build_line.
  cbn [concat unlines flat_map fst snd]. rewrite <- !app_assoc. reflexivity.
Qed.

Lemma blocks_unlines webtop_id entries :
  concat (flat_map (build_writes webtop_id) entries)
  = unlines (flat_map (build_block webtop_id) entries).
Proof.
  induction entries as [|e entries IH]; [reflexivity|].
  cbn [flat_map]. by rewrite concat_app, unlines_app, build_writes_unlines, IH.
Qed.

Lemma run_sh_text_unlines webtop_id webtop_dir yaml_filename dockerfiles :
  run_sh_text webtop_id webtop_dir yaml_filename dockerfiles
  = unlines (script_prologue webtop_id webtop_dir dockerfiles
             ++ flat_map (build_block webtop_id) (enumerate dockerfiles 1)
             ++ script_epilogue webtop_id yaml_filename).
Proof.
  unfold run_sh_text, run_sh_writes, script_prologue, script_epilogue,
    compose_line.
  rewrite !concat_app, !unlines_app.
  destruct dockerfiles as [|d ds].
  - cbn [concat unlines flat_map enumerate combine length seq app].
    rewrite <- !app_assoc. reflexivity.
  - cbn [concat]. rewrite blocks_unlines.
    generalize (unlines (flat_map (build_block webtop_id)
                           (enumerate (d :: ds) 1))).
    intros blocks. cbn [concat unlines flat_map app].
    rewrite <- !app_assoc. reflexivity.
Qed.

Lemma lit_no_nl_digits d : Forall (fun c => c <> 10) (uint_digits d).
Proof. induction d; simpl; by constructor. Qed.

(** Lines put together from literals and newline-free parts. *)
Ltac no_nl :=
  repeat match goal with
         | |- Forall _ [] => constructor
         | |- Forall _ (_ :: _) => constructor
         | |- Forall _ (_ ++ _) => apply Forall_app; split
         | |- Forall _ (lit _) => by repeat constructor
         | |- Forall _ (str_of_nat _) => apply lit_no_nl_digits
         | |- Forall _ _ => assumption
         end.

Lemma image_tag_no_nl webtop_id i :
  Forall (fun c => c <> 10) webtop_id ->
  Forall (fun c => c <> 10) (image_tag webtop_id i).
Proof.
  intros H. unfold image_tag. no_nl.
Qed.

Lemma build_block_no_nl webtop_id entry :
  Forall (fun c => c <> 10) webtop_id ->
  Forall (fun c => c <> 10) entry.2 ->
  Forall (Forall (fun c => c <> 10)) (build_block webtop_id entry).
Proof.
  intros Hid Hname. pose proof (image_tag_no_nl webtop_id entry.1 Hid) as Htag.
  unfold build_block, build_line. no_nl.
Qed.

Lemma blocks_no_nl webtop_id entries :
  Forall (fun c => c <> 10) webtop_id ->
  Forall (fun e : nat * str => Forall (fun c => c <> 10) e.2) entries ->
  Forall (Forall (fun c => c <> 10))
         (flat_map (build_block webtop_id) entries).
Proof.
  intros Hid. induction 1 as [|e entries He _ IH]; [constructor|].
  cbn [flat_map]. apply Forall_app. split; [by apply build_block_no_nl | done].
Qed.

Lemma enumerate_Forall (P : str -> Prop) (names : list str) start :
  Forall P names ->
  Forall (fun e : nat * str => P e.2) (enumerate names start).
Proof.
  intros H; revert start. unfold enumerate.
  induction H as [|n names Hn _ IH]; intros start; simpl; [constructor|].
  constructor; [done | apply IH].
Qed.

Lemma prologue_no_nl webtop_id webtop_dir dockerfiles :
  Forall (fun c => c <> 10) webtop_id ->
  Forall (fun c => c <> 10) webtop_dir ->
  Forall (Forall (fun c => c <> 10))
         (script_prologue webtop_id webtop_dir dockerfiles).
Proof.
  intros Hid Hdir. unfold script_prologue. destruct dockerfiles; no_nl.
Qed.

Lemma epilogue_no_nl webtop_id yaml_filename :
  Forall (fun c => c <> 10) webtop_id ->
  Forall (fun c => c <> 10) yaml_filename ->
  Forall (Forall (fun c => c <> 10)) (script_epilogue webtop_id yaml_filename).
Proof.
  intros Hid Hyaml. unfold script_epilogue, compose_line. no_nl.
Qed.

Lemma group_names_safe prefix fallback files keys count :
  Forall (Forall (fun c => safe_char c = true))
         (group_names prefix fallback files keys count).
Proof.
  revert count; induction keys as [|key keys IH]; intros count; simpl.
  - constructor.
  - destruct (startswith key prefix); [|apply IH].
    destruct (md_get files key); constructor;
      [apply secure_filename_safe | apply IH].
Qed.

Lemma safe_no_nl name :
  Forall (fun c => safe_char c = true) name -> Forall (fun c => c <> 10) name.
Proof. intros H. eapply Forall_impl; [done | apply safe_char_not_nl]. Qed.

Lemma word_id_no_nl webtop_id :
  word_id webtop_id -> Forall (fun c => c <> 10) webtop_id.
Proof. intros [_ H]. eapply Forall_impl; [done | apply is_word_not_nl]. Qed.

Lemma webtop_dir_no_nl webtop_id :
  Forall (fun c => c <> 10) webtop_id ->
  Forall (fun c => c <> 10) (webtop_dir_of webtop_id).
Proof.
  intros H. rewrite webtop_dir_of_eq. unfold UPLOAD_DIR. no_nl.
Qed.

(** The lines of the run script of an identity of word characters and
    sanitised names. *)
Lemma run_script_lines webtop_id yaml_filename dockerfiles :
  word_id webtop_id ->
  Forall (fun c => safe_char c = true) yaml_filename ->
  Forall (Forall (fun c => safe_char c = true)) dockerfiles ->
  script_lines
    (run_sh_text webtop_id (webtop_dir_of webtop_id) yaml_filename dockerfiles)
  = script_prologue webtop_id (webtop_dir_of webtop_id) dockerfiles
    ++ flat_map (build_block webtop_id) (enumerate dockerfiles 1)
    ++ script_epilogue webtop_id yaml_filename ++ [[]].
Proof.
  intros Hid Hyaml Hnames. apply word_id_no_nl in Hid.
  rewrite run_sh_text_unlines, script_lines_unlines.
  - by rewrite <- !app_assoc.
  - apply Forall_app; split; [|apply Forall_app; split].
    + apply prologue_no_nl; [done | by apply webtop_dir_no_nl].
    + apply blocks_no_nl; [done|]. apply enumerate_Forall.
      eapply Forall_impl; [done | apply safe_no_nl].
    + apply epilogue_no_nl; [done | by apply safe_no_nl].
Qed.

Lemma build_lines_of_block webtop_id entry :
  List.filter is_build_line (build_block webtop_id entry)
  = [build_line webtop_id entry].
Proof. reflexivity. Qed.

Lemma build_lines_of_blocks webtop_id entries :
  List.filter is_build_line (flat_map (build_block webtop_id) entries)
  = map (build_line webtop_id) entries.
Proof.
  induction entries as [|e entries IH]; [reflexivity|].
  cbn [flat_map map]. by rewrite List.filter_app, build_lines_of_block, IH.
Qed.

Lemma compose_lines_of_blocks webtop_id entries :
  List.filter is_compose_line (flat_map (build_block webtop_id) entries) = [].
Proof.
  induction entries as [|e entries IH]; [reflexivity|].
  cbn [flat_map]. rewrite List.filter_app, IH. reflexivity.
Qed.

Lemma build_lines_of_script webtop_id webtop_dir yaml_filename dockerfiles :
  List.filter is_build_line
    (script_prologue webtop_id webtop_dir dockerfiles
     ++ flat_map (build_block webtop_id) (enumerate dockerfiles 1)
     ++ script_epilogue webtop_id yaml_filename ++ [[]])
  = map (build_line webtop_id) (enumerate dockerfiles 1).
Proof.
  rewrite !List.filter_app, build_lines_of_blocks.
  assert (List.filter is_build_line
            (script_prologue webtop_id webtop_dir dockerfiles) = []) as ->
    by (by destruct dockerfiles).
  assert (List.filter is_build_line
            (script_epilogue webtop_id yaml_filename) = []) as ->
    by reflexivity.
  cbn [app List.filter]. by rewrite app_nil_r.
Qed.

Lemma compose_lines_of_script webtop_id webtop_dir yaml_filename dockerfiles :
  List.filter is_compose_line
    (script_prologue webtop_id webtop_dir dockerfiles
     ++ flat_map (build_block webtop_id) (enumerate dockerfiles 1)
     ++ script_epilogue webtop_id yaml_filename ++ [[]])
  = [compose_line yaml_filename].
Proof.
  rewrite !List.filter_app, compose_lines_of_blocks.
  assert (List.filter is_compose_line
            (script_prologue webtop_id webtop_dir dockerfiles) = []) as ->
    by (by destruct dockerfiles).
  assert (List.filter is_compose_line
            (script_epilogue webtop_id yaml_filename)
          = [compose_line yaml_filename]) as ->
    by reflexivity.
  reflexivity.
Qed.

Lemma In_insert_sorted k x l : In x (insert_sorted k l) <-> x = k \/ In x l.
Proof.
  induction l as [|y l IH]; simpl; [intuition|].
  destruct (str_leb k y); simpl; [intuition | rewrite IH; intuition].
Qed.

Lemma In_sorted x l : In x (sorted l) <-> In x l.
Proof.
  induction l as [|y l IH]; simpl; [done|].
  rewrite In_insert_sorted, IH. intuition.
Qed.

(** Every key of [files.keys()] has a file. *)
Lemma md_keys_from_get seen files k :
  In k (md_keys_from seen files) -> exists f, md_get files k = Some f.
Proof.
  revert seen; induction files as [|[k0 f0] files IH]; intros seen; simpl;
    [done|].
  intros H. destruct (str_eqb k0 k) eqn:E; [eauto|].
  destruct (existsb (str_eqb k0) seen); [by eapply IH|].
  destruct H as [-> | H]; [|by eapply IH].
  rewrite (proj2 (str_eqb_eq k k) eq_refl) in E. discriminate.
Qed.

(** The saved names of a loop, one per key with the prefix: each is the
    sanitised name of the first file of its key. *)
Lemma group_names_keys prefix fallback files keys count :
  (forall k, In k keys -> exists f, md_get files k = Some f) ->
  Forall2
    (fun name key =>
       exists file fb,
         md_get files key = Some file
         /\ name = secure_filename (str_or (filename file) fb))
    (group_names prefix fallback files keys count)
    (List.filter (fun k => startswith k prefix) keys).
Proof.
  revert count; induction keys as [|key keys IH]; intros count Hget; simpl.
  - constructor.
  - destruct (startswith key prefix).
    + destruct (Hget key (or_introl eq_refl)) as [file Hf]. rewrite Hf.
      constructor; [eauto|]. apply IH. intros k Hk. apply Hget. by right.
    + apply IH. intros k Hk. apply Hget. by right.
Qed.

Lemma build_names_keys files :
  Forall2
    (fun name key =>
       exists file fb,
         md_get files key = Some file
         /\ name = secure_filename (str_or (filename file) fb))
    (build_names files)
    (List.filter (fun k => startswith k (lit "dockerfile-"))
                 (sorted (md_keys files))).
Proof.
  apply group_names_keys. intros k Hk.
  apply (proj1 (In_sorted k (md_keys files))) in Hk.
  exact (md_keys_from_get [] files k Hk).
Qed.

(** C4, as the code has it.  After a successful deploy with identity
    [id], the run script consists of the prologue, one build-and-check
    block per saved build file, and the epilogue.  The saved build files
    are one per distinct field name starting with [dockerfile-], the
    first file of that name, and the blocks follow the order in which
    they were saved: the sorted order of the field names, not the order
    of submission.  The i-th block, counting from 1, builds the i-th
    saved file with image tag [webtop-custom-<id>-<i>] and its check
    leaves the script with status 1; the build invocations of the script
    are exactly those of the blocks, and its only bring-up invocation is
    the one of the epilogue, for the saved manifest name, with its
    check. *)
Theorem run_script_blocks files w resp w' :
  deploy_webtop files w = (Ok (resp, 200), w') ->
  exists webtop_id yaml_filename text,
    jget "webtop_id" resp = Some (JStr webtop_id)
    /\ jget "files" resp
       = Some (saved_files_json yaml_filename (build_names files)
                                (resource_names files))
    /\ Forall2
         (fun name key =>
            exists file fb,
              md_get files key = Some file
              /\ name = secure_filename (str_or (filename file) fb))
         (build_names files)
         (List.filter (fun k => startswith k (lit "dockerfile-"))
                      (sorted (md_keys files)))
    /\ script_of w' webtop_id = Some text
    /\ script_lines text
       = script_prologue webtop_id (webtop_dir_of webtop_id) (build_names files)
         ++ flat_map (build_block webtop_id) (enumerate (build_names files) 1)
         ++ script_epilogue webtop_id yaml_filename ++ [[]]
    /\ List.filter is_build_line (script_lines text)
       = map (build_line webtop_id) (enumerate (build_names files) 1)
    /\ List.filter is_compose_line (script_lines text)
       = [compose_line yaml_filename].
Proof.
  intros H.
  apply deploy_webtop_script
    in H as (yaml_file & pid & data & _ & -> & _ & _ & Hs).
  exists (deploy_id yaml_file), (deploy_yaml_name yaml_file),
    (run_sh_text (deploy_id yaml_file) (webtop_dir_of (deploy_id yaml_file))
       (deploy_yaml_name yaml_file) (build_names files)).
  rewrite run_script_lines;
    [|apply deploy_id_word | apply secure_filename_safe | apply group_names_safe].
  split; [done|]. split; [done|]. split; [apply build_names_keys|].
  split; [done|]. split; [done|]. split.
  - apply build_lines_of_script.
  - apply compose_lines_of_script.
Qed.

(** C1, what the code does.  On the scenario request the response
    reports identity [bob], empty lists of build files and resources, and
    the run script has the bring-up step and no build step; but the port
    is reported as unknown ([null]), not as 3030: the pattern
    [-\s*(\d+):3000] does not read the quoted mapping [- "3030:3000"]. *)
Theorem deploy_scenario_reports_no_port w resp w' :
  deploy_webtop scenario_files w = (Ok (resp, 200), w') ->
  jget "webtop_id" resp = Some (JStr (lit "bob"))
  /\ jget "port" resp = Some JNull
  /\ jget "files" resp
     = Some (JDict [ ("yaml", JStr (secure_filename (lit "docker-compose.yml")));
                     ("dockerfiles", JList []);
                     ("resources", JList []) ])
  /\ exists text,
       script_of w' (lit "bob") = Some text
       /\ In (compose_line (secure_filename (lit "docker-compose.yml")))
             (script_lines text)
       /\ List.filter is_build_line (script_lines text) = [].
Proof.
  intros H.
  apply deploy_webtop_script
    in H as (yaml_file & pid & data & Hy & -> & _ & _ & Hs).
  injection Hy as <-.
  assert (deploy_id scenario_file = lit "bob") as Hid by reflexivity.
  assert (deploy_port scenario_file = None) as Hport by reflexivity.
  rewrite Hid in Hs |- *. rewrite Hport.
  change (build_names scenario_files) with (@nil str) in Hs |- *.
  change (resource_names scenario_files) with (@nil str).
  split; [reflexivity|]. split; [reflexivity|]. split; [reflexivity|].
  eexists. split; [exact Hs|].
  rewrite run_script_lines;
    [| split; [done | by repeat constructor] | apply secure_filename_safe
     | constructor].
  split.
  - apply in_or_app. right. apply in_or_app. right.
    right. right. by left.
  - apply build_lines_of_script.
Qed.

(** ** [stop_webtop], [cleanup_webtop], [list_webtops] *)

Lemma entry_name_Some dir loc name :
  entry_name dir loc = Some name <-> loc = dir ++ [name].
Proof.
  revert loc; induction dir as [|d dir IH]; intros loc; simpl.
  - destruct loc as [|n [|n' loc]]; split; congruence.
  - destruct loc as [|c loc]; [split; [discriminate | congruence]|].
    case_bool_decide as Hdc.
    + subst c. rewrite IH. split; [by intros -> | by intros [= ->]].
    + split; [discriminate | intros [= -> _]; done].
Qed.

(** [os.listdir] lists the names under which the directory has entries. *)
Lemma entries_spec (m : gmap (list str) obj) dir name :
  In name (entries m dir) <-> is_Some (m !! (dir ++ [name])).
Proof.
  unfold entries. rewrite <- list_elem_of_In, list_elem_of_omap. split.
  - intros ([loc o] & Hin & Hname). apply elem_of_map_to_list in Hin.
    apply entry_name_Some in Hname. simpl in Hname. subst loc. eauto.
  - intros [o Ho]. exists (dir ++ [name], o). split.
    + by apply elem_of_map_to_list.
    + by apply entry_name_Some.
Qed.

Lemma filter_nil_iff {A} (p : A -> bool) (l : list A) :
  List.filter p l = [] <-> forall x, In x l -> p x = false.
Proof.
  induction l as [|a l IH]; simpl.
  - split; [intros _ x [] | done].
  - destruct (p a) eqn:E.
    + split; [discriminate|]. intros H. specialize (H a (or_introl eq_refl)).
      congruence.
    + rewrite IH. split.
      * intros H x [<- | Hx]; [done | by apply H].
      * intros H x Hx. apply H. by right.
Qed.

Lemma filter_head_In {A} (p : A -> bool) (l : list A) x rest :
  List.filter p l = x :: rest -> In x l /\ p x = true.
Proof.
  intros H. assert (In x (List.filter p l)) as Hin by (rewrite H; by left).
  by apply filter_In in Hin.
Qed.

Lemma entries_NoDup (m : gmap (list str) obj) dir : NoDup (entries m dir).
Proof.
  unfold entries. pose proof (NoDup_fst_map_to_list m) as Hnd.
  induction (map_to_list m) as [|[loc o] l IH]; simpl; [constructor|].
  apply NoDup_cons in Hnd as [Hloc Hnd]. specialize (IH Hnd).
  destruct (entry_name dir loc) as [name|] eqn:E; [|done].
  constructor; [|done]. rewrite list_elem_of_omap.
  intros ([loc' o'] & Hin & Hname). apply Hloc.
  apply entry_name_Some in E. apply entry_name_Some in Hname. simpl in Hname.
  subst loc loc'. apply list_elem_of_fmap. by exists (dir ++ [name], o').
Qed.

(** What [stop_webtop] does, by the state of the workload directory and
    the answer of the runtime. *)
Lemma stop_webtop_eval webtop_id w :
  stop_webtop webtop_id w =
  let webtop_dir := webtop_dir_of webtop_id in
  match lookup_path (fs w) webtop_dir with
  | None => (Ok (dir_not_found webtop_id), w)
  | Some (FileObj _ _) =>
      (Ok (internal_error webtop_id
             (Exception "NotADirectoryError" webtop_dir)), w)
  | Some DirObj =>
      match List.filter is_yaml (entries (fs w) (resolve webtop_dir)) with
      | [] => (Ok (yaml_not_found webtop_id), w)
      | first :: _ =>
          let argv := compose_down (path_join webtop_dir first) in
          let w1 := log w (EvRun argv (Some webtop_dir)) in
          match run_outcome w argv (Some webtop_dir) with
          | Ok result =>
              if returncode result =? 0
              then (Ok (stopped webtop_id webtop_dir result), w1)
              else (Ok (stop_failed webtop_id result), w1)
          | Raise e => (Ok (internal_error webtop_id e), w1)
          end
      end
  end.
Proof.
  unfold stop_webtop, try_except, bind, path_exists, listdir, subprocess_run,
    ret.
  cbv zeta.
  destruct (lookup_path (fs w) (webtop_dir_of webtop_id))
    as [[data mode|]|] eqn:El; simpl; rewrite ?El; try reflexivity.
  destruct (List.filter is_yaml _) as [|first rest]; [reflexivity|].
  destruct (run_outcome w _ _) as [result|e]; [|reflexivity].
  by destruct (returncode result =? 0).
Qed.

(** C6. [stop_webtop]: 404 when the workload directory does not exist;
    404, not 500, when it exists and has no entry ending in [.yaml] or
    [.yml]; when it exists and has one, the bring-down command is run for
    a manifest-like entry in that directory, and the answer is 200 on
    exit status zero and 500 with the captured stderr otherwise.  The
    command is run in no other case. *)
Theorem stop_webtop_spec webtop_id w :
  let webtop_dir := webtop_dir_of webtop_id in
  (lookup_path (fs w) webtop_dir = None ->
   exists body, stop_webtop webtop_id w = (Ok (body, 404), w))
  /\ (lookup_path (fs w) webtop_dir = Some DirObj ->
      (forall name, is_Some (fs w !! (resolve webtop_dir ++ [name])) ->
                    is_yaml name = false) ->
      exists body, stop_webtop webtop_id w = (Ok (body, 404), w))
  /\ (lookup_path (fs w) webtop_dir = Some DirObj ->
      (exists name, is_Some (fs w !! (resolve webtop_dir ++ [name]))
                    /\ is_yaml name = true) ->
      exists first,
        is_Some (fs w !! (resolve webtop_dir ++ [first]))
        /\ is_yaml first = true
        /\ forall result,
             run_outcome w (compose_down (path_join webtop_dir first))
                         (Some webtop_dir) = Ok result ->
             exists body,
               stop_webtop webtop_id w
               = (Ok (body, if returncode result =? 0 then 200 else 500),
                  log w (EvRun (compose_down (path_join webtop_dir first))
                               (Some webtop_dir)))
               /\ (returncode result = 0 ->
                   jget "status" body = Some (JStr (lit "success")))
               /\ (returncode result <> 0 ->
                   jget "status" body = Some (JStr (lit "error"))
                   /\ jget "error" body = Some (JStr (stderr result))))
  /\ (forall r w',
        stop_webtop webtop_id w = (r, w') -> w' <> w ->
        lookup_path (fs w) webtop_dir = Some DirObj
        /\ exists name, is_Some (fs w !! (resolve webtop_dir ++ [name]))
                        /\ is_yaml name = true).
Proof.
  cbv zeta. rewrite stop_webtop_eval. cbv zeta.
  split; [|split; [|split]].
  - intros ->. eexists. reflexivity.
  - intros -> Hno.
    assert (List.filter is_yaml
              (entries (fs w) (resolve (webtop_dir_of webtop_id))) = []) as ->.
    { apply filter_nil_iff. intros name Hin. by apply Hno, entries_spec. }
    eexists. reflexivity.
  - intros -> (name & Hname & Hyaml).
    destruct (List.filter is_yaml _) as [|first rest] eqn:E.
    { apply (proj1 (filter_nil_iff _ _)) with (x := name) in E; [congruence|].
      by apply entries_spec. }
    apply filter_head_In in E as [Hin Hy]. apply entries_spec in Hin.
    exists first. split; [done|]. split; [done|]. intros result ->.
    destruct (Z.eqb_spec (returncode result) 0) as [Hz|Hz].
    + eexists. split; [reflexivity|]. split; [done|]. intros; done.
    + eexists. split; [reflexivity|]. split; [intros; done|]. done.
  - intros r w' H Hne.
    destruct (lookup_path _ _) as [[data mode|]|];
      [by injection H as _ <- | | by injection H as _ <-].
    split; [done|].
    destruct (List.filter is_yaml _) as [|first rest] eqn:E;
      [by injection H as _ <-|].
    apply filter_head_In in E as [Hin Hy]. apply entries_spec in Hin. eauto.
Qed.

Lemma cleanup_webtop_eval webtop_id w :
  cleanup_webtop webtop_id w =
  let webtop_dir := webtop_dir_of webtop_id in
  let removed :=
    filter (fun kv : list str * obj => ~ (resolve webtop_dir `prefix_of` kv.1))
           (fs w) in
  match lookup_path (fs w) webtop_dir with
  | None => (Ok (dir_not_found webtop_id), w)
  | Some (FileObj _ _) =>
      (Ok (internal_error webtop_id
             (Exception "NotADirectoryError" webtop_dir)), w)
  | Some DirObj =>
      match List.filter is_yaml (entries (fs w) (resolve webtop_dir)) with
      | [] =>
          (Ok (cleaned_up webtop_id webtop_dir),
           log (set_fs w removed) (EvRmtree webtop_dir))
      | first :: _ =>
          let argv := compose_down (path_join webtop_dir first) in
          let w1 := log w (EvRun argv (Some webtop_dir)) in
          match run_outcome w argv (Some webtop_dir) with
          | Ok result =>
              (Ok (cleaned_up webtop_id webtop_dir),
               log (set_fs w1 removed) (EvRmtree webtop_dir))
          | Raise e => (Ok (internal_error webtop_id e), w1)
          end
      end
  end.
Proof.
  unfold cleanup_webtop, try_except, bind, path_exists, listdir,
    subprocess_run, rmtree, ret.
  cbv zeta.
  destruct (lookup_path (fs w) (webtop_dir_of webtop_id))
    as [[data mode|]|] eqn:El; simpl; rewrite ?El; try reflexivity.
  destruct (List.filter is_yaml _) as [|first rest]; simpl.
  - by rewrite El.
  - destruct (run_outcome w _ _) as [result|e]; simpl; [|reflexivity].
    by rewrite El.
Qed.

Lemma removed_inside (m : gmap (list str) obj) (dir loc : list str) :
  dir `prefix_of` loc ->
  filter (fun kv : list str * obj => ~ (dir `prefix_of` kv.1)) m !! loc = None.
Proof.
  intros Hpre. apply map_lookup_filter_None. right. intros o _ Hn. by apply Hn.
Qed.

Lemma removed_outside (m : gmap (list str) obj) (dir loc : list str) :
  ~ (dir `prefix_of` loc) ->
  filter (fun kv : list str * obj => ~ (dir `prefix_of` kv.1)) m !! loc
  = m !! loc.
Proof.
  intros Hpre. destruct (m !! loc) as [o|] eqn:E.
  - by apply map_lookup_filter_Some.
  - apply map_lookup_filter_None. by left.
Qed.

(** C7, what the code does.  [cleanup_webtop]: when the workload
    directory does not exist the answer is 404 and the world is as
    before, file system included.  When it exists and has no
    manifest-like entry, nothing is run and the directory with everything
    below it is removed.  When it has one, the bring-down is run for the
    first of them, once; if it runs to an exit status, whatever the
    status and the output, the directory and everything below it are
    then removed, nothing else is touched and the answer is 200.  But an
    error of the bring-down is not ignored when the command cannot be
    started: the answer is then 500 and nothing is removed. *)
Theorem cleanup_webtop_spec webtop_id w :
  let webtop_dir := webtop_dir_of webtop_id in
  (lookup_path (fs w) webtop_dir = None ->
   exists body, cleanup_webtop webtop_id w = (Ok (body, 404), w))
  /\ (lookup_path (fs w) webtop_dir = Some DirObj ->
      (forall name, is_Some (fs w !! (resolve webtop_dir ++ [name])) ->
                    is_yaml name = false) ->
      exists body w',
        cleanup_webtop webtop_id w = (Ok (body, 200), w')
        /\ jget "removed_directory" body = Some (JStr webtop_dir)
        /\ trace w' = trace w ++ [EvRmtree webtop_dir]
        /\ (forall loc, resolve webtop_dir `prefix_of` loc ->
                        fs w' !! loc = None)
        /\ (forall loc, ~ (resolve webtop_dir `prefix_of` loc) ->
                        fs w' !! loc = fs w !! loc))
  /\ (lookup_path (fs w) webtop_dir = Some DirObj ->
      forall first rest,
        List.filter is_yaml (entries (fs w) (resolve webtop_dir))
        = first :: rest ->
        let down :=
          EvRun (compose_down (path_join webtop_dir first)) (Some webtop_dir) in
        is_Some (fs w !! (resolve webtop_dir ++ [first]))
        /\ is_yaml first = true
        /\ (forall result,
               run_outcome w (compose_down (path_join webtop_dir first))
                           (Some webtop_dir) = Ok result ->
               exists body w',
                 cleanup_webtop webtop_id w = (Ok (body, 200), w')
                 /\ jget "removed_directory" body = Some (JStr webtop_dir)
                 /\ trace w' = trace w ++ [down; EvRmtree webtop_dir]
                 /\ (forall loc, resolve webtop_dir `prefix_of` loc ->
                                 fs w' !! loc = None)
                 /\ (forall loc, ~ (resolve webtop_dir `prefix_of` loc) ->
                                 fs w' !! loc = fs w !! loc))
        /\ (forall e,
               run_outcome w (compose_down (path_join webtop_dir first))
                           (Some webtop_dir) = Raise e ->
               exists body,
                 cleanup_webtop webtop_id w = (Ok (body, 500), log w down)
                 /\ jget "status" body = Some (JStr (lit "error"))
                 /\ jget "message" body = Some (JStr (str_of_exn e)))).
Proof.
  cbv zeta. rewrite cleanup_webtop_eval. cbv zeta. split; [|split].
  - intros ->. eexists. reflexivity.
  - intros -> Hno.
    assert (List.filter is_yaml
              (entries (fs w) (resolve (webtop_dir_of webtop_id))) = []) as ->.
    { apply filter_nil_iff. intros name Hin. by apply Hno, entries_spec. }
    eexists _, _. split; [reflexivity|]. split; [reflexivity|].
    split; [reflexivity|].
    split; [intros loc; apply removed_inside | intros loc; apply removed_outside].
  - intros -> first rest E. rewrite E.
    apply filter_head_In in E as [Hin Hy]. apply entries_spec in Hin.
    split; [done|]. split; [done|]. split.
    + intros result ->. eexists _, _. split; [reflexivity|].
      split; [reflexivity|]. split; [cbn [trace log set_fs];
                                     by rewrite <- app_assoc|].
      split; [intros loc; apply removed_inside
             | intros loc; apply removed_outside].
    + intros e ->. eexists. split; [reflexivity|]. by split.
Qed.

Lemma NoDup_bool_filter {A} (p : A -> bool) (l : list A) :
  NoDup l -> NoDup (List.filter p l).
Proof.
  induction 1 as [|x l Hx _ IH]; simpl; [constructor|].
  destruct (p x); [|done]. constructor; [|done].
  rewrite list_elem_of_In, filter_In, <- list_elem_of_In. tauto.
Qed.

Lemma list_loop_total dir_names webtops w :
  (forall w1 argv, exists result, run_outcome w1 argv None = Ok result) ->
  exists flags w',
    list_loop dir_names webtops w
    = (Ok (webtops
           ++ zip_with webtop_entry
                (List.filter (fun n => startswith n (lit "webtop_")) dir_names)
                flags),
       w')
    /\ length flags
       = length (List.filter (fun n => startswith n (lit "webtop_")) dir_names)
    /\ fs w' = fs w.
Proof.
  intros Hrun. revert webtops w.
  induction dir_names as [|dir_name rest IH]; intros webtops w.
  - exists [], w. simpl. by rewrite app_nil_r.
  - cbn [list_loop List.filter].
    destruct (startswith dir_name (lit "webtop_")); [|apply IH].
    unfold bind, subprocess_run.
    destruct (Hrun w (docker_ps (replace dir_name (lit "webtop_") [])))
      as [result ->].
    destruct (IH (webtops
                  ++ [webtop_entry dir_name
                        (nonempty (strip_by is_space (stdout result)))])
                 (log w (EvRun (docker_ps (replace dir_name (lit "webtop_") []))
                               None)))
      as (flags & w' & -> & Hlen & Hfs).
    exists (nonempty (strip_by is_space (stdout result)) :: flags), w'.
    split; [|split; [simpl; by rewrite Hlen | done]].
    by rewrite <- app_assoc.
Qed.

Lemma list_webtops_eval w :
  list_webtops w =
  match lookup_path (fs w) UPLOAD_DIR with
  | None =>
      (Ok (JDict [ ("status", JStr (lit "success"));
                   ("webtops", JList []);
                   ("count", JInt 0) ], 200), w)
  | Some (FileObj _ _) =>
      (Ok (list_failed (Exception "NotADirectoryError" UPLOAD_DIR)), w)
  | Some DirObj =>
      match list_loop (entries (fs w) (resolve UPLOAD_DIR)) [] w with
      | (Ok webtops, w') => (Ok (listing webtops), w')
      | (Raise e, w') => (Ok (list_failed e), w')
      end
  end.
Proof.
  unfold list_webtops, try_except, bind, path_exists, listdir, ret.
  destruct (lookup_path (fs w) UPLOAD_DIR) as [[data mode|]|] eqn:El;
    simpl; rewrite ?El; try reflexivity.
  by destruct (list_loop _ _ w) as [[webtops|e] w'].
Qed.

(** C9. [list_webtops]: one entry per name in the registry root that
    starts with [webtop_], in the order of the listing and each name once,
    with [count] the number of entries, whenever the runtime answers the
    queries; on a registry root that does not exist or has no entries the
    answer is [count] 0 and no entries. *)
Theorem list_webtops_spec w :
  (lookup_path (fs w) UPLOAD_DIR = None ->
   list_webtops w
   = (Ok (JDict [ ("status", JStr (lit "success"));
                  ("webtops", JList []);
                  ("count", JInt 0) ], 200), w))
  /\ (lookup_path (fs w) UPLOAD_DIR = Some DirObj ->
      (forall name, fs w !! (resolve UPLOAD_DIR ++ [name]) = None) ->
      list_webtops w
      = (Ok (JDict [ ("status", JStr (lit "success"));
                     ("webtops", JList []);
                     ("count", JInt 0) ], 200), w))
  /\ (lookup_path (fs w) UPLOAD_DIR = Some DirObj ->
      (forall w1 argv, exists result, run_outcome w1 argv None = Ok result) ->
      exists flags w',
        list_webtops w
        = (Ok (JDict [ ("status", JStr (lit "success"));
                       ("webtops",
                        JList (zip_with webtop_entry (listed w) flags));
                       ("count", JInt (Z.of_nat (length (listed w)))) ],
               200),
           w')
        /\ length flags = length (listed w)
        /\ NoDup (listed w)
        /\ forall name,
             In name (listed w)
             <-> is_Some (fs w !! (resolve UPLOAD_DIR ++ [name]))
                 /\ startswith name (lit "webtop_") = true).
Proof.
  rewrite list_webtops_eval. split; [|split].
  - by intros ->.
  - intros -> Hempty.
    assert (entries (fs w) (resolve UPLOAD_DIR) = []) as ->; [|reflexivity].
    destruct (entries _ _) as [|name rest] eqn:E; [done|].
    assert (In name (entries (fs w) (resolve UPLOAD_DIR))) as Hin
      by (rewrite E; by left).
    apply entries_spec in Hin as [o Ho]. by rewrite Hempty in Ho.
  - intros -> Hrun.
    destruct (list_loop_total (entries (fs w) (resolve UPLOAD_DIR)) [] w Hrun)
      as (flags & w' & -> & Hlen & _).
    fold (listed w) in Hlen |- *. exists flags, w'. split.
    + unfold listing. cbn [app]. rewrite length_zip_with.
      by rewrite Hlen, Nat.min_id.
    + split; [done|]. split.
      * apply NoDup_bool_filter, entries_NoDup.
      * intros name. unfold listed. by rewrite filter_In, entries_spec.
Qed.

(** * Further properties *)

(** ** What [deploy_webtop] answers *)

(** X1. [deploy_webtop] answers every request, with status 200, 400 or
    500 (nothing escapes its [except] clause).  The status is 400 exactly
    when the request has no file under the field name [docker-compose]
    whose file name is not empty, the first file of that name being the
    one that counts; the world is then as before. *)
Theorem deploy_webtop_answers files w :
  exists body code w',
    deploy_webtop files w = (Ok (body, code), w')
    /\ (code = 200 \/ code = 400 \/ code = 500)
    /\ (code = 400 <->
        forall yaml_file,
          md_get files (lit "docker-compose") = Some yaml_file ->
          filename yaml_file = [])
    /\ (code = 400 ->
        w' = w /\ jget "status" body = Some (JStr (lit "error"))).
Proof.
  unfold deploy_webtop. destruct files as [|kv files'].
  { eexists _, 400, w. split; [reflexivity|]. split; [by right; left|].
    split; [|done]. split; [|done]. intros _ yf Hyf. discriminate. }
  destruct (md_get (kv :: files') (lit "docker-compose")) as [yaml_file|]
    eqn:Hget.
  2:{ eexists _, 400, w. split; [reflexivity|]. split; [by right; left|].
      split; [|done]. split; [|done]. intros _ yf Hyf. discriminate. }
  destruct (file_truthy yaml_file) eqn:Ht.
  2:{ eexists _, 400, w. split; [reflexivity|]. split; [by right; left|].
      split; [|done]. split; [|done]. intros _ yf [= <-].
      unfold file_truthy in Ht. by destruct (filename yaml_file). }
  rewrite deploy_files_unfold. unfold try_except.
  destruct (deploy_steps _ _ _ _ _ _ w) as [[[resp code]|e] w1] eqn:Es.
  - apply deploy_steps_Ok in Es as (pid & data & _ & -> & _);
      [|apply plain_deploy_dir].
    exists resp, 200, w1. split; [done|]. split; [by left|].
    split; [|done]. split; [done|]. intros H. specialize (H _ eq_refl).
    unfold file_truthy in Ht. by rewrite H in Ht.
  - eexists _, 500, w1. split; [reflexivity|]. split; [by right; right|].
    split; [|done]. split; [done|]. intros H. specialize (H _ eq_refl).
    unfold file_truthy in Ht. by rewrite H in Ht.
Qed.

(** ** The order of the effects of a deploy *)

Lemma Follows_ret {A} (a : A) : Follows [] (ret a).
Proof.
  intros w r w' [= <- <-]. exists []. by rewrite app_nil_r.
Qed.

Lemma Follows_raise {A} plan e : Follows plan (raise (A := A) e).
Proof.
  intros w r w' [= <- <-]. exists []. split; [by rewrite app_nil_r|].
  split; [apply prefix_nil | intros []].
Qed.

Lemma Follows_bind {A B} p1 p2 (c : M A) (k : A -> M B) :
  Follows p1 c -> (forall a, Follows p2 (k a)) -> Follows (p1 ++ p2) (bind c k).
Proof.
  intros Hc Hk w r w' H. unfold bind in H.
  destruct (c w) as [[a|e] w1] eqn:E.
  - destruct (Hc _ _ _ E) as (evs1 & Ht1 & _ & Hall1).
    destruct (Hk a _ _ _ H) as (evs2 & Ht2 & Hp2 & Hall2).
    exists (p1 ++ evs2). rewrite Ht2, Ht1, (Hall1 I), <- app_assoc.
    split; [done|]. split; [by apply prefix_app|].
    intros Hr. by rewrite (Hall2 Hr).
  - injection H as <- <-. destruct (Hc _ _ _ E) as (evs1 & Ht1 & Hp1 & _).
    exists evs1. split; [done|]. split; [by apply prefix_app_r | intros []].
Qed.

Lemma Follows_cons {A B} ev plan (c : M A) (k : A -> M B) :
  Follows [ev] c -> (forall a, Follows plan (k a)) ->
  Follows (ev :: plan) (bind c k).
Proof. apply (Follows_bind [ev] plan). Qed.

(** An operation with one effect, which a failure leaves undone. *)
Lemma Follows_one {A} ev (c : M A) :
  (forall w r w',
      c w = (r, w') ->
      (w' = w /\ ~ returned r) \/ trace w' = trace w ++ [ev]) ->
  Follows [ev] c.
Proof.
  intros Hc w r w' H. destruct (Hc _ _ _ H) as [[-> Hr] | Ht].
  - exists []. split; [by rewrite app_nil_r|]. split; [apply prefix_nil | done].
  - exists [ev]. done.
Qed.

Lemma Follows_makedirs p : Follows [EvMakedirs p] (makedirs p).
Proof.
  apply Follows_one. intros w r w'. unfold makedirs.
  destruct (makedirs_from _ _ _); intros [= <- <-]; [by right | left].
  split; [done | intros []].
Qed.

Lemma Follows_write_file p data : Follows [EvWrite p] (write_file p data).
Proof.
  apply Follows_one. intros w r w' H.
  apply write_file_inv in H as [(e & -> & ->) | (_ & _ & mode & ->)].
  - left. split; [done | intros []].
  - by right.
Qed.

Lemma Follows_write_text p chunks : Follows [EvWrite p] (write_text p chunks).
Proof.
  unfold write_text. destruct (encode_writes chunks) as [data [e|]].
  - apply (Follows_bind [EvWrite p] []); [apply Follows_write_file|].
    intros _. apply Follows_raise.
  - apply (Follows_bind [EvWrite p] []); [apply Follows_write_file|].
    intros _. apply Follows_ret.
Qed.

Lemma Follows_chmod p mode : Follows [EvChmod p mode] (chmod p mode).
Proof.
  apply Follows_one. intros w r w'. unfold chmod.
  destruct (lookup_path _ _) as [[data m|]|]; intros [= <- <-];
    [by right | by right | left].
  split; [done | intros []].
Qed.

Lemma Follows_Popen argv cwd :
  Follows [EvPopen argv cwd] (subprocess_Popen argv cwd).
Proof. apply Follows_one. intros w r w' [= _ <-]. by right. Qed.

Lemma Follows_save_group prefix fallback files dir keys saved count :
  Follows (map (fun name => EvWrite (path_join dir name))
               (group_names prefix fallback files keys count))
          (save_group prefix fallback files dir keys saved count).
Proof.
  revert saved count.
  induction keys as [|key keys IH]; intros saved count;
    cbn [save_group group_names].
  - apply Follows_ret.
  - destruct (startswith key prefix); [|apply IH].
    destruct (md_get files key) as [file|]; [|apply Follows_raise].
    cbn [map]. apply Follows_cons; [apply Follows_write_file|].
    intros _. apply IH.
Qed.

Lemma Follows_deploy_steps files yaml_file :
  Follows (deploy_plan files yaml_file)
    (deploy_steps files (inspected yaml_file) (deploy_yaml_name yaml_file)
       (deploy_id yaml_file) (deploy_port yaml_file)
       (webtop_dir_of (deploy_id yaml_file))).
Proof.
  unfold deploy_steps, deploy_plan. cbv zeta. cbn [app].
  apply Follows_cons; [apply Follows_makedirs | intros _].
  apply Follows_cons; [apply Follows_write_file | intros _].
  apply Follows_bind; [apply Follows_save_group | intros dockerfiles].
  apply Follows_bind; [apply Follows_save_group | intros resources].
  apply Follows_cons; [apply Follows_write_text | intros _].
  apply Follows_cons; [apply Follows_chmod | intros _].
  apply Follows_cons; [apply Follows_Popen | intros pid].
  apply Follows_ret.
Qed.

(** A beginning of a list that ends in [x] is a beginning of the list
    before [x], or all of it. *)
Lemma prefix_snoc_cases {A} (l init : list A) x :
  l `prefix_of` init ++ [x] -> l `prefix_of` init \/ l = init ++ [x].
Proof.
  intros [k Hk]. destruct k as [|y k _] using rev_ind.
  - right. by rewrite app_nil_r in Hk.
  - left. rewrite app_assoc in Hk. apply app_inj_tail in Hk as [-> _].
    by exists k.
Qed.

(** X2. The effects of a deploy follow one plan: the workload directory
    is made, the manifest is written, then the build files and the
    resources in the order they are saved, then [run.sh] is written and
    made executable, and last the script is launched with [bash] in the
    workload directory.  Whatever the outcome, what was done is a
    beginning of that plan; a deploy that answers 200 has done all of it,
    and the launcher is reached only when every step before it was
    done. *)
Theorem deploy_effects_follow_plan files yaml_file w r w' :
  md_get files (lit "docker-compose") = Some yaml_file ->
  deploy_webtop files w = (r, w') ->
  exists evs,
    trace w' = trace w ++ evs
    /\ evs `prefix_of` deploy_plan files yaml_file
    /\ (forall resp, r = Ok (resp, 200) -> evs = deploy_plan files yaml_file)
    /\ (forall argv cwd,
           In (EvPopen argv cwd) evs -> evs = deploy_plan files yaml_file).
Proof.
  intros Hget H.
  assert (exists evs,
             trace w' = trace w ++ evs
             /\ evs `prefix_of` deploy_plan files yaml_file
             /\ (forall resp, r = Ok (resp, 200) ->
                   evs = deploy_plan files yaml_file))
    as (evs & Ht & Hp & Hall).
  { pose proof H as H0.
    apply deploy_webtop_inv in H as [-> | (yf & Hyf & _ & H)].
    - exists []. split; [by rewrite app_nil_r|]. split; [apply prefix_nil|].
      intros resp ->.
      apply deploy_webtop_200 in H0 as (yf & Hyf & _ & H0).
      rewrite Hget in Hyf. injection Hyf as <-.
      destruct (Follows_deploy_steps files yaml_file _ _ _ H0)
        as (evs & Ht & _ & Hall).
      rewrite <- (Hall I). apply (app_inv_head (trace w)).
      by rewrite <- Ht, app_nil_r.
    - rewrite Hget in Hyf. injection Hyf as <-.
      rewrite deploy_files_unfold in H. unfold try_except in H.
      destruct (deploy_steps files (inspected yaml_file)
                  (deploy_yaml_name yaml_file) (deploy_id yaml_file)
                  (deploy_port yaml_file)
                  (webtop_dir_of (deploy_id yaml_file)) w)
        as [ra wa] eqn:Es.
      destruct (Follows_deploy_steps files yaml_file _ _ _ Es)
        as (evs & Ht & Hp & Hall).
      destruct ra as [a|e]; injection H as <- <-.
      + exists evs. split; [done|]. split; [done|]. intros _ _. by apply Hall.
      + exists evs. split; [done|]. split; [done|]. intros resp [=]. }
  exists evs. split; [done|]. split; [done|]. split; [done|].
  intros argv cwd Hin. unfold deploy_plan in Hp |- *. cbv zeta in Hp |- *.
  set (dir := webtop_dir_of (deploy_id yaml_file)) in Hp |- *.
  set (init :=
         [ EvMakedirs dir; EvWrite (path_join dir (deploy_yaml_name yaml_file)) ]
         ++ map (fun name => EvWrite (path_join dir name)) (build_names files)
         ++ map (fun name => EvWrite (path_join dir name))
                (resource_names files)
         ++ [ EvWrite (path_join dir (lit "run.sh"));
              EvChmod (path_join dir (lit "run.sh")) 493 ]).
  assert ([ EvMakedirs dir; EvWrite (path_join dir (deploy_yaml_name yaml_file)) ]
          ++ map (fun name => EvWrite (path_join dir name)) (build_names files)
          ++ map (fun name => EvWrite (path_join dir name))
                 (resource_names files)
          ++ [ EvWrite (path_join dir (lit "run.sh"));
               EvChmod (path_join dir (lit "run.sh")) 493;
               EvPopen [lit "bash"; path_join dir (lit "run.sh")] dir ]
          = init ++ [EvPopen [lit "bash"; path_join dir (lit "run.sh")] dir])
    as Hplan.
  { unfold init. by rewrite <- !app_assoc. }
  rewrite Hplan in Hp |- *.
  apply prefix_snoc_cases in Hp as [[k Hk] | Hp]; [|done].
  exfalso. assert (In (EvPopen argv cwd) init) as Hi.
  { rewrite Hk. apply in_or_app. by left. }
  unfold init in Hi. rewrite !in_app_iff, !in_map_iff in Hi.
  destruct Hi as [[Hi | [Hi | []]] | [(n & Hn & _) | [(n & Hn & _) | Hi]]];
    try discriminate.
  destruct Hi as [Hi | [Hi | []]]; discriminate.
Qed.

(** ** What a deploy leaves in the workload directory *)

Lemma same_kind_refl o : same_kind o o.
Proof. by destruct o as [[data mode|]|]. Qed.

Lemma same_kind_trans o1 o2 o3 :
  same_kind o1 o2 -> same_kind o2 o3 -> same_kind o1 o3.
Proof.
  destruct o1 as [[d1 m1|]|]; simpl; [|by intros ->|done].
  by destruct o2 as [[d2 m2|]|].
Qed.

Lemma same_kind_is_Some o o' : same_kind o o' -> is_Some o -> is_Some o'.
Proof.
  destruct o as [[d m|]|]; simpl.
  - by destruct o' as [[d' m'|]|].
  - by intros ->.
  - by intros _ [x Hx].
Qed.

Lemma same_kind_file o o' :
  same_kind o o' -> is_file o = true -> is_file o' = true.
Proof. by destruct o as [[d m|]|]. Qed.

Lemma Within_ret {A} dir names (a : A) : Within dir names (ret a).
Proof.
  intros w r w' [= _ <-]. split; [done | intros loc; apply same_kind_refl].
Qed.

Lemma Within_raise {A} dir names e : Within dir names (raise (A := A) e).
Proof.
  intros w r w' [= _ <-]. split; [done | intros loc; apply same_kind_refl].
Qed.

Lemma Within_bind {A B} dir names (c : M A) (k : A -> M B) :
  Within dir names c -> (forall a, Within dir names (k a)) ->
  Within dir names (bind c k).
Proof.
  intros Hc Hk w r w' H. unfold bind in H.
  destruct (c w) as [[a|e] w1] eqn:E.
  - destruct (Hc _ _ _ E) as [Hc1 Hc2]. destruct (Hk a _ _ _ H) as [Hk1 Hk2].
    split.
    + intros loc Hloc. by rewrite Hk1, Hc1.
    + intros loc. by eapply same_kind_trans.
  - injection H as _ <-. by eapply Hc.
Qed.

Lemma Within_mono {A} dir names names' (c : M A) :
  (forall name, In name names -> In name names') ->
  Within dir names c -> Within dir names' c.
Proof.
  intros Hsub Hc w r w' H. destruct (Hc _ _ _ H) as [H1 H2]. split; [|done].
  intros loc Hloc. apply H1. intros name Hn. by apply Hloc, Hsub.
Qed.

(** [write_file] changes the location its path names, and nothing else;
    what it leaves there is a regular file with the data. *)
Lemma write_file_fs p data w r w' :
  write_file p data w = (r, w') ->
  (forall loc, loc <> resolve p -> fs w' !! loc = fs w !! loc)
  /\ (forall loc, same_kind (fs w !! loc) (fs w' !! loc))
  /\ (r = Ok tt ->
      endswith p (lit "/") = false
      /\ exists mode, fs w' !! resolve p = Some (FileObj data mode)).
Proof.
  unfold write_file. destruct (endswith p (lit "/")); simpl.
  { intros [= <- <-]. split; [done|]. split; [|done].
    intros loc; apply same_kind_refl. }
  destruct (is_dir (lookup_path (fs w) p)) eqn:Hd.
  { intros [= <- <-]. split; [done|]. split; [|done].
    intros loc; apply same_kind_refl. }
  assert (fs w !! resolve p <> Some DirObj) as Hnd.
  { intros Hf. unfold lookup_path in Hd.
    destruct (resolve p) as [|c l]; [done|]. by rewrite Hf in Hd. }
  assert (forall o,
             (forall loc, loc <> resolve p ->
                          <[resolve p := o]> (fs w) !! loc = fs w !! loc)) as Hne.
  { intros o loc Hloc. by apply lookup_insert_ne. }
  assert (forall mode loc,
             same_kind (fs w !! loc)
                       (<[resolve p := FileObj data mode]> (fs w) !! loc))
    as Hkind.
  { intros mode loc. destruct (decide (resolve p = loc)) as [<-|Hloc].
    - rewrite lookup_insert_eq.
      destruct (fs w !! resolve p) as [[d m|]|]; done.
    - rewrite lookup_insert_ne; [apply same_kind_refl | done]. }
  destruct (fs w !! resolve p) as [[d mode|]|] eqn:E; [|done|].
  - intros [= <- <-]. simpl. split; [apply Hne|]. split; [apply Hkind|].
    intros _. split; [done|]. exists mode. apply lookup_insert_eq.
  - destruct (parent_is_dir _ _); intros [= <- <-]; simpl.
    + split; [apply Hne|]. split; [apply Hkind|].
      intros _. split; [done|]. exists default_mode. apply lookup_insert_eq.
    + split; [done|]. split; [|done]. intros loc; apply same_kind_refl.
Qed.

Lemma Within_write_file dir name data :
  plain_dir dir ->
  name = lit "run.sh" \/ (exists x, name = secure_filename x) ->
  Within dir [name] (write_file (path_join dir name) data).
Proof.
  intros Hdir Hname w r w' H.
  destruct (write_file_fs _ _ _ _ _ H) as (Hne & Hkind & _). split; [|done].
  intros loc Hloc.
  pose proof H as H0.
  apply write_file_inv in H0 as [(e & -> & ->) | (-> & Hend & mode & ->)];
    [done|].
  assert (name <> []) as Hnn.
  { intros ->. rewrite path_join_empty in Hend; [|done].
    by rewrite endswith_app in Hend. }
  apply Hne. rewrite (resolve_join_name dir name Hdir Hname Hnn).
  apply Hloc. by left.
Qed.

Lemma Within_write_text dir name chunks :
  plain_dir dir ->
  name = lit "run.sh" \/ (exists x, name = secure_filename x) ->
  Within dir [name] (write_text (path_join dir name) chunks).
Proof.
  intros Hdir Hname. unfold write_text.
  destruct (encode_writes chunks) as [data [e|]].
  - apply Within_bind; [by apply Within_write_file|].
    intros _. apply Within_raise.
  - apply Within_bind; [by apply Within_write_file|].
    intros _. apply Within_ret.
Qed.

Lemma Within_chmod dir mode :
  plain_dir dir ->
  Within dir [lit "run.sh"] (chmod (path_join dir (lit "run.sh")) mode).
Proof.
  intros Hdir w r w'. unfold chmod.
  assert (resolve (path_join dir (lit "run.sh")) = resolve dir ++ [lit "run.sh"])
    as Hres by (apply resolve_join_name; [done | by left | done]).
  rewrite lookup_path_resolved.
  2:{ rewrite Hres. apply not_eq_sym, app_cons_not_nil. }
  destruct (fs w !! _) as [[data m|]|] eqn:E; intros [= _ <-]; simpl.
  - split.
    + intros loc Hloc. apply lookup_insert_ne. rewrite Hres.
      apply not_eq_sym, Hloc. by left.
    + intros loc.
      destruct (decide (resolve (path_join dir (lit "run.sh")) = loc))
        as [<-|Hloc].
      * by rewrite lookup_insert_eq, E.
      * rewrite lookup_insert_ne; [apply same_kind_refl | done].
  - split; [done | intros loc; apply same_kind_refl].
  - split; [done | intros loc; apply same_kind_refl].
Qed.

Lemma Within_Popen dir names argv cwd :
  Within dir names (subprocess_Popen argv cwd).
Proof.
  intros w r w' [= _ <-]. split; [done | intros loc; apply same_kind_refl].
Qed.

Lemma Within_save_group dir prefix fallback files keys saved count :
  plain_dir dir ->
  Within dir (group_names prefix fallback files keys count)
         (save_group prefix fallback files dir keys saved count).
Proof.
  intros Hdir. revert saved count.
  induction keys as [|key keys IH]; intros saved count;
    cbn [save_group group_names].
  - apply Within_ret.
  - destruct (startswith key prefix); [|apply IH].
    destruct (md_get files key) as [file|]; [|apply Within_raise].
    apply Within_bind.
    + eapply Within_mono; [|apply Within_write_file; [done | right; eauto]].
      intros name [<- | []]. by left.
    + intros _. eapply Within_mono; [|apply IH]. intros name Hn. by right.
Qed.

(** The files a saving loop has saved are there when it returns. *)
Lemma save_group_saved prefix fallback files dir keys saved count w names w' :
  plain_dir dir ->
  save_group prefix fallback files dir keys saved count w = (Ok names, w') ->
  Forall (fun n => n <> []
                   /\ is_file (fs w' !! (resolve dir ++ [n])) = true)
         (group_names prefix fallback files keys count).
Proof.
  intros Hdir. revert saved count w.
  induction keys as [|key keys IH]; intros saved count w;
    cbn [save_group group_names].
  - constructor.
  - destruct (startswith key prefix); [|apply IH].
    destruct (md_get files key) as [file|]; [|discriminate].
    intros H. apply bind_Ok in H as ([] & w1 & Hw & H).
    constructor; [|by eapply IH].
    unfold save in Hw.
    destruct (write_file_fs _ _ _ _ _ Hw) as (_ & _ & Hok).
    destruct (Hok eq_refl) as (Hend & mode & Hfile).
    set (name := secure_filename
                   (str_or (filename file) (fallback ++ str_of_nat (count + 1))))
      in *.
    assert (name <> []) as Hnn.
    { intros Hn. rewrite Hn, path_join_empty in Hend; [|done].
      by rewrite endswith_app in Hend. }
    split; [done|].
    rewrite resolve_join_name in Hfile; [|done|right; by eexists|done].
    destruct (Within_save_group dir prefix fallback files keys
                (saved ++ [name]) (S count) Hdir _ _ _ H) as [_ Hkind].
    eapply same_kind_file; [apply Hkind|]. by rewrite Hfile.
Qed.

Lemma extract_user_file yaml_file :
  (extract_user_from_yaml yaml_file).2
  = {| filename := filename yaml_file;
       stream := stream yaml_file;
       position := match utf8_decode (stream yaml_file) with
                   | Some _ => O
                   | None => length (stream yaml_file)
                   end |}.
Proof.
  unfold extract_user_from_yaml, read, seek0. cbn [position stream filename].
  rewrite (drop_0 (stream yaml_file)).
  destruct (utf8_decode (stream yaml_file)) as [content|]; [|reflexivity].
  by destruct (search user_pattern content).
Qed.

Lemma extract_port_file yaml_file :
  (extract_port_from_yaml yaml_file).2
  = {| filename := filename yaml_file;
       stream := stream yaml_file;
       position := match utf8_decode (stream yaml_file) with
                   | Some _ => O
                   | None => length (stream yaml_file)
                   end |}.
Proof.
  unfold extract_port_from_yaml, read, seek0. cbn [position stream filename].
  rewrite (drop_0 (stream yaml_file)).
  destruct (utf8_decode (stream yaml_file)) as [content|]; [|reflexivity].
  by destruct (search port_pattern content) as [[g|]|].
Qed.

Lemma inspected_bytes yaml_file :
  drop (position (inspected yaml_file)) (stream (inspected yaml_file))
  = manifest_bytes yaml_file.
Proof.
  unfold inspected, manifest_bytes.
  rewrite extract_port_file, extract_user_file. cbn [position stream filename].
  destruct (utf8_decode (stream yaml_file)) as [content|];
    [apply drop_0 | apply drop_all].
Qed.

Lemma makedirs_from_frame done todo m m' :
  makedirs_from done todo m = Ok m' ->
  forall loc,
    (loc `prefix_of` done ++ todo -> (length loc <= length done)%nat) ->
    m' !! loc = m !! loc.
Proof.
  revert done m. induction todo as [|c rest IH]; intros done m; simpl.
  - by intros [= <-].
  - rewrite (cons_middle c done rest), app_assoc.
    assert (forall loc : list str,
               (loc `prefix_of` (done ++ [c]) ++ rest ->
                (length loc <= length done)%nat) ->
               (loc `prefix_of` (done ++ [c]) ++ rest ->
                (length loc <= length (done ++ [c]))%nat)) as Hstep.
    { intros loc Hloc Hp. specialize (Hloc Hp). rewrite length_app. lia. }
    destruct (m !! (done ++ [c])) as [[data mode|]|] eqn:E; [discriminate| |].
    + intros H loc Hloc. eapply IH; [done | by apply Hstep].
    + intros H loc Hloc. rewrite (IH _ _ H loc (Hstep loc Hloc)).
      apply lookup_insert_ne. intros <-.
      assert (length (done ++ [c]) <= length done)%nat as Hl
        by (apply Hloc; by apply prefix_app_r).
      rewrite length_app in Hl. simpl in Hl. lia.
Qed.

(** [os.makedirs] changes the locations on the way to its directory
    only. *)
Lemma makedirs_frame p w w' :
  makedirs p w = (Ok tt, w') ->
  forall loc, loc = [] \/ ~ (loc `prefix_of` resolve p) ->
              fs w' !! loc = fs w !! loc.
Proof.
  unfold makedirs.
  destruct (makedirs_from _ _ _) as [m'|e] eqn:E; [|discriminate].
  intros [= <-] loc Hloc. simpl. eapply (makedirs_from_frame [] _ _ _ E).
  intros Hp. destruct Hloc as [-> | Hloc]; [done | by destruct Hloc].
Qed.

Lemma makedirs_from_dirs done todo m m' :
  makedirs_from done todo m = Ok m' ->
  forall loc,
    loc `prefix_of` done ++ todo -> (length done < length loc)%nat ->
    m' !! loc = Some DirObj.
Proof.
  revert done m. induction todo as [|c rest IH]; intros done m; simpl.
  - intros _ loc Hp Hl. rewrite app_nil_r in Hp. apply prefix_length in Hp. lia.
  - rewrite (cons_middle c done rest), app_assoc.
    assert (forall m1,
               makedirs_from (done ++ [c]) rest m1 = Ok m' ->
               m1 !! (done ++ [c]) = Some DirObj ->
               forall loc : list str,
                 loc `prefix_of` (done ++ [c]) ++ rest ->
                 (length done < length loc)%nat ->
                 m' !! loc = Some DirObj) as Hstep.
    { intros m1 H Hd loc Hp Hl.
      destruct (decide (length loc = length (done ++ [c]))) as [Heq|Hne].
      - destruct Hp as [k Hk]. symmetry in Heq.
        apply (app_inj_1 _ _ _ _ Heq) in Hk as [<- _].
        by apply (proj1 (makedirs_from_spec _ _ _ _ H)).
      - apply (IH _ _ H loc Hp). rewrite length_app in Hne |- *. simpl in *. lia. }
    destruct (m !! (done ++ [c])) as [[data mode|]|] eqn:E; [discriminate| |].
    + intros H. by apply (Hstep m).
    + intros H. apply (Hstep _ H). apply lookup_insert_eq.
Qed.

(** [os.makedirs] leaves a directory at every step of the way. *)
Lemma makedirs_dirs p w w' :
  makedirs p w = (Ok tt, w') ->
  forall loc, loc `prefix_of` resolve p -> loc <> [] ->
              fs w' !! loc = Some DirObj.
Proof.
  unfold makedirs.
  destruct (makedirs_from _ _ _) as [m'|e] eqn:E; [|discriminate].
  intros [= <-] loc Hp Hne. simpl.
  apply (makedirs_from_dirs [] _ _ _ E); [done|].
  destruct loc; [done | simpl; lia].
Qed.

(** The file system after a successful deploy: the directories on the
    way to the workload directory were made; the manifest was written
    with the bytes left to read; the other writes went to the entries
    named after the saved files and [run.sh], which are regular files. *)
Lemma deploy_webtop_fs files yaml_file w resp w' :
  md_get files (lit "docker-compose") = Some yaml_file ->
  deploy_webtop files w = (Ok (resp, 200), w') ->
  exists w1 mode,
    makedirs (webtop_dir_of (deploy_id yaml_file)) w = (Ok tt, w1)
    /\ (forall loc,
          (forall name,
              In name (build_names files ++ resource_names files
                       ++ [lit "run.sh"]) ->
              loc <> resolve (webtop_dir_of (deploy_id yaml_file)) ++ [name]) ->
          fs w' !! loc
          = <[resolve (webtop_dir_of (deploy_id yaml_file))
                ++ [deploy_yaml_name yaml_file]
              := FileObj (manifest_bytes yaml_file) mode]> (fs w1) !! loc)
    /\ (forall loc, same_kind (fs w1 !! loc) (fs w' !! loc))
    /\ Forall (fun n =>
                 n <> []
                 /\ is_file (fs w' !! (resolve (webtop_dir_of (deploy_id yaml_file))
                                       ++ [n])) = true)
              (saved_names files yaml_file).
Proof.
  intros Hget H. apply deploy_webtop_200 in H as (yf & Hyf & _ & H).
  rewrite Hget in Hyf. injection Hyf as <-.
  pose proof (plain_deploy_dir yaml_file) as Hdir.
  set (dir := webtop_dir_of (deploy_id yaml_file)) in *.
  unfold deploy_steps in H.
  apply bind_Ok in H as ([] & w1 & Hmk & H).
  apply bind_Ok in H as ([] & w2 & Hy & H).
  apply bind_Ok in H as (dockerfiles & w3 & Hd & H).
  apply bind_Ok in H as (resources & w4 & Hr & H).
  apply bind_Ok in H as ([] & w5 & Hw & H).
  apply bind_Ok in H as ([] & w6 & Hc & H).
  apply bind_Ok in H as (pid & w7 & Hp & [= _ <-]).
  (* the manifest *)
  unfold save in Hy. rewrite inspected_bytes in Hy.
  destruct (write_file_fs _ _ _ _ _ Hy) as (Hy1 & Hy2 & Hy3).
  destruct (Hy3 eq_refl) as (Hend & mode & Hyfile).
  assert (deploy_yaml_name yaml_file <> []) as Hnn.
  { intros Hn. rewrite Hn, path_join_empty in Hend; [|done].
    by rewrite endswith_app in Hend. }
  assert (resolve (path_join dir (deploy_yaml_name yaml_file))
          = resolve dir ++ [deploy_yaml_name yaml_file]) as Hres.
  { apply resolve_join_name; [done | right; apply deploy_yaml_name_sanitised
                              | done]. }
  rewrite Hres in Hy1, Hyfile.
  (* the steps after it *)
  unfold save_dockerfiles in Hd. unfold save_resources in Hr.
  pose proof (Within_save_group dir _ _ _ _ _ _ Hdir _ _ _ Hd) as [Hd1 Hd2].
  pose proof (Within_save_group dir _ _ _ _ _ _ Hdir _ _ _ Hr) as [Hr1 Hr2].
  pose proof (Within_write_text dir (lit "run.sh") _ Hdir (or_introl eq_refl)
                _ _ _ Hw) as [Hw1 Hw2].
  pose proof (Within_chmod dir 493 Hdir _ _ _ Hc) as [Hc1 Hc2].
  pose proof (Within_Popen dir [] _ _ _ _ _ Hp) as [Hp1 Hp2].
  fold (build_names files) in Hd1. fold (resource_names files) in Hr1.
  assert (forall loc, same_kind (fs w2 !! loc) (fs w7 !! loc)) as Hk27.
  { intros loc.
    eapply same_kind_trans; [apply Hd2|].
    eapply same_kind_trans; [apply Hr2|].
    eapply same_kind_trans; [apply Hw2|].
    eapply same_kind_trans; [apply Hc2 | apply Hp2]. }
  assert (forall loc, same_kind (fs w4 !! loc) (fs w7 !! loc)) as Hk47.
  { intros loc.
    eapply same_kind_trans; [apply Hw2|].
    eapply same_kind_trans; [apply Hc2 | apply Hp2]. }
  assert (forall loc, same_kind (fs w3 !! loc) (fs w7 !! loc)) as Hk37.
  { intros loc. eapply same_kind_trans; [apply Hr2 | apply Hk47]. }
  exists w1, mode. split; [done|]. split; [|split].
  - intros loc Hloc.
    rewrite Hp1, Hc1, Hw1, Hr1, Hd1; try done.
    + destruct (decide (loc = resolve dir ++ [deploy_yaml_name yaml_file]))
        as [->|Hne].
      * by rewrite Hyfile, lookup_insert_eq.
      * rewrite Hy1; [|done]. by rewrite lookup_insert_ne.
    + intros name Hn. apply Hloc. apply in_or_app. by left.
    + intros name Hn. apply Hloc. apply in_or_app. right.
      apply in_or_app. by left.
    + intros name Hn. apply Hloc. apply in_or_app. right.
      apply in_or_app. by right.
    + intros name Hn. apply Hloc. apply in_or_app. right.
      apply in_or_app. by right.
  - intros loc. eapply same_kind_trans; [apply Hy2 | apply Hk27].
  - unfold saved_names. constructor.
    { split; [done|]. eapply same_kind_file; [apply Hk27|]. by rewrite Hyfile. }
    apply Forall_app. split.
    { eapply Forall_impl; [by eapply save_group_saved|].
      intros n [Hn Hf]. split; [done|].
      eapply same_kind_file; [apply Hk37 | done]. }
    apply Forall_app. split.
    { eapply Forall_impl; [by eapply save_group_saved|].
      intros n [Hn Hf]. split; [done|].
      eapply same_kind_file; [apply Hk47 | done]. }
    constructor; [|constructor]. split; [done|].
    apply write_text_Ok in Hw as (data & m5 & _ & Hw5).
    assert (resolve (path_join dir (lit "run.sh")) = resolve dir ++ [lit "run.sh"])
      as Hrs by (apply resolve_join_name; [done | by left | done]).
    eapply same_kind_file.
    { eapply same_kind_trans; [apply Hc2 | apply Hp2]. }
    rewrite Hw5. cbn [fs log set_fs]. by rewrite Hrs, lookup_insert_eq.
Qed.

(** X3. A successful deploy saves the manifest under its sanitised name
    in the workload directory.  When no build file, no resource and not
    the run script is saved under that same name, the file holds the
    bytes of the upload if they are UTF-8; if they are not, the file is
    empty: the inspectors have left the stream at its end. *)
Theorem deploy_saves_manifest files yaml_file w resp w' :
  md_get files (lit "docker-compose") = Some yaml_file ->
  deploy_webtop files w = (Ok (resp, 200), w') ->
  ~ In (deploy_yaml_name yaml_file)
       (build_names files ++ resource_names files ++ [lit "run.sh"]) ->
  jget "files" resp
  = Some (saved_files_json (deploy_yaml_name yaml_file) (build_names files)
                           (resource_names files))
  /\ exists mode,
       fs w' !! (resolve (webtop_dir_of (deploy_id yaml_file))
                 ++ [deploy_yaml_name yaml_file])
       = Some (FileObj (manifest_bytes yaml_file) mode)
       /\ (manifest_bytes yaml_file = stream yaml_file
           <-> (stream yaml_file = []
                \/ is_Some (utf8_decode (stream yaml_file)))).
Proof.
  intros Hget H Hnot. split.
  { apply deploy_webtop_script in H as (yf & pid & data & Hyf & -> & _).
    rewrite Hget in Hyf. by injection Hyf as <-. }
  destruct (deploy_webtop_fs _ _ _ _ _ Hget H) as (w1 & mode & _ & Hfs & _).
  exists mode. split.
  - rewrite Hfs; [apply lookup_insert_eq|].
    intros name Hn Heq. apply app_inj_tail in Heq as [_ <-]. by apply Hnot.
  - unfold manifest_bytes.
    destruct (utf8_decode (stream yaml_file)) as [content|] eqn:E.
    + split; [intros _; right; by eexists | done].
    + split; [by left|]. intros [-> | [x Hx]]; done.
Qed.

(** The entries of the workload directory after a successful deploy. *)
Lemma deploy_webtop_entries files yaml_file w resp w' :
  md_get files (lit "docker-compose") = Some yaml_file ->
  deploy_webtop files w = (Ok (resp, 200), w') ->
  fs w' !! resolve (webtop_dir_of (deploy_id yaml_file)) = Some DirObj
  /\ fs w' !! resolve UPLOAD_DIR = Some DirObj
  /\ (forall name,
         is_Some (fs w' !! (resolve (webtop_dir_of (deploy_id yaml_file))
                            ++ [name]))
         <-> is_Some (fs w !! (resolve (webtop_dir_of (deploy_id yaml_file))
                               ++ [name]))
             \/ In name (saved_names files yaml_file))
  /\ Forall (fun name =>
               name <> []
               /\ is_file (fs w' !! (resolve (webtop_dir_of (deploy_id yaml_file))
                                     ++ [name])) = true)
            (saved_names files yaml_file).
Proof.
  intros Hget H.
  destruct (deploy_webtop_fs _ _ _ _ _ Hget H)
    as (w1 & mode & Hmk & Hfs & Hkind & Hsaved).
  pose proof (resolve_deploy_dir yaml_file) as Hres.
  set (dir := resolve (webtop_dir_of (deploy_id yaml_file))) in *.
  pose proof (makedirs_frame _ _ _ Hmk) as Hframe.
  pose proof (makedirs_dirs _ _ _ Hmk) as Hdirs. fold dir in Hdirs, Hframe.
  apply makedirs_Ok in Hmk as (_ & Hkeep & _ & _).
  split; [|split; [|split; [|done]]].
  { specialize (Hkind dir). rewrite Hdirs in Hkind; [done | done |].
    rewrite Hres. apply not_eq_sym, app_cons_not_nil. }
  { specialize (Hkind (resolve UPLOAD_DIR)).
    rewrite Hdirs in Hkind; [done | | done].
    rewrite Hres. by apply prefix_app_r. }
  intros name. split.
  - intros Hsome.
    destruct (decide (name ∈ saved_names files yaml_file)) as [Hin|Hnin].
    { right. by apply list_elem_of_In. }
    left. rewrite list_elem_of_In in Hnin. unfold saved_names in Hnin.
    rewrite Hfs in Hsome.
    2:{ intros n Hn Heq. apply app_inj_tail in Heq as [_ <-].
        apply Hnin. by right. }
    rewrite lookup_insert_ne in Hsome.
    2:{ intros Heq. apply app_inj_tail in Heq as [_ <-]. apply Hnin. by left. }
    rewrite Hframe in Hsome; [done|]. right. apply prefix_snoc_not.
  - intros [[o Ho] | Hin].
    + eapply same_kind_is_Some; [apply Hkind|]. exists o. by apply Hkeep.
    + apply (proj1 (List.Forall_forall _ _) Hsaved) in Hin as [_ Hf].
      by destruct (fs w' !! (dir ++ [name])) as [[d m|]|].
Qed.

(** X4. After a successful deploy the entries of the workload directory
    are those it had before, together with the files the response lists
    and [run.sh]; each of these is a regular file, and the workload
    directory is a directory. *)
Theorem deploy_directory_contents files yaml_file w resp w' :
  md_get files (lit "docker-compose") = Some yaml_file ->
  deploy_webtop files w = (Ok (resp, 200), w') ->
  jget "files" resp
  = Some (saved_files_json (deploy_yaml_name yaml_file) (build_names files)
                           (resource_names files))
  /\ fs w' !! resolve (webtop_dir_of (deploy_id yaml_file)) = Some DirObj
  /\ (forall name,
         is_Some (fs w' !! (resolve (webtop_dir_of (deploy_id yaml_file))
                            ++ [name]))
         <-> is_Some (fs w !! (resolve (webtop_dir_of (deploy_id yaml_file))
                               ++ [name]))
             \/ In name (saved_names files yaml_file))
  /\ Forall (fun name =>
               name <> []
               /\ is_file (fs w' !! (resolve (webtop_dir_of (deploy_id yaml_file))
                                     ++ [name])) = true)
            (saved_names files yaml_file).
Proof.
  intros Hget H. split.
  { apply deploy_webtop_script in H as (yf & pid & data & Hyf & -> & _).
    rewrite Hget in Hyf. by injection Hyf as <-. }
  destruct (deploy_webtop_entries _ _ _ _ _ Hget H) as (Hd & _ & He & Hs).
  done.
Qed.

(** X5. A manifest whose file name has nothing left after sanitisation
    (a name made of dots, say) cannot be saved: the deploy answers 500
    with the identity it had read; at most the workload directory has
    been made, no file was written and nothing was launched. *)
Theorem deploy_unnameable_manifest files yaml_file w :
  md_get files (lit "docker-compose") = Some yaml_file ->
  filename yaml_file <> [] ->
  deploy_yaml_name yaml_file = [] ->
  exists body w',
    deploy_webtop files w = (Ok (body, 500), w')
    /\ jget "webtop_id" body = Some (JStr (deploy_id yaml_file))
    /\ (trace w' = trace w
        \/ trace w' = trace w ++ [EvMakedirs (webtop_dir_of (deploy_id yaml_file))])
    /\ forall loc data mode,
         fs w' !! loc = Some (FileObj data mode)
         <-> fs w !! loc = Some (FileObj data mode).
Proof.
  intros Hget Hname Hempty. unfold deploy_webtop.
  destruct files as [|kv files']; [discriminate|]. rewrite Hget.
  assert (file_truthy yaml_file = true) as ->.
  { unfold file_truthy. by destruct (filename yaml_file). }
  rewrite deploy_files_unfold. unfold try_except, deploy_steps.
  unfold bind at 1.
  destruct (makedirs (webtop_dir_of (deploy_id yaml_file)) w)
    as [[[]|e] w1] eqn:Emk.
  - rewrite Hempty, path_join_empty; [|apply plain_deploy_dir].
    unfold bind at 1. unfold save, write_file. rewrite endswith_app. simpl.
    eexists _, w1. split; [reflexivity|]. split; [reflexivity|].
    apply makedirs_Ok in Emk as (Ht & Hkeep & Hnew & _).
    split; [by right|]. intros loc data mode. split.
    + intros Hf. destruct (Hnew loc) as [Heq | Hd]; [by rewrite <- Heq|].
      rewrite Hd in Hf. discriminate.
    + apply Hkeep.
  - apply makedirs_Raise in Emk as ->.
    eexists _, w. split; [reflexivity|]. split; [reflexivity|].
    split; [by left | done].
Qed.

(** ** A deploy followed by the other views *)

Lemma lookup_deploy_dir files yaml_file w resp w' :
  md_get files (lit "docker-compose") = Some yaml_file ->
  deploy_webtop files w = (Ok (resp, 200), w') ->
  lookup_path (fs w') (webtop_dir_of (deploy_id yaml_file)) = Some DirObj.
Proof.
  intros Hget H.
  destruct (deploy_webtop_entries _ _ _ _ _ Hget H) as (Hd & _).
  rewrite lookup_path_resolved; [done|].
  rewrite resolve_deploy_dir. apply not_eq_sym, app_cons_not_nil.
Qed.

(** X6. Stopping what was deployed.  After a successful deploy whose
    saved manifest name ends in [.yaml] or [.yml], [stop_webtop] for the
    identity of the response finds the workload directory and a
    manifest-like entry in it, runs the bring-down for that entry in the
    workload directory, and answers by its outcome: 200 on exit status 0,
    500 otherwise or when the runtime cannot be started; never 404. *)
Theorem stop_after_deploy files yaml_file w resp w' :
  md_get files (lit "docker-compose") = Some yaml_file ->
  deploy_webtop files w = (Ok (resp, 200), w') ->
  is_yaml (deploy_yaml_name yaml_file) = true ->
  jget "webtop_id" resp = Some (JStr (deploy_id yaml_file))
  /\ exists first,
       is_yaml first = true
       /\ is_Some
            (fs w' !! (resolve (webtop_dir_of (deploy_id yaml_file)) ++ [first]))
       /\ stop_webtop (deploy_id yaml_file) w'
          = (Ok (match
                    run_outcome w'
                      (compose_down
                         (path_join (webtop_dir_of (deploy_id yaml_file)) first))
                      (Some (webtop_dir_of (deploy_id yaml_file)))
                  with
                  | Ok result =>
                      if returncode result =? 0
                      then stopped (deploy_id yaml_file)
                             (webtop_dir_of (deploy_id yaml_file)) result
                      else stop_failed (deploy_id yaml_file) result
                  | Raise e => internal_error (deploy_id yaml_file) e
                  end),
             log w'
               (EvRun
                  (compose_down
                     (path_join (webtop_dir_of (deploy_id yaml_file)) first))
                  (Some (webtop_dir_of (deploy_id yaml_file))))).
Proof.
  intros Hget H Hyaml. split.
  { pose proof H as H0.
    apply deploy_webtop_script in H0 as (yf & pid & data & Hyf & -> & _).
    rewrite Hget in Hyf. by injection Hyf as <-. }
  pose proof (lookup_deploy_dir _ _ _ _ _ Hget H) as Hdir.
  destruct (deploy_webtop_entries _ _ _ _ _ Hget H) as (_ & _ & Hent & _).
  rewrite stop_webtop_eval. cbv zeta. rewrite Hdir.
  destruct (List.filter is_yaml _) as [|first rest] eqn:E.
  { apply (proj1 (filter_nil_iff _ _)) with (x := deploy_yaml_name yaml_file)
      in E; [congruence|].
    apply entries_spec, Hent. right. by left. }
  apply filter_head_In in E as [Hin Hy]. apply entries_spec in Hin.
  exists first. split; [done|]. split; [done|].
  destruct (run_outcome w' _ _) as [result|e]; [|done].
  by destruct (returncode result =? 0).
Qed.

(** X7. A deploy that cannot be stopped.  [deploy_webtop] saves a
    manifest under any sanitised name, [stop_webtop] looks for an entry
    ending in [.yaml] or [.yml], in lower case.  After a successful deploy
    into a workload directory that had no such entry, with no file saved
    under such a name, [stop_webtop] answers 404 and runs nothing. *)
Theorem stop_misses_manifest files yaml_file w resp w' :
  md_get files (lit "docker-compose") = Some yaml_file ->
  deploy_webtop files w = (Ok (resp, 200), w') ->
  (forall name,
      is_Some (fs w !! (resolve (webtop_dir_of (deploy_id yaml_file)) ++ [name])) ->
      is_yaml name = false) ->
  (forall name, In name (saved_names files yaml_file) -> is_yaml name = false) ->
  jget "webtop_id" resp = Some (JStr (deploy_id yaml_file))
  /\ stop_webtop (deploy_id yaml_file) w'
     = (Ok (yaml_not_found (deploy_id yaml_file)), w').
Proof.
  intros Hget H Hold Hnew. split.
  { pose proof H as H0.
    apply deploy_webtop_script in H0 as (yf & pid & data & Hyf & -> & _).
    rewrite Hget in Hyf. by injection Hyf as <-. }
  pose proof (lookup_deploy_dir _ _ _ _ _ Hget H) as Hdir.
  destruct (deploy_webtop_entries _ _ _ _ _ Hget H) as (_ & _ & Hent & _).
  rewrite stop_webtop_eval. cbv zeta. rewrite Hdir.
  assert (List.filter is_yaml
            (entries (fs w') (resolve (webtop_dir_of (deploy_id yaml_file))))
          = []) as ->; [|done].
  apply filter_nil_iff. intros name Hin.
  apply entries_spec, Hent in Hin as [Hin | Hin]; [by apply Hold | by apply Hnew].
Qed.

(** ** [cleanup_webtop], further *)


(** X9. After a clean-up that answered 200, for an identity without a
    path separator (as the route delivers it), the workload is gone: a
    second clean-up and a stop both answer 404 and change nothing.  What
    was removed lies in the entry [webtop_<id>] of the upload root; every
    other location is as before. *)
Theorem cleanup_then_gone webtop_id w body w' :
  Forall (fun c => c <> 47) webtop_id ->
  cleanup_webtop webtop_id w = (Ok (body, 200), w') ->
  cleanup_webtop webtop_id w' = (Ok (dir_not_found webtop_id), w')
  /\ stop_webtop webtop_id w' = (Ok (dir_not_found webtop_id), w')
  /\ (forall loc,
         ~ ((resolve UPLOAD_DIR ++ [lit "webtop_" ++ webtop_id]) `prefix_of` loc) ->
         fs w' !! loc = fs w !! loc)
  /\ (forall loc,
         (resolve UPLOAD_DIR ++ [lit "webtop_" ++ webtop_id]) `prefix_of` loc ->
         fs w' !! loc = None).
Proof.
  intros Hsep H. pose proof (resolve_webtop_dir webtop_id Hsep) as Hres.
  assert (fs w'
          = filter (fun kv : list str * obj =>
                      ~ (resolve (webtop_dir_of webtop_id) `prefix_of` kv.1))
                   (fs w)) as Hfs.
  { rewrite cleanup_webtop_eval in H. cbv zeta in H.
    destruct (lookup_path (fs w) (webtop_dir_of webtop_id)) as [[data mode|]|];
      [discriminate| |discriminate].
    destruct (List.filter is_yaml _) as [|first rest]; [by injection H as _ <-|].
    destruct (run_outcome w _ _) as [result|e]; [|discriminate].
    by injection H as _ <-. }
  assert (lookup_path (fs w') (webtop_dir_of webtop_id) = None) as Hgone.
  { rewrite lookup_path_resolved.
    - rewrite Hfs. by apply removed_inside.
    - rewrite Hres. apply not_eq_sym, app_cons_not_nil. }
  split; [|split; [|split]].
  - rewrite cleanup_webtop_eval. cbv zeta. by rewrite Hgone.
  - rewrite stop_webtop_eval. cbv zeta. by rewrite Hgone.
  - intros loc Hloc. rewrite Hfs. apply removed_outside. by rewrite Hres.
  - intros loc Hloc. rewrite Hfs. apply removed_inside. by rewrite Hres.
Qed.

(** X10. Clean-up undoes a deploy.  In a registry whose upload root is
    there and which has nothing at or below the workload directory, a
    successful deploy followed by the clean-up of its identity, with a
    runtime that runs to an exit status, answers 200 and leaves the file
    system exactly as it was before the deploy. *)
Theorem cleanup_undoes_deploy files yaml_file w resp w' :
  md_get files (lit "docker-compose") = Some yaml_file ->
  deploy_webtop files w = (Ok (resp, 200), w') ->
  (forall loc, loc `prefix_of` resolve UPLOAD_DIR -> loc <> [] ->
               fs w !! loc = Some DirObj) ->
  (forall loc,
      resolve (webtop_dir_of (deploy_id yaml_file)) `prefix_of` loc ->
      fs w !! loc = None) ->
  (forall w1 argv cwd, exists result, run_outcome w1 argv cwd = Ok result) ->
  exists w'',
    cleanup_webtop (deploy_id yaml_file) w'
    = (Ok (cleaned_up (deploy_id yaml_file)
             (webtop_dir_of (deploy_id yaml_file))), w'')
    /\ fs w'' = fs w.
Proof.
  intros Hget H Hroot Hnew Hrun.
  pose proof (lookup_deploy_dir _ _ _ _ _ Hget H) as Hdir.
  destruct (deploy_webtop_fs _ _ _ _ _ Hget H)
    as (w1 & mode & Hmk & Hfs & _ & _).
  pose proof (resolve_deploy_dir yaml_file) as Hres.
  set (dir := resolve (webtop_dir_of (deploy_id yaml_file))) in *.
  assert (filter (fun kv : list str * obj => ~ (dir `prefix_of` kv.1)) (fs w')
          = fs w) as Hback.
  { apply map_eq. intros loc.
    destruct (decide (dir `prefix_of` loc)) as [Hin|Hout].
    { rewrite removed_inside; [|done]. symmetry. by apply Hnew. }
    rewrite removed_outside; [|done].
    assert (forall name, loc <> dir ++ [name]) as Hne.
    { intros name ->. apply Hout. by apply prefix_app_r. }
    rewrite Hfs; [|intros name _; apply Hne].
    rewrite lookup_insert_ne; [|apply not_eq_sym, Hne].
    destruct (decide (loc = [])) as [->|Hnil].
    { apply (makedirs_frame _ _ _ Hmk). by left. }
    destruct (decide (loc `prefix_of` dir)) as [Hpre|Hnpre].
    - rewrite Hres in Hpre. apply prefix_snoc_cases in Hpre as [Hpre | ->].
      + rewrite (Hroot loc Hpre Hnil).
        apply makedirs_Ok in Hmk as (_ & Hkeep & _). by apply Hkeep, Hroot.
      + destruct Hout. by rewrite Hres.
    - apply (makedirs_frame _ _ _ Hmk). by right. }
  rewrite cleanup_webtop_eval. cbv zeta. rewrite Hdir. fold dir.
  destruct (List.filter is_yaml _) as [|first rest].
  - eexists. split; [reflexivity|]. exact Hback.
  - destruct (Hrun w' (compose_down
                         (path_join (webtop_dir_of (deploy_id yaml_file)) first))
                (Some (webtop_dir_of (deploy_id yaml_file)))) as [result ->].
    eexists. split; [reflexivity|]. exact Hback.
Qed.

(** ** [list_webtops], further *)

Lemma replace_from_skip old new k s :
  replace_from old new k s = replace_from old new O (drop k s).
Proof.
  revert k. induction s as [|c s IH]; intros [|k]; try reflexivity.
  cbn [replace_from skipn]. apply IH.
Qed.

(** An occurrence at the start is replaced, and the rest is read on. *)
Lemma replace_from_head old new s :
  old <> [] ->
  replace_from old new O (old ++ s) = new ++ replace_from old new O s.
Proof.
  destruct old as [|a old]; [done|]. intros _. cbn [app replace_from].
  pose proof (startswith_app (a :: old) s) as Hs. cbn [app] in Hs.
  rewrite Hs, replace_from_skip.
  cbn [length Nat.pred]. by rewrite drop_app_length.
Qed.

Lemma replace_del_length old n s :
  (length s <= n)%nat ->
  (length (replace_from old [] O s) <= length s)%nat.
Proof.
  revert s. induction n as [|n IH]; intros [|c s] Hn; simpl in Hn;
    try done; try lia.
  cbn [replace_from]. destruct (startswith (c :: s) old).
  - rewrite ?app_nil_l, replace_from_skip.
    etransitivity; [apply IH; rewrite length_drop; lia|].
    rewrite length_drop. simpl. lia.
  - simpl. specialize (IH s). lia.
Qed.

(** Deleting the occurrences of [old] shortens a text that has one. *)
Lemma replace_del_occurs old s :
  old <> [] -> occurs old s ->
  (length (replace_from old [] O s) < length s)%nat.
Proof.
  intros Hne (pre & post & ->). induction pre as [|c pre IH].
  - cbn [app]. rewrite replace_from_head; [|done]. rewrite ?app_nil_l.
    pose proof (replace_del_length old (length post) post (le_n _)).
    rewrite length_app. destruct old; [done|]. simpl. lia.
  - cbn [app replace_from].
    destruct (startswith (c :: pre ++ old ++ post) old).
    + rewrite ?app_nil_l, replace_from_skip.
      pose proof (replace_del_length old _
                    (drop (Nat.pred (length old)) (pre ++ old ++ post))
                    (le_n _)) as Hl.
      rewrite length_drop in Hl. simpl. lia.
    + simpl. lia.
Qed.

(** It leaves a text without an occurrence as it is. *)
Lemma replace_del_id old s : ~ occurs old s -> replace_from old [] O s = s.
Proof.
  induction s as [|c s IH]; intros Hno; [done|]. cbn [replace_from].
  destruct (startswith (c :: s) old) eqn:E.
  - exfalso. apply Hno. apply startswith_true in E as [rest ->].
    by exists [], rest.
  - f_equal. apply IH. intros (pre & post & ->). apply Hno.
    by exists (c :: pre), post.
Qed.

Lemma webtop_entry_id dir_name is_running :
  jget "webtop_id" (webtop_entry dir_name is_running)
  = Some (JStr (replace dir_name (lit "webtop_") [])).
Proof. reflexivity. Qed.

Lemma webtop_entry_directory dir_name is_running :
  jget "directory" (webtop_entry dir_name is_running)
  = Some (JStr (path_join UPLOAD_DIR dir_name)).
Proof. reflexivity. Qed.

(** X11. The identity [list_webtops] reports for the directory
    [webtop_<id>] is [id] with every occurrence of [webtop_] deleted: it
    is [id] exactly when [webtop_] does not occur in [id].  The container
    name and the runtime query of the entry are formed from the reported
    identity. *)
Theorem listed_identity_round_trip webtop_id is_running :
  jget "webtop_id" (webtop_entry (lit "webtop_" ++ webtop_id) is_running)
  = Some (JStr (replace webtop_id (lit "webtop_") []))
  /\ (jget "webtop_id" (webtop_entry (lit "webtop_" ++ webtop_id) is_running)
      = Some (JStr webtop_id)
      <-> ~ occurs (lit "webtop_") webtop_id).
Proof.
  rewrite webtop_entry_id. unfold replace.
  rewrite replace_from_head; [|done]. rewrite app_nil_l. split; [done|]. split.
  - intros [= Heq] Hocc.
    apply (replace_del_occurs (lit "webtop_")) in Hocc; [|done].
    rewrite Heq in Hocc. lia.
  - intros Hno. by rewrite replace_del_id.
Qed.

Lemma In_zip_with_entry (names : list str) (flags : list bool) name :
  length flags = length names ->
  In name names ->
  exists flag, In (webtop_entry name flag) (zip_with webtop_entry names flags).
Proof.
  revert flags. induction names as [|n names IH]; intros [|f flags] Hlen Hin;
    try done.
  destruct Hin as [-> | Hin].
  - exists f. by left.
  - destruct (IH flags) as [flag Hflag]; [by injection Hlen | done |].
    exists flag. by right.
Qed.

(** X12. Listing what was deployed.  After a successful deploy, with a
    runtime that answers the queries, [list_webtops] answers 200 and its
    list has an entry for the workload: its [directory] is the workload
    directory of the deploy response. *)
Theorem list_after_deploy files yaml_file w resp w' :
  md_get files (lit "docker-compose") = Some yaml_file ->
  deploy_webtop files w = (Ok (resp, 200), w') ->
  (forall w1 argv, exists result, run_outcome w1 argv None = Ok result) ->
  jget "webtop_dir" resp = Some (JStr (webtop_dir_of (deploy_id yaml_file)))
  /\ exists webtops w'' entry,
       list_webtops w' = (Ok (listing webtops), w'')
       /\ In entry webtops
       /\ jget "directory" entry
          = Some (JStr (webtop_dir_of (deploy_id yaml_file)))
       /\ jget "webtop_id" entry
          = Some (JStr (replace (deploy_id yaml_file) (lit "webtop_") [])).
Proof.
  intros Hget H Hrun. split.
  { pose proof H as H0.
    apply deploy_webtop_script in H0 as (yf & pid & data & Hyf & -> & _).
    rewrite Hget in Hyf. by injection Hyf as <-. }
  destruct (deploy_webtop_entries _ _ _ _ _ Hget H) as (Hd & Hroot & _).
  rewrite resolve_deploy_dir in Hd.
  rewrite list_webtops_eval, lookup_path_resolved, Hroot; [|done].
  destruct (list_loop_total (entries (fs w') (resolve UPLOAD_DIR)) [] w' Hrun)
    as (flags & w'' & -> & Hlen & _).
  destruct (In_zip_with_entry _ flags (lit "webtop_" ++ deploy_id yaml_file) Hlen)
    as [flag Hflag].
  { apply filter_In. split; [|apply startswith_app].
    apply entries_spec. by rewrite Hd. }
  eexists _, w'', _. split; [reflexivity|]. split; [exact Hflag|].
  split; [reflexivity|].
  rewrite webtop_entry_id. unfold replace.
  rewrite replace_from_head; [|done]. by rewrite app_nil_l.
Qed.

(** ** [check_webtop_status] *)

Lemma check_webtop_status_eval webtop_id w :
  check_webtop_status webtop_id w =
  let w1 := log w (EvRun (docker_ps webtop_id) None) in
  match run_outcome w (docker_ps webtop_id) None with
  | Raise e => (Ok (internal_error webtop_id e), w1)
  | Ok result =>
      let container_name := strip_by is_space (stdout result) in
      if nonempty container_name then
        let w2 := log w1 (EvRun (docker_inspect_status container_name) None) in
        match run_outcome w1 (docker_inspect_status container_name) None with
        | Raise e => (Ok (internal_error webtop_id e), w2)
        | Ok inspect_result =>
            let w3 := log w2 (EvRun (docker_port container_name) None) in
            match run_outcome w2 (docker_port container_name) None with
            | Raise e => (Ok (internal_error webtop_id e), w3)
            | Ok port_result =>
                (Ok (running webtop_id container_name
                       (strip_by is_space (stdout inspect_result))
                       (strip_by is_space (stdout port_result))), w3)
            end
        end
      else (Ok (not_running webtop_id), w1)
  end.
Proof.
  unfold check_webtop_status, try_except, bind, subprocess_run, ret. cbv zeta.
  destruct (run_outcome w (docker_ps webtop_id) None) as [result|e];
    [|reflexivity].
  destruct (nonempty (strip_by is_space (stdout result))); [|reflexivity].
  destruct (run_outcome _ (docker_inspect_status _) None) as [inspect_result|e];
    [|reflexivity].
  by destruct (run_outcome _ (docker_port _) None) as [port_result|e].
Qed.

(** X13. [check_webtop_status] asks the runtime for the containers whose
    name matches [webtop-ubuntu-xfce-<id>] and goes by what the query
    prints, not by its exit status: when the output is blank the answer
    is [not_running] with status 200 and nothing else is run; otherwise
    the whole output, stripped, is taken as the container name, passed to
    the state query and then to the port query, and the answer is
    [running] with status 200 when both complete.  The status is 500 only
    when a query cannot be started.  The view never raises and never
    changes the file system. *)
Theorem check_webtop_status_spec webtop_id w :
  let w1 := log w (EvRun (docker_ps webtop_id) None) in
  (exists body code w',
      check_webtop_status webtop_id w = (Ok (body, code), w')
      /\ (code = 200 \/ code = 500)
      /\ fs w' = fs w)
  /\ (forall result,
         run_outcome w (docker_ps webtop_id) None = Ok result ->
         Forall (fun c => is_space c = true) (stdout result) ->
         check_webtop_status webtop_id w = (Ok (not_running webtop_id), w1))
  /\ (forall result c,
         run_outcome w (docker_ps webtop_id) None = Ok result ->
         In c (stdout result) -> is_space c = false ->
         let name := strip_by is_space (stdout result) in
         let w2 := log w1 (EvRun (docker_inspect_status name) None) in
         let w3 := log w2 (EvRun (docker_port name) None) in
         name <> []
         /\ forall state ports,
              run_outcome w1 (docker_inspect_status name) None = Ok state ->
              run_outcome w2 (docker_port name) None = Ok ports ->
              check_webtop_status webtop_id w
              = (Ok (running webtop_id name
                       (strip_by is_space (stdout state))
                       (strip_by is_space (stdout ports))), w3))
  /\ (forall body w',
         check_webtop_status webtop_id w = (Ok (body, 500), w') ->
         exists w0 argv e,
           run_outcome w0 argv None = Raise e
           /\ body = (internal_error webtop_id e).1).
Proof.
  cbv zeta. rewrite check_webtop_status_eval. cbv zeta.
  split; [|split; [|split]].
  - destruct (run_outcome w (docker_ps webtop_id) None) as [result|e].
    2:{ eexists _, 500, _. split; [reflexivity|]. split; [by right | done]. }
    destruct (nonempty (strip_by is_space (stdout result))).
    2:{ eexists _, 200, _. split; [reflexivity|]. split; [by left | done]. }
    destruct (run_outcome _ (docker_inspect_status _) None) as [state|e].
    2:{ eexists _, 500, _. split; [reflexivity|]. split; [by right | done]. }
    destruct (run_outcome _ (docker_port _) None) as [ports|e].
    + eexists _, 200, _. split; [reflexivity|]. split; [by left | done].
    + eexists _, 500, _. split; [reflexivity|]. split; [by right | done].
  - intros result -> Hblank.
    assert (strip_by is_space (stdout result) = []) as ->; [|done].
    unfold strip_by.
    assert (forall s, Forall (fun c => is_space c = true) s ->
                      lstrip_by is_space s = []) as Hl.
    { induction 1 as [|c s Hc _ IH]; [done|]. simpl. by rewrite Hc. }
    by rewrite (Hl _ Hblank).
  - intros result c -> Hin Hc.
    assert (strip_by is_space (stdout result) <> []) as Hne.
    { unfold strip_by. intros Hnil.
      apply (f_equal (@rev Z)) in Hnil. rewrite rev_involutive in Hnil.
      simpl in Hnil.
      assert (forall s, lstrip_by is_space s = [] ->
                        Forall (fun c => is_space c = true) s) as Hl.
      { induction s as [|a s IH]; [constructor|]. simpl.
        destruct (is_space a) eqn:Ea; [|done]. intros Hs.
        constructor; [done | by apply IH]. }
      apply Hl in Hnil. apply Forall_rev_str in Hnil.
      rewrite rev_involutive in Hnil.
      rewrite <- (take_while_lstrip is_space (stdout result)) in Hin.
      apply in_app_or in Hin as [Hin | Hin].
      - apply (proj1 (List.Forall_forall _ _)
                 (take_while_Forall is_space (stdout result))) in Hin.
        congruence.
      - apply (proj1 (List.Forall_forall _ _) Hnil) in Hin. congruence. }
    split; [done|]. intros state ports -> ->.
    apply nonempty_true in Hne. by rewrite Hne.
  - intros body w'.
    destruct (run_outcome w (docker_ps webtop_id) None) as [result|e] eqn:E1.
    2:{ intros [= <- _]. by exists w, (docker_ps webtop_id), e. }
    destruct (nonempty (strip_by is_space (stdout result))); [|discriminate].
    destruct (run_outcome _ (docker_inspect_status _) None) as [state|e] eqn:E2.
    2:{ intros [= <- _]. by eexists _, _, e. }
    destruct (run_outcome _ (docker_port _) None) as [ports|e] eqn:E3;
      [discriminate|].
    intros [= <- _]. by eexists _, _, e.
Qed.

(** ** The helpers of the run file *)

Lemma from_cwd_run_file cwd :
  exists a,
    from_cwd cwd RUN_FILE = a ++ RUN_FILE
    /\ resolve (a ++ RUN_FILE) = resolve cwd ++ [RUN_FILE].
Proof.
  unfold from_cwd, path_join.
  change (startswith RUN_FILE (lit "/")) with false. cbv iota.
  assert (Forall (fun c => c <> 47) RUN_FILE) as Hsep by (by repeat constructor).
  destruct (nonempty cwd) eqn:Hn.
  - destruct (endswith cwd (lit "/")) eqn:He; cbn [negb orb].
    + exists cwd. split; [done|].
      unfold endswith in He. apply startswith_true in He as [rest Hr].
      apply (f_equal (@rev Z)) in Hr. rewrite rev_involutive in Hr.
      rewrite rev_app_distr in Hr. change (rev (rev (lit "/"))) with (lit "/") in Hr.
      rewrite Hr, <- app_assoc, resolve_trailing_slash.
      by apply resolve_app_component.
    + exists (cwd ++ lit "/"). rewrite <- app_assoc. split; [done|].
      by apply resolve_app_component.
  - destruct cwd; [|done]. exists []. by split.
Qed.

Lemma resolve_run_file cwd :
  resolve (from_cwd cwd RUN_FILE) = resolve cwd ++ [RUN_FILE].
Proof. destruct (from_cwd_run_file cwd) as (a & -> & Hr). exact Hr. Qed.

Lemma run_file_not_dir_path cwd :
  endswith (from_cwd cwd RUN_FILE) (lit "/") = false.
Proof.
  destruct (from_cwd_run_file cwd) as (a & -> & _).
  apply endswith_slash_false; [done | by repeat constructor].
Qed.

Lemma lookup_run_file m cwd :
  lookup_path m (from_cwd cwd RUN_FILE) = m !! (resolve cwd ++ [RUN_FILE]).
Proof.
  rewrite lookup_path_resolved; rewrite resolve_run_file; [done|].
  apply not_eq_sym, app_cons_not_nil.
Qed.

Lemma parent_of_run_file m cwd :
  lookup_path m cwd = Some DirObj ->
  parent_is_dir m (resolve cwd ++ [RUN_FILE]) = true.
Proof.
  unfold parent_is_dir, lookup_path. rewrite removelast_last.
  destruct (resolve cwd) as [|c l]; [done|]. by intros ->.
Qed.

(** A sequence of writes with a chunk that cannot be encoded makes up a
    text that cannot be encoded. *)
Lemma encode_writes_error chunks data e :
  encode_writes chunks = (data, Some e) -> utf8_encode (concat chunks) = None.
Proof.
  revert data e; induction chunks as [|c chunks IH]; intros data e; simpl;
    [discriminate|].
  unfold utf8_encode in *. rewrite utf8_encode_vals_app.
  destruct (utf8_encode_vals c) as [bc|]; simpl; [|done].
  destruct (encode_writes chunks) as [bs [e'|]]; [|discriminate].
  intros _. specialize (IH bs e' eq_refl).
  by destruct (utf8_encode_vals (concat chunks)).
Qed.

(** What [create_run_sh_file] does in a working directory that is
    there. *)
Lemma create_run_sh_file_eval cwd yaml_filename w :
  lookup_path (fs w) cwd = Some DirObj ->
  exists code w',
    create_run_sh_file cwd yaml_filename w = (Ok code, w')
    /\ (forall loc, loc <> resolve cwd ++ [RUN_FILE] ->
                    fs w' !! loc = fs w !! loc)
    /\ ((code = 1
         /\ (fs w !! (resolve cwd ++ [RUN_FILE]) = Some DirObj
             \/ utf8_encode (concat (run_file_writes yaml_filename)) = None))
        \/ (code = 0
            /\ fs w !! (resolve cwd ++ [RUN_FILE]) <> Some DirObj
            /\ exists data,
                 utf8_encode (concat (run_file_writes yaml_filename)) = Some data
                 /\ fs w'
                    = <[resolve cwd ++ [RUN_FILE] := FileObj data 493]> (fs w))).
Proof.
  intros Hcwd. unfold create_run_sh_file, try_except, write_text.
  pose proof (resolve_run_file cwd) as Hres.
  pose proof (run_file_not_dir_path cwd) as Hend.
  pose proof (fun m => lookup_run_file m cwd) as Hlook.
  pose proof (parent_of_run_file (fs w) cwd Hcwd) as Hpar.
  set (p := from_cwd cwd RUN_FILE) in *.
  set (loc := resolve cwd ++ [RUN_FILE]) in *.
  assert (forall data,
             (fs w !! loc = Some DirObj /\ write_file p data w
                                           = (Raise (Exception "IsADirectoryError" p), w))
             \/ (fs w !! loc <> Some DirObj
                 /\ exists mode,
                      write_file p data w
                      = (Ok tt,
                         log (set_fs w (<[loc := FileObj data mode]> (fs w)))
                             (EvWrite p)))) as Hwrite.
  { intros data. unfold write_file. rewrite Hend, Hlook, Hres. cbn [orb].
    destruct (fs w !! loc) as [[d mode|]|] eqn:E; cbn [is_dir].
    - right. split; [done|]. by exists mode.
    - left. by split.
    - right. split; [done|]. rewrite Hpar. by exists default_mode. }
  destruct (encode_writes (run_file_writes yaml_filename))
    as [data [e|]] eqn:Eenc; unfold bind, raise, ret.
  - apply encode_writes_error in Eenc.
    destruct (Hwrite data) as [[Hd Hw] | (Hd & mode & Hw)]; rewrite Hw.
    + exists 1, w. split; [done|]. split; [done|]. left. split; [done | by right].
    + eexists 1, _. split; [reflexivity|].
      split; [intros l Hl; by apply lookup_insert_ne|].
      left. split; [done | by right].
  - apply encode_writes_text in Eenc.
    destruct (Hwrite data) as [[Hd Hw] | (Hd & mode & Hw)]; rewrite Hw.
    + exists 1, w. split; [done|]. split; [done|]. left. split; [done | by left].
    + unfold chmod. rewrite Hlook. cbn [fs log set_fs].
      rewrite lookup_insert_eq, Hres. cbn [fs log set_fs].
      rewrite insert_insert_eq.
      eexists 0, _. split; [reflexivity|].
      split; [intros l Hl; by apply lookup_insert_ne|].
      right. split; [done|]. split; [done|]. by exists data.
Qed.

(** X14. [create_run_sh_file], in a working directory that is there,
    returns 0 or 1 and never raises.  It returns 0 exactly when [run.sh]
    is not a directory and the file name can be encoded; the file then
    holds the UTF-8 encoding of the three lines, the last being
    [docker compose -f <name>.yml up], with mode 755.  Nothing but the
    location of [run.sh] changes, whatever the result. *)
Theorem create_run_sh_file_spec cwd yaml_filename w :
  lookup_path (fs w) cwd = Some DirObj ->
  exists code w',
    create_run_sh_file cwd yaml_filename w = (Ok code, w')
    /\ (code = 0 \/ code = 1)
    /\ (code = 0 <->
        fs w !! (resolve cwd ++ [RUN_FILE]) <> Some DirObj
        /\ is_Some (utf8_encode (concat (run_file_writes yaml_filename))))
    /\ (code = 0 ->
        exists data,
          utf8_encode
            (lit "#!/bin/sh" ++ nl
             ++ lit "# Script utilis" ++ [233] ++ lit " pour ex" ++ [233]
             ++ lit "cuter l'image " ++ yaml_filename
             ++ lit " dans le conteneur " ++ yaml_filename ++ nl
             ++ lit "docker compose -f " ++ yaml_filename ++ lit ".yml up" ++ nl)
          = Some data
          /\ fs w' !! (resolve cwd ++ [RUN_FILE]) = Some (FileObj data 493))
    /\ (forall loc, loc <> resolve cwd ++ [RUN_FILE] ->
                    fs w' !! loc = fs w !! loc).
Proof.
  intros Hcwd.
  destruct (create_run_sh_file_eval cwd yaml_filename w Hcwd)
    as (code & w' & Hrun & Hframe & Hcases).
  exists code, w'. split; [done|].
  assert (concat (run_file_writes yaml_filename)
          = lit "#!/bin/sh" ++ nl
            ++ lit "# Script utilis" ++ [233] ++ lit " pour ex" ++ [233]
            ++ lit "cuter l'image " ++ yaml_filename
            ++ lit " dans le conteneur " ++ yaml_filename ++ nl
            ++ lit "docker compose -f " ++ yaml_filename ++ lit ".yml up" ++ nl)
    as Htext.
  { unfold run_file_writes. cbn [concat]. rewrite app_nil_r.
    by rewrite <- !app_assoc. }
  rewrite <- Htext.
  destruct Hcases as [(-> & Hwhy) | (-> & Hd & data & Henc & Hfs)].
  - split; [by right|]. split; [|split; [done | done]].
    split; [done|]. intros [Hd [x Hx]].
    destruct Hwhy as [Hwhy | Hwhy]; congruence.
  - split; [by left|]. split; [|split; [|done]].
    + split; [|done]. intros _. split; [done | by exists data].
    + intros _. exists data. split; [done|]. rewrite Hfs. apply lookup_insert_eq.
Qed.

Lemma delete_run_sh_file_eval cwd w :
  delete_run_sh_file cwd w =
  match fs w !! (resolve cwd ++ [RUN_FILE]) with
  | Some (FileObj _ _) =>
      (Ok 0, set_fs w (delete (resolve cwd ++ [RUN_FILE]) (fs w)))
  | Some DirObj => (Ok 2, w)
  | None => (Ok 1, w)
  end.
Proof.
  unfold delete_run_sh_file, try_except, bind, remove.
  rewrite lookup_run_file, run_file_not_dir_path, resolve_run_file.
  by destruct (fs w !! _) as [[data mode|]|].
Qed.

(** X15. [delete_run_sh_file] returns 0, 1 or 2 and never raises: 0 when
    [run.sh] was a regular file, which is then gone while everything else
    is as before; 1 when there was no [run.sh]; 2 when [run.sh] is a
    directory.  In the last two cases nothing has changed. *)
Theorem delete_run_sh_file_spec cwd w :
  exists code w',
    delete_run_sh_file cwd w = (Ok code, w')
    /\ trace w' = trace w
    /\ (code = 0 <-> is_file (fs w !! (resolve cwd ++ [RUN_FILE])) = true)
    /\ (code = 1 <-> fs w !! (resolve cwd ++ [RUN_FILE]) = None)
    /\ (code = 2 <-> fs w !! (resolve cwd ++ [RUN_FILE]) = Some DirObj)
    /\ (code = 0 -> fs w' = delete (resolve cwd ++ [RUN_FILE]) (fs w))
    /\ (code <> 0 -> w' = w).
Proof.
  rewrite delete_run_sh_file_eval.
  destruct (fs w !! (resolve cwd ++ [RUN_FILE])) as [[data mode|]|].
  - eexists 0, _. split; [reflexivity|]. by repeat split.
  - exists 2, w. split; [reflexivity|]. by repeat split.
  - exists 1, w. split; [reflexivity|]. by repeat split.
Qed.

(** X16. Deleting undoes creating.  Where there was no [run.sh] and
    [create_run_sh_file] returned 0, [delete_run_sh_file] returns 0 and
    the file system is as it was before the file was created; a second
    [delete_run_sh_file] returns 1. *)
Theorem delete_undoes_create cwd yaml_filename w w1 :
  lookup_path (fs w) cwd = Some DirObj ->
  fs w !! (resolve cwd ++ [RUN_FILE]) = None ->
  create_run_sh_file cwd yaml_filename w = (Ok 0, w1) ->
  exists w2,
    delete_run_sh_file cwd w1 = (Ok 0, w2)
    /\ fs w2 = fs w
    /\ delete_run_sh_file cwd w2 = (Ok 1, w2).
Proof.
  intros Hcwd Hnone Hcreate.
  destruct (create_run_sh_file_eval cwd yaml_filename w Hcwd)
    as (code & w' & Hrun & _ & Hcases).
  rewrite Hcreate in Hrun. injection Hrun as <- <-.
  destruct Hcases as [([=] & _) | (_ & _ & data & _ & Hfs)].
  rewrite delete_run_sh_file_eval, Hfs, lookup_insert_eq.
  eexists. split; [reflexivity|]. cbn [fs set_fs].
  rewrite delete_insert_id; [|done]. split; [done|].
  rewrite delete_run_sh_file_eval. cbn [fs set_fs]. by rewrite Hnone.
Qed.

(** X17. [run_run_sh_file] runs [./run.sh] once and counts every sign of
    trouble: it returns 0 exactly when the script ran to exit status 0
    and wrote nothing to its standard error, and 1 when the script ran to
    another exit status or wrote to its standard error.  A script that
    cannot be started is not covered by the [except] clause: the
    exception leaves the function.  The file system is not touched. *)
Theorem run_run_sh_file_spec w :
  exists r,
    run_run_sh_file w = (r, log w (EvRun [lit "./run.sh"] None))
    /\ (r = Ok 0 <->
        exists result,
          run_outcome w [lit "./run.sh"] None = Ok result
          /\ returncode result = 0 /\ stderr result = [])
    /\ (r = Ok 1 <->
        exists result,
          run_outcome w [lit "./run.sh"] None = Ok result
          /\ (returncode result <> 0 \/ stderr result <> []))
    /\ (forall e, r = Raise e <-> run_outcome w [lit "./run.sh"] None = Raise e)
    /\ (r = Ok 0 \/ r = Ok 1 \/ exists e, r = Raise e).
Proof.
  unfold run_run_sh_file, bind, subprocess_run.
  destruct (run_outcome w [lit "./run.sh"] None) as [result|e].
  2:{ exists (Raise e). split; [done|]. split; [|split; [|split]].
      - split; [done | by intros (result & [=] & _)].
      - split; [done | by intros (result & [=] & _)].
      - intros e'. split; congruence.
      - right. right. by exists e. }
  destruct (Z.eqb_spec (returncode result) 0) as [Hz|Hz].
  - destruct (stderr result) as [|c s] eqn:Es; cbn [nonempty].
    + exists (Ok 0). split; [done|]. split; [|split; [|split]].
      * split; [|done]. intros _. by exists result.
      * split; [done|]. intros (r' & [= <-] & [Hr | Hr]); congruence.
      * intros e'. split; discriminate.
      * by left.
    + exists (Ok 1). split; [done|]. split; [|split; [|split]].
      * split; [done|]. intros (r' & [= <-] & _ & Hr). congruence.
      * split; [|done]. intros _. exists result. split; [done|]. right.
        by rewrite Es.
      * intros e'. split; discriminate.
      * right. by left.
  - exists (Ok 1). split; [done|]. split; [|split; [|split]].
    + split; [done|]. intros (r' & [= <-] & Hr & _). congruence.
    + split; [|done]. intros _. exists result. split; [done | by left].
    + intros e'. split; discriminate.
    + right. by left.
Qed.

(** ** The port, any number *)

Lemma ascii_digit c :
  48 <= c <= 57 -> is_digit c = true /\ digit_value c = c - 48.
Proof.
  intros Hc. unfold is_digit, digit_value, classify, ascii_class, in_range.
  rewrite (proj2 (Z.ltb_lt c 128)) by lia.
  rewrite (proj2 (Z.leb_gt c 13)) by lia.
  rewrite (proj2 (Z.leb_gt c 31)) by lia.
  rewrite (proj2 (Z.eqb_neq c 32)) by lia.
  rewrite (proj2 (Z.leb_le 48 c)) by lia.
  rewrite (proj2 (Z.leb_le c 57)) by lia.
  rewrite !andb_false_r. by cbn [andb orb].
Qed.

Lemma uint_digits_ascii d : Forall (fun c => 48 <= c <= 57) (uint_digits d).
Proof.
  induction d; cbn [uint_digits]; constructor; first [assumption | lia].
Qed.

(** The digits of [str(n)] denote [n]. *)
Lemma int_of_uint_digits d acc :
  fold_left (fun a c => 10 * a + digit_value c) (uint_digits d) (Z.of_nat acc)
  = Z.of_nat (Nat.of_uint_acc d acc).
Proof.
  revert acc. induction d as [|d IH|d IH|d IH|d IH|d IH|d IH|d IH|d IH|d IH|d IH];
    intros acc; cbn [uint_digits fold_left Nat.of_uint_acc]; [done|..];
    rewrite <- IH; f_equal;
    match goal with
    | |- context [digit_value ?c] =>
        rewrite (proj2 (ascii_digit c ltac:(lia)))
    end;
    rewrite Nat.tail_mul_spec; lia.
Qed.

Lemma decimal_value_str_of_nat n : decimal_value (str_of_nat n) = Z.of_nat n.
Proof.
  unfold decimal_value, str_of_nat.
  etransitivity; [exact (int_of_uint_digits (Nat.to_uint n) O)|].
  fold (Nat.of_uint (Nat.to_uint n)). by rewrite DecimalNat.Unsigned.of_to.
Qed.

Lemma str_of_nat_nonempty n : str_of_nat n <> [].
Proof.
  unfold str_of_nat. intros H.
  pose proof (DecimalNat.Unsigned.of_to n) as Hn.
  destruct (Nat.to_uint n) eqn:E; try discriminate.
  cbn in Hn. subst n. discriminate.
Qed.

Lemma str_of_nat_digits n :
  Forall (fun c => is_digit c = true) (str_of_nat n).
Proof.
  eapply Forall_impl; [apply uint_digits_ascii|].
  intros c Hc. by apply ascii_digit.
Qed.

(** X18. The port is read without a range check.  For a manifest whose
    text has no dash before a line item [- <n>:3000], with any white
    space after the dash, [extract_port_from_yaml] returns [n] for every
    natural number [n] whose decimal numeral has no more than the 4300
    digits that [int] converts, also beyond 65535; for a longer numeral
    it returns [None]. *)
Theorem extract_port_any_number yaml_file pre ws n post :
  utf8_decode (stream yaml_file)
  = Some (pre ++ lit "-" ++ ws ++ str_of_nat n ++ lit ":3000" ++ post) ->
  Forall (fun c => c <> 45) pre ->
  Forall (fun c => is_space c = true) ws ->
  (extract_port_from_yaml yaml_file).1
  = if (length (str_of_nat n) <=? int_max_str_digits)%nat
    then Some (Z.of_nat n) else None.
Proof.
  intros Hdec Hpre Hws.
  set (content := pre ++ lit "-" ++ ws ++ str_of_nat n ++ lit ":3000" ++ post)
    in *.
  assert (first_field has_port_mapping content (str_of_nat n)) as Hfirst.
  { exists pre. split.
    - exists ws, post. split; [done|]. split; [done|].
      split; [apply str_of_nat_nonempty | apply str_of_nat_digits].
    - intros pre' x' (ws' & post' & Heq & _).
      destruct (decide (length pre <= length pre')%nat) as [Hle|Hgt]; [done|].
      exfalso.
      assert (content !! length pre' = Some 45) as H1.
      { rewrite Heq.
        exact (list_lookup_middle pre' (ws' ++ x' ++ lit ":3000" ++ post') 45
                 _ eq_refl). }
      unfold content in H1. rewrite lookup_app_l in H1 by lia.
      apply (proj1 (Forall_lookup _ _) Hpre) in H1. done. }
  rewrite (extract_port_first_mapping _ _ _ Hdec Hfirst). unfold int_of_str.
  by rewrite decimal_value_str_of_nat.
Qed.

(** ** What goes into the run script *)

(** X19. The run script of a successful deploy is its fixed text with
    four kinds of insertions, none of which carries a character the shell
    reads as more than a name: the identity, word characters only; the
    workload directory, the upload root followed by [/webtop_] and the
    identity; the manifest name and the names of the build files, not
    empty and made of letters, digits, [_], [.] and [-] only. *)
Theorem run_script_insertions_are_plain files yaml_file w resp w' :
  md_get files (lit "docker-compose") = Some yaml_file ->
  deploy_webtop files w = (Ok (resp, 200), w') ->
  script_of w' (deploy_id yaml_file)
  = Some (run_sh_text (deploy_id yaml_file)
            (UPLOAD_DIR ++ lit "/webtop_" ++ deploy_id yaml_file)
            (deploy_yaml_name yaml_file) (build_names files))
  /\ deploy_id yaml_file <> []
  /\ Forall (fun c => is_word c = true) (deploy_id yaml_file)
  /\ Forall (fun name =>
               name <> [] /\ Forall (fun c => safe_char c = true) name)
            (deploy_yaml_name yaml_file :: build_names files).
Proof.
  intros Hget H. split.
  { pose proof H as H0.
    apply deploy_webtop_script in H0 as (yf & pid & data & Hyf & _ & _ & _ & Hs).
    rewrite Hget in Hyf. injection Hyf as <-. exact Hs. }
  destruct (deploy_id_word yaml_file) as [Hne Hword].
  split; [done|]. split; [done|].
  destruct (deploy_webtop_fs _ _ _ _ _ Hget H) as (_ & _ & _ & _ & _ & Hsaved).
  unfold saved_names in Hsaved.
  apply Forall_cons in Hsaved as [[Hy _] Hrest].
  apply Forall_app in Hrest as [Hb _].
  constructor; [split; [done | apply secure_filename_safe]|].
  pose proof (group_names_safe (lit "dockerfile-") (lit "Dockerfile.") files
                (sorted (md_keys files)) O) as Hsafe.
  fold (build_names files) in Hsafe.
  clear -Hb Hsafe. induction Hb as [|name names [Hn _] _ IH]; [constructor|].
  apply Forall_cons in Hsafe as [Hs Hsafe]. constructor; [by split | by apply IH].
Qed.

(** ** The files of a deploy *)

Lemma mode_of_put data mode : mode_of (Some (FileObj data mode)) = mode.
Proof. reflexivity. Qed.

(** A successful write into a directory, as a change of the file
    system. *)
Lemma write_file_put dir name data w w1 :
  plain_dir dir ->
  name = lit "run.sh" \/ (exists x, name = secure_filename x) ->
  write_file (path_join dir name) data w = (Ok tt, w1) ->
  fs w1 = put (resolve dir) (fs w) (name, data).
Proof.
  intros Hdir Hname H. unfold put. cbn [fst snd].
  pose proof H as H0.
  apply write_file_inv in H0 as [(e & [=] & _) | (_ & Hend & _)].
  assert (name <> []) as Hnn.
  { intros ->. rewrite path_join_empty in Hend; [|done].
    by rewrite endswith_app in Hend. }
  pose proof (resolve_join_name dir name Hdir Hname Hnn) as Hres.
  unfold write_file in H. rewrite Hend in H. cbn [orb] in H.
  rewrite lookup_path_resolved in H.
  2:{ rewrite Hres. apply not_eq_sym, app_cons_not_nil. }
  rewrite Hres in H.
  destruct (fs w !! (resolve dir ++ [name])) as [[d mode|]|];
    cbn [is_dir] in H; [|discriminate|].
  - by injection H as <-.
  - destruct (parent_is_dir _ _); [|discriminate]. by injection H as <-.
Qed.

Lemma save_group_put prefix fallback files dir keys saved count w names w' :
  plain_dir dir ->
  save_group prefix fallback files dir keys saved count w = (Ok names, w') ->
  fs w' = fold_left (put (resolve dir))
            (group_saves prefix fallback files keys count) (fs w).
Proof.
  intros Hdir. revert saved count w.
  induction keys as [|key keys IH]; intros saved count w;
    cbn [save_group group_saves].
  - by intros [= _ <-].
  - destruct (startswith key prefix); [|apply IH].
    destruct (md_get files key) as [file|]; [|discriminate].
    intros H. apply bind_Ok in H as ([] & w1 & Hw & H).
    apply IH in H. rewrite H. cbn [fold_left]. f_equal.
    unfold save in Hw. apply write_file_put in Hw; [done | done|].
    right. by eexists.
Qed.

(** The file system a successful deploy leaves, as the writes of
    [deploy_saves] on the file system after [os.makedirs]. *)
Lemma deploy_webtop_final files yaml_file w resp w' :
  md_get files (lit "docker-compose") = Some yaml_file ->
  deploy_webtop files w = (Ok (resp, 200), w') ->
  exists w1 script,
    makedirs (webtop_dir_of (deploy_id yaml_file)) w = (Ok tt, w1)
    /\ utf8_encode
         (run_sh_text (deploy_id yaml_file)
            (webtop_dir_of (deploy_id yaml_file))
            (deploy_yaml_name yaml_file) (build_names files))
       = Some script
    /\ fs w'
       = written (resolve (webtop_dir_of (deploy_id yaml_file)))
           (deploy_saves files yaml_file script) script (fs w1).
Proof.
  intros Hget H. apply deploy_webtop_200 in H as (yf & Hyf & _ & H).
  rewrite Hget in Hyf. injection Hyf as <-.
  pose proof (plain_deploy_dir yaml_file) as Hdir.
  set (dir := webtop_dir_of (deploy_id yaml_file)) in *.
  unfold deploy_steps in H.
  apply bind_Ok in H as ([] & w1 & Hmk & H).
  apply bind_Ok in H as ([] & w2 & Hy & H).
  apply bind_Ok in H as (dockerfiles & w3 & Hd & H).
  apply bind_Ok in H as (resources & w4 & Hr & H).
  apply bind_Ok in H as ([] & w5 & Hw & H).
  apply bind_Ok in H as ([] & w6 & Hc & H).
  apply bind_Ok in H as (pid & w7 & Hp & [= _ <-]).
  unfold save in Hy. rewrite inspected_bytes in Hy.
  apply write_file_put in Hy;
    [|done | right; apply deploy_yaml_name_sanitised].
  pose proof Hd as Hdn. apply save_group_Ok in Hdn. cbn [app] in Hdn.
  fold (build_names files) in Hdn. subst dockerfiles.
  unfold save_dockerfiles in Hd. apply save_group_put in Hd; [|done].
  unfold save_resources in Hr. apply save_group_put in Hr; [|done].
  unfold write_text in Hw.
  destruct (encode_writes _) as [script [e|]] eqn:Eenc.
  { apply bind_Ok in Hw as ([] & w5' & _ & [=]). }
  apply bind_Ok in Hw as ([] & w5' & Hw & [= ->]).
  apply write_file_put in Hw; [|done | by left].
  apply encode_writes_text in Eenc.
  assert (resolve (path_join dir (lit "run.sh")) = resolve dir ++ [lit "run.sh"])
    as Hrs by (apply resolve_join_name; [done | by left | done]).
  unfold chmod in Hc. rewrite lookup_path_resolved in Hc.
  2:{ rewrite Hrs. apply not_eq_sym, app_cons_not_nil. }
  rewrite Hrs, Hw in Hc. unfold put in Hc at 1. cbn [fst snd] in Hc.
  rewrite lookup_insert_eq in Hc. injection Hc as <-.
  unfold subprocess_Popen in Hp. injection Hp as _ <-.
  exists w1, script. split; [done|]. split; [done|].
  cbn [fs log set_fs]. unfold written, deploy_saves. cbn [fold_left].
  rewrite !fold_left_app. cbn [fold_left].
  rewrite <- Hy, <- Hd, <- Hr, <- Hw. reflexivity.
Qed.

Lemma fold_put_frame dir saves m loc :
  (forall name, loc <> dir ++ [name]) ->
  fold_left (put dir) saves m !! loc = m !! loc.
Proof.
  intros Hloc. revert m. induction saves as [|[n d] saves IH]; intros m;
    cbn [fold_left]; [done|].
  rewrite IH. unfold put. cbn [fst snd].
  apply lookup_insert_ne, not_eq_sym, Hloc.
Qed.

(** After a sequence of writes an entry holds what was written to it
    last, with the mode it had before. *)
Lemma fold_put_lookup dir saves m name :
  fold_left (put dir) saves m !! (dir ++ [name])
  = match last_saved saves name with
    | Some data => Some (FileObj data (mode_of (m !! (dir ++ [name]))))
    | None => m !! (dir ++ [name])
    end.
Proof.
  revert m. induction saves as [|[n d] saves IH]; intros m;
    cbn [fold_left last_saved]; [done|].
  rewrite IH. unfold put. cbn [fst snd].
  destruct (decide (n = name)) as [->|Hne].
  - rewrite lookup_insert_eq, (proj2 (str_eqb_eq name name) eq_refl).
    by destruct (last_saved saves name).
  - rewrite lookup_insert_ne; [|by intros [_ ?]%app_inj_tail].
    rewrite (str_eqb_false n name Hne).
    by destruct (last_saved saves name).
Qed.

Lemma last_saved_snoc saves n data name :
  last_saved (saves ++ [(n, data)]) name
  = if str_eqb n name then Some data else last_saved saves name.
Proof.
  induction saves as [|[n' d'] saves IH]; cbn [app last_saved].
  - by destruct (str_eqb n name).
  - rewrite IH. destruct (str_eqb n name); [done|].
    by destruct (last_saved saves name).
Qed.

Lemma last_saved_deploy files yaml_file script :
  last_saved (deploy_saves files yaml_file script) (lit "run.sh") = Some script.
Proof.
  unfold deploy_saves.
  rewrite app_comm_cons, app_assoc, last_saved_snoc. reflexivity.
Qed.

(** The entries of [dir] after the writes and the change of mode. *)
Lemma written_lookup dir saves script m name :
  last_saved saves (lit "run.sh") = Some script ->
  written dir saves script m !! (dir ++ [name])
  = match last_saved saves name with
    | Some data =>
        Some (FileObj data
                (if str_eqb name (lit "run.sh") then 493
                 else mode_of (m !! (dir ++ [name]))))
    | None => m !! (dir ++ [name])
    end.
Proof.
  intros Hrun. unfold written.
  destruct (decide (name = lit "run.sh")) as [->|Hne].
  - by rewrite lookup_insert_eq, Hrun.
  - rewrite lookup_insert_ne; [|by intros [_ ?]%app_inj_tail].
    rewrite fold_put_lookup, (str_eqb_false name (lit "run.sh") Hne). done.
Qed.

Lemma written_frame dir saves script m loc :
  (forall name, loc <> dir ++ [name]) ->
  written dir saves script m !! loc = m !! loc.
Proof.
  intros Hloc. unfold written.
  rewrite lookup_insert_ne; [|apply not_eq_sym, Hloc].
  by apply fold_put_frame.
Qed.

(** X20. The files of a deploy.  After a successful deploy every entry of
    the workload directory that was written holds the bytes of the last
    file saved under its name, in the order manifest, build files,
    resources, run script: an upload that is sanitised to the name of an
    earlier one replaces it, and the generated script replaces an upload
    named [run.sh].  The run script has mode 755, every other written
    file the mode it had before or that of a new file; the entries that
    were not written are as before. *)
Theorem deploy_file_contents files yaml_file w resp w' :
  md_get files (lit "docker-compose") = Some yaml_file ->
  deploy_webtop files w = (Ok (resp, 200), w') ->
  exists script,
    utf8_encode
      (run_sh_text (deploy_id yaml_file) (webtop_dir_of (deploy_id yaml_file))
         (deploy_yaml_name yaml_file) (build_names files))
    = Some script
    /\ forall name,
         fs w' !! (resolve (webtop_dir_of (deploy_id yaml_file)) ++ [name])
         = match last_saved (deploy_saves files yaml_file script) name with
           | Some data =>
               Some (FileObj data
                       (if str_eqb name (lit "run.sh") then 493
                        else mode_of
                               (fs w !! (resolve (webtop_dir_of
                                                    (deploy_id yaml_file))
                                         ++ [name]))))
           | None =>
               fs w !! (resolve (webtop_dir_of (deploy_id yaml_file)) ++ [name])
           end.
Proof.
  intros Hget H.
  destruct (deploy_webtop_final _ _ _ _ _ Hget H)
    as (w1 & script & Hmk & Henc & Hfs).
  exists script. split; [done|]. intros name.
  rewrite Hfs, written_lookup; [|apply last_saved_deploy].
  rewrite (makedirs_frame _ _ _ Hmk); [done|]. right. apply prefix_snoc_not.
Qed.

(** [os.makedirs] on a path whose directories are all there changes
    nothing. *)
Lemma makedirs_existing p w w1 :
  makedirs p w = (Ok tt, w1) ->
  (forall loc, loc `prefix_of` resolve p -> loc <> [] ->
               fs w !! loc = Some DirObj) ->
  fs w1 = fs w.
Proof.
  intros Hmk Hdirs. apply map_eq. intros loc.
  destruct (decide (loc = [])) as [->|Hne].
  { apply (makedirs_frame _ _ _ Hmk). by left. }
  destruct (decide (loc `prefix_of` resolve p)) as [Hp|Hnp].
  - rewrite (Hdirs loc Hp Hne).
    apply makedirs_Ok in Hmk as (_ & Hkeep & _). by apply Hkeep, Hdirs.
  - apply (makedirs_frame _ _ _ Hmk). by right.
Qed.

Lemma written_twice dir saves script m :
  last_saved saves (lit "run.sh") = Some script ->
  written dir saves script (written dir saves script m)
  = written dir saves script m.
Proof.
  intros Hrun. apply map_eq. intros loc.
  destruct loc as [|x l _] using rev_ind.
  { rewrite !written_frame; [done | |];
      intros name Hn; by apply app_cons_not_nil in Hn. }
  destruct (decide (l = dir)) as [->|Hne].
  - rewrite (written_lookup dir saves script (written dir saves script m) x Hrun).
    rewrite (written_lookup dir saves script m x Hrun).
    destruct (last_saved saves x) as [data|]; [|done].
    by destruct (str_eqb x (lit "run.sh")).
  - rewrite !written_frame; [done | |];
      intros name [? _]%app_inj_tail; done.
Qed.

(** X21. Deploying again changes nothing.  When a request is deployed and
    then deployed a second time, both with status 200, the file system
    after the second deploy is the one after the first, and the second
    response reports the same identity, port and files. *)
Theorem redeploy_changes_nothing files w resp w' resp2 w'' :
  deploy_webtop files w = (Ok (resp, 200), w') ->
  deploy_webtop files w' = (Ok (resp2, 200), w'') ->
  fs w'' = fs w'
  /\ jget "webtop_id" resp2 = jget "webtop_id" resp
  /\ jget "port" resp2 = jget "port" resp
  /\ jget "files" resp2 = jget "files" resp.
Proof.
  intros H1 H2.
  pose proof H1 as H1s. pose proof H2 as H2s.
  apply deploy_webtop_script in H1s as (yaml_file & pid1 & d1 & Hget & -> & _).
  apply deploy_webtop_script in H2s as (yf & pid2 & d2 & Hyf & -> & _).
  rewrite Hget in Hyf. injection Hyf as <-.
  split; [|done].
  destruct (deploy_webtop_final _ _ _ _ _ Hget H1)
    as (w1 & script & Hmk1 & Henc1 & Hfs1).
  destruct (deploy_webtop_final _ _ _ _ _ Hget H2)
    as (w2 & script2 & Hmk2 & Henc2 & Hfs2).
  rewrite Henc1 in Henc2. injection Henc2 as <-.
  assert (fs w2 = fs w') as Hsame.
  { apply (makedirs_existing _ _ _ Hmk2). intros loc Hp Hne.
    destruct (deploy_webtop_fs _ _ _ _ _ Hget H1) as (w1' & _ & Hmk & _ & Hk & _).
    rewrite Hmk1 in Hmk. injection Hmk as <-.
    specialize (Hk loc). by rewrite (makedirs_dirs _ _ _ Hmk1 loc Hp Hne) in Hk. }
  rewrite Hfs2, Hsame, Hfs1. apply written_twice, last_saved_deploy.
Qed.

(** ** [stop_webtop] and [list_webtops], whatever the runtime does *)

(** X22. [stop_webtop] answers every request, with status 200, 404 or
    500, never changes the file system and runs at most one command, the
    bring-down for a manifest-like entry.  The status is 500 exactly when
    the workload path is a regular file, or the bring-down cannot be
    started or ends with an exit status other than 0. *)
Theorem stop_webtop_answers webtop_id w :
  exists body code w',
    stop_webtop webtop_id w = (Ok (body, code), w')
    /\ (code = 200 \/ code = 404 \/ code = 500)
    /\ fs w' = fs w
    /\ (w' = w
        \/ exists first,
             is_yaml first = true
             /\ w' = log w (EvRun
                              (compose_down
                                 (path_join (webtop_dir_of webtop_id) first))
                              (Some (webtop_dir_of webtop_id))))
    /\ (code = 500 <->
        (exists data mode,
            lookup_path (fs w) (webtop_dir_of webtop_id)
            = Some (FileObj data mode))
        \/ (lookup_path (fs w) (webtop_dir_of webtop_id) = Some DirObj
            /\ exists first rest,
                 List.filter is_yaml
                   (entries (fs w) (resolve (webtop_dir_of webtop_id)))
                 = first :: rest
                 /\ forall result,
                      run_outcome w
                        (compose_down
                           (path_join (webtop_dir_of webtop_id) first))
                        (Some (webtop_dir_of webtop_id))
                      = Ok result ->
                      returncode result <> 0)).
Proof.
  rewrite stop_webtop_eval. cbv zeta.
  destruct (lookup_path (fs w) (webtop_dir_of webtop_id)) as [[data mode|]|].
  - eexists _, 500, w. split; [reflexivity|]. split; [by right; right|].
    split; [done|]. split; [by left|]. split; [|done]. intros _. left. eauto.
  - destruct (List.filter is_yaml _) as [|first rest] eqn:E.
    { eexists _, 404, w. split; [reflexivity|]. split; [by right; left|].
      split; [done|]. split; [by left|]. split; [done|].
      intros [(d & m & [=]) | (_ & f & r & [=] & _)]. }
    apply filter_head_In in E as [_ Hy].
    destruct (run_outcome w _ _) as [result|e] eqn:Er.
    + destruct (Z.eqb_spec (returncode result) 0) as [Hz|Hz].
      * eexists _, 200, _. split; [reflexivity|]. split; [by left|].
        split; [done|]. split; [right; by exists first|]. split; [done|].
        intros [(d & m & [=]) | (_ & f & r & [= <- <-] & Hr)].
        by destruct (Hr result Er).
      * eexists _, 500, _. split; [reflexivity|]. split; [by right; right|].
        split; [done|]. split; [right; by exists first|]. split; [|done].
        intros _. right. split; [done|]. exists first, rest. split; [done|].
        intros result' Hr'. rewrite Er in Hr'. by injection Hr' as <-.
    + eexists _, 500, _. split; [reflexivity|]. split; [by right; right|].
      split; [done|]. split; [right; by exists first|]. split; [|done].
      intros _. right. split; [done|]. exists first, rest. split; [done|].
      intros result' Hr'. rewrite Er in Hr'. discriminate.
  - eexists _, 404, w. split; [reflexivity|]. split; [by right; left|].
    split; [done|]. split; [by left|]. split; [done|].
    intros [(d & m & [=]) | ([=] & _)].
Qed.

Lemma asked_cons w dir_name dir_names :
  asked w (dir_name :: dir_names)
  = asked (log w (EvRun (ps_query dir_name) None)) dir_names.
Proof. reflexivity. Qed.

Lemma asked_snoc w dir_names dir_name :
  asked w (dir_names ++ [dir_name])
  = log (asked w dir_names) (EvRun (ps_query dir_name) None).
Proof. unfold asked. by rewrite fold_left_app. Qed.

Lemma asked_world w dir_names :
  fs (asked w dir_names) = fs w
  /\ trace (asked w dir_names)
     = trace w ++ map (fun n => EvRun (ps_query n) None) dir_names.
Proof.
  revert w. induction dir_names as [|n dir_names IH]; intros w.
  - split; [done | by rewrite app_nil_r].
  - rewrite asked_cons. destruct (IH (log w (EvRun (ps_query n) None)))
      as [Hfs Ht].
    split; [done|]. rewrite Ht. cbn [trace log map]. by rewrite <- app_assoc.
Qed.

Lemma answered_cons w dir_name dir_names :
  answered w (dir_name :: dir_names) ->
  (exists result, run_outcome w (ps_query dir_name) None = Ok result)
  /\ answered (log w (EvRun (ps_query dir_name) None)) dir_names.
Proof.
  intros H. split.
  - exact (H [] dir_name dir_names eq_refl).
  - intros pre n post ->. exact (H (dir_name :: pre) n post eq_refl).
Qed.

(** When the runtime answers, the loop of [list_webtops] asks it once
    for each name it reports, in order. *)
Lemma list_loop_answered dir_names webtops w :
  answered w (List.filter (fun n => startswith n (lit "webtop_")) dir_names) ->
  exists flags,
    list_loop dir_names webtops w
    = (Ok (webtops
           ++ zip_with webtop_entry
                (List.filter (fun n => startswith n (lit "webtop_")) dir_names)
                flags),
       asked w (List.filter (fun n => startswith n (lit "webtop_")) dir_names))
    /\ length flags
       = length (List.filter (fun n => startswith n (lit "webtop_")) dir_names).
Proof.
  revert webtops w.
  induction dir_names as [|dir_name rest IH]; intros webtops w Hans.
  - exists []. cbn [list_loop List.filter zip_with asked fold_left].
    by rewrite app_nil_r.
  - cbn [list_loop List.filter] in Hans |- *.
    destruct (startswith dir_name (lit "webtop_")); [|by apply IH].
    apply answered_cons in Hans as [[result Hres] Hans].
    unfold bind, subprocess_run. fold (ps_query dir_name). rewrite Hres.
    destruct (IH (webtops
                  ++ [webtop_entry dir_name
                        (nonempty (strip_by is_space (stdout result)))])
                 _ Hans) as (flags & -> & Hlen).
    exists (nonempty (strip_by is_space (stdout result)) :: flags).
    rewrite asked_cons. cbn [zip_with length]. rewrite Hlen.
    split; [|done]. by rewrite <- app_assoc.
Qed.

(** The loop stops at the first query that cannot be started. *)
Lemma list_loop_stops dir_names webtops w pre dir_name post e :
  List.filter (fun n => startswith n (lit "webtop_")) dir_names
  = pre ++ dir_name :: post ->
  answered w pre ->
  run_outcome (asked w pre) (ps_query dir_name) None = Raise e ->
  list_loop dir_names webtops w = (Raise e, asked w (pre ++ [dir_name])).
Proof.
  revert webtops w pre.
  induction dir_names as [|name rest IH]; intros webtops w pre Hsplit Hans He.
  - by destruct pre.
  - cbn [list_loop List.filter] in Hsplit |- *.
    destruct (startswith name (lit "webtop_")); [|by apply IH].
    unfold bind, subprocess_run. fold (ps_query name).
    destruct pre as [|p pre]; cbn [app] in Hsplit; injection Hsplit as -> Hsplit.
    + cbn [asked fold_left] in He. by rewrite He.
    + apply answered_cons in Hans as [[result Hres] Hans]. rewrite Hres.
      rewrite asked_cons in He. cbn [app]. rewrite asked_cons.
      by apply IH.
Qed.

(** X23. [list_webtops] never raises and never changes the file system.
    On an upload root that is a directory it asks the runtime once for
    each name that starts with [webtop_], in the order of the listing,
    about the containers named after the identity it reports for that
    name.  When every query is answered it has asked them all and
    answers 200 with one entry for each; at the first query that cannot
    be started it stops, having asked no further, and answers 500 with
    that error.  Without an upload root it answers 200 with no entry and
    asks nothing; where the root is a regular file it answers 500. *)
Theorem list_webtops_effects w :
  (forall dir_names,
      fs (asked w dir_names) = fs w
      /\ trace (asked w dir_names)
         = trace w ++ map (fun n => EvRun (ps_query n) None) dir_names)
  /\ (lookup_path (fs w) UPLOAD_DIR = None ->
      list_webtops w = (Ok (listing []), w))
  /\ (forall data mode,
         lookup_path (fs w) UPLOAD_DIR = Some (FileObj data mode) ->
         exists body, list_webtops w = (Ok (body, 500), w))
  /\ (lookup_path (fs w) UPLOAD_DIR = Some DirObj ->
      (answered w (listed w) ->
       exists webtops,
         list_webtops w = (Ok (listing webtops), asked w (listed w))
         /\ length webtops = length (listed w))
      /\ (forall pre dir_name post e,
             listed w = pre ++ dir_name :: post ->
             answered w pre ->
             run_outcome (asked w pre) (ps_query dir_name) None = Raise e ->
             list_webtops w
             = (Ok (list_failed e), asked w (pre ++ [dir_name])))).
Proof.
  split; [apply asked_world|]. rewrite list_webtops_eval.
  split; [|split].
  - by intros ->.
  - intros data mode ->. eexists. reflexivity.
  - intros ->. split.
    + intros Hans.
      destruct (list_loop_answered (entries (fs w) (resolve UPLOAD_DIR)) [] w
                  Hans) as (flags & -> & Hlen).
      fold (listed w) in Hlen |- *. eexists. split; [reflexivity|].
      cbn [app]. by rewrite length_zip_with, Hlen, Nat.min_id.
    + intros pre dir_name post e Hsplit Hans He.
      by rewrite (list_loop_stops (entries (fs w) (resolve UPLOAD_DIR)) [] w
                    pre dir_name post e Hsplit Hans He).
Qed.

End Backend.

(** * The theorems at concrete inputs *)

Lemma extract_user_from_yaml_spec_witness :
  (extract_user_from_yaml no_unicode named_manifest).1 = Some (lit "bob")
  /\ (extract_user_from_yaml no_unicode undecodable_manifest).1 = None.
Proof.
  split.
  - apply (proj1 (extract_user_from_yaml_spec no_unicode named_manifest)
             (lit "container_name: webtop-ubuntu-xfce-bob") (lit "bob")).
    + reflexivity.
    + exists []. split.
      * exists [32], []. split; [reflexivity|]. split; [by repeat constructor|].
        split; [discriminate|]. split; [by repeat constructor|]. discriminate.
      * intros pre' x' _. simpl. lia.
  - apply (proj2 (extract_user_from_yaml_spec no_unicode undecodable_manifest)).
    left. reflexivity.
Defined.

(** The manifest with a port of 4301 digits: its text, and the mapping
    it starts with. *)
Lemma long_port_decodes :
  utf8_decode (stream long_port_manifest) = Some long_port_text.
Proof. vm_compute. reflexivity. Qed.

Lemma long_port_first :
  first_field (has_port_mapping no_unicode) long_port_text
              (replicate 4301 49).
Proof.
  exists []. split.
  - exists [32], []. split; [by rewrite app_nil_r|].
    split; [by repeat constructor|]. split; [discriminate|].
    by apply Forall_replicate.
  - intros pre' x' _. simpl. lia.
Qed.

Lemma extract_port_from_yaml_spec_witness :
  (extract_port_from_yaml no_unicode unquoted_port_manifest).1 = Some 3030
  /\ (extract_port_from_yaml no_unicode long_port_manifest).1 = None
  /\ (extract_port_from_yaml no_unicode undecodable_manifest).1 = None.
Proof.
  split; [|split].
  - apply (proj1 (extract_port_from_yaml_spec no_unicode unquoted_port_manifest)
             (lit "- 3030:3000") (lit "3030")).
    + reflexivity.
    + exists []. split.
      * exists [32], []. split; [reflexivity|]. split; [by repeat constructor|].
        split; [discriminate | by repeat constructor].
      * intros pre' x' _. simpl. lia.
    + unfold int_max_str_digits. simpl. lia.
  - apply (proj1 (proj2 (extract_port_from_yaml_spec no_unicode
                           long_port_manifest))
             long_port_text (replicate 4301 49)
             long_port_decodes long_port_first).
    rewrite length_replicate. unfold int_max_str_digits. lia.
  - apply (proj2 (proj2 (extract_port_from_yaml_spec no_unicode
                           undecodable_manifest))).
    left. reflexivity.
Defined.

(** A manifest whose first mapping has more digits than [int] converts:
    the port is not the number they denote. *)
Lemma port_of_long_number_is_unknown :
  ~ port_of_first_mapping no_unicode long_port_manifest.
Proof.
  intros H.
  specialize (H long_port_text (replicate 4301 49)
                long_port_decodes long_port_first).
  rewrite (extract_port_first_mapping no_unicode _ _ _
             long_port_decodes long_port_first) in H.
  unfold int_of_str in H. rewrite length_replicate in H.
  change ((4301 <=? int_max_str_digits)%nat) with false in H.
  discriminate H.
Qed.

(** The runs of [deploy_webtop] the examples look at. *)
Local Abbreviation deploy_example :=
  (deploy_webtop no_unicode nfkd_id launcher no_traceback).

Local Abbreviation scenario_run := (deploy_example scenario_files empty_world).

Local Abbreviation building_run := (deploy_example two_build_files empty_world).

Local Abbreviation traversal_run := (deploy_example traversal_files empty_world).

Lemma scenario_run_ok :
  scenario_run = (Ok (ok_body scenario_run.1, 200), scenario_run.2).
Proof. apply run_eq. vm_compute. reflexivity. Qed.

Lemma building_run_ok :
  building_run = (Ok (ok_body building_run.1, 200), building_run.2).
Proof. apply run_eq. vm_compute. reflexivity. Qed.

Lemma deploy_scenario_reports_no_port_witness :
  exists resp w',
    deploy_webtop no_unicode nfkd_id launcher no_traceback
                  scenario_files empty_world
    = (Ok (resp, 200), w')
    /\ jget "webtop_id" resp = Some (JStr (lit "bob"))
    /\ jget "port" resp = Some JNull.
Proof.
  exists (ok_body scenario_run.1), scenario_run.2.
  split; [exact scenario_run_ok|].
  destruct (deploy_scenario_reports_no_port no_unicode nfkd_id launcher
              no_traceback empty_world _ _ scenario_run_ok)
    as (Hid & Hport & _).
  split; [exact Hid | exact Hport].
Defined.

Lemma run_script_blocks_witness :
  exists resp w' text,
    deploy_webtop no_unicode nfkd_id launcher no_traceback
                  two_build_files empty_world
    = (Ok (resp, 200), w')
    /\ script_of w' (lit "bob") = Some text
    /\ List.filter is_build_line (script_lines text)
       = [ lit "docker build -f Dockerfile.db -t webtop-custom-bob-1 .";
           lit "docker build -f Dockerfile.web -t webtop-custom-bob-2 ." ].
Proof.
  destruct (run_script_blocks no_unicode nfkd_id launcher no_traceback
              two_build_files empty_world _ _ building_run_ok)
    as (id & yaml & text & Hid & _ & _ & Hs & _ & Hb & _).
  vm_compute in Hid. injection Hid as <-.
  exists (ok_body building_run.1), building_run.2, text.
  split; [exact building_run_ok|]. split; [exact Hs|].
  rewrite Hb. vm_compute. reflexivity.
Defined.

(** C4 as stated fails: with [dockerfile-2] submitted before
    [dockerfile-1], the script builds the file of [dockerfile-1] first. *)
Lemma blocks_do_not_follow_submission :
  ~ blocks_follow_submission no_unicode nfkd_id launcher no_traceback
      two_build_files empty_world.
Proof.
  intros H.
  destruct (H _ _ building_run_ok) as (id & text & Hid & Hs & Hl).
  vm_compute in Hid. injection Hid as <-.
  vm_compute in Hs. injection Hs as <-.
  vm_compute in Hl. discriminate.
Qed.

Lemma run_script_deterministic_witness :
  exists resp1 w1 resp2 w2,
    deploy_webtop no_unicode nfkd_id launcher no_traceback
                  scenario_files empty_world
    = (Ok (resp1, 200), w1)
    /\ deploy_webtop no_unicode nfkd_id launcher no_traceback
                     scenario_files w1
       = (Ok (resp2, 200), w2)
    /\ jget "process_id" resp1 <> jget "process_id" resp2
    /\ exists data,
         lookup_path (fs w1) (path_join (webtop_dir_of (lit "bob")) (lit "run.sh"))
         = Some (FileObj data 493)
         /\ lookup_path (fs w2)
              (path_join (webtop_dir_of (lit "bob")) (lit "run.sh"))
            = Some (FileObj data 493).
Proof.
  assert (deploy_example scenario_files scenario_run.2
          = (Ok (ok_body (deploy_example scenario_files scenario_run.2).1, 200),
             (deploy_example scenario_files scenario_run.2).2)) as E2
    by (apply run_eq; vm_compute; reflexivity).
  destruct (run_script_deterministic no_unicode nfkd_id launcher no_traceback
              scenario_files scenario_files empty_world scenario_run.2
              _ _ _ _ scenario_run_ok E2)
    as (id & yaml & dfs & rs & data & Hid & _ & _ & Hl1 & Hl2);
    [vm_compute; reflexivity | vm_compute; reflexivity |].
  vm_compute in Hid. injection Hid as <-.
  exists (ok_body scenario_run.1), scenario_run.2,
    (ok_body (deploy_example scenario_files scenario_run.2).1),
    (deploy_example scenario_files scenario_run.2).2.
  split; [exact scenario_run_ok|]. split; [exact E2|].
  split; [vm_compute; discriminate|].
  exists data. split; [exact Hl1 | exact Hl2].
Defined.

Lemma stop_webtop_spec_witness :
  (exists body,
      stop_webtop runtime_ok (lit "bob") empty_world
      = (Ok (body, 404), empty_world))
  /\ (exists body w',
         stop_webtop runtime_ok (lit "bob") bob_world = (Ok (body, 200), w'))
  /\ (exists body w',
         stop_webtop runtime_failing (lit "bob") bob_world
         = (Ok (body, 500), w')
         /\ jget "error" body = Some (JStr (lit "no such service"))).
Proof.
  split; [|split].
  - pose proof (stop_webtop_spec runtime_ok (lit "bob") empty_world) as T.
    cbv zeta in T. apply (proj1 T). reflexivity.
  - pose proof (stop_webtop_spec runtime_ok (lit "bob") bob_world) as T.
    cbv zeta in T. destruct T as (_ & _ & T & _).
    destruct T as (first & _ & _ & Hres).
    + vm_compute. reflexivity.
    + exists (lit "docker-compose.yml").
      split; [eexists; vm_compute; reflexivity | reflexivity].
    + destruct (Hres _ eq_refl) as (body & Hstop & _).
      exists body. eexists. exact Hstop.
  - pose proof (stop_webtop_spec runtime_failing (lit "bob") bob_world) as T.
    cbv zeta in T. destruct T as (_ & _ & T & _).
    destruct T as (first & _ & _ & Hres).
    + vm_compute. reflexivity.
    + exists (lit "docker-compose.yml").
      split; [eexists; vm_compute; reflexivity | reflexivity].
    + destruct (Hres _ eq_refl) as (body & Hstop & _ & Herr).
      exists body. eexists. split; [exact Hstop|].
      apply Herr. discriminate.
Defined.

(** The manifest-like entries of the workload of [bob]. *)
Lemma bob_world_manifests :
  List.filter is_yaml
    (entries (fs bob_world) (resolve (webtop_dir_of (lit "bob"))))
  = [lit "docker-compose.yml"].
Proof. vm_compute. reflexivity. Qed.

Lemma bob_world_workload :
  lookup_path (fs bob_world) (webtop_dir_of (lit "bob")) = Some DirObj.
Proof. vm_compute. reflexivity. Qed.

Lemma cleanup_webtop_spec_witness :
  (exists body,
      cleanup_webtop runtime_failing (lit "bob") empty_world
      = (Ok (body, 404), empty_world))
  /\ (exists body w',
         cleanup_webtop runtime_failing (lit "bob") bob_world
         = (Ok (body, 200), w')
         /\ trace w'
            = [ EvRun (compose_down
                         (lit "/opt/webtops/uploads/webtop_bob/docker-compose.yml"))
                      (Some (lit "/opt/webtops/uploads/webtop_bob"));
                EvRmtree (lit "/opt/webtops/uploads/webtop_bob") ]
         /\ fs w' !! [lit "opt"; lit "webtops"; lit "uploads"; lit "webtop_bob"]
            = None
         /\ fs w' !! [lit "opt"; lit "webtops"; lit "uploads"; lit "webtop_bob";
                      lit "docker-compose.yml"]
            = None
         /\ fs w' !! [lit "opt"; lit "webtops"; lit "uploads"] = Some DirObj)
  /\ (exists body,
         cleanup_webtop runtime_missing (lit "bob") bob_world
         = (Ok (body, 500),
            log bob_world
              (EvRun (compose_down
                        (lit "/opt/webtops/uploads/webtop_bob/docker-compose.yml"))
                     (Some (lit "/opt/webtops/uploads/webtop_bob"))))
         /\ jget "message" body = Some (JStr (lit "docker"))).
Proof.
  split; [|split].
  - pose proof (cleanup_webtop_spec runtime_failing (lit "bob") empty_world) as T.
    cbv zeta in T. apply (proj1 T). reflexivity.
  - pose proof (cleanup_webtop_spec runtime_failing (lit "bob") bob_world) as T.
    cbv zeta in T. destruct T as (_ & _ & T).
    destruct (T bob_world_workload _ _ bob_world_manifests) as (_ & _ & T1 & _).
    destruct (T1 _ eq_refl) as (body & w' & Hc & _ & Ht & Hin & Hout).
    exists body, w'. split; [exact Hc|]. split; [|split; [|split]].
    + rewrite Ht. vm_compute. reflexivity.
    + apply Hin. by exists [].
    + apply Hin. by exists [lit "docker-compose.yml"].
    + rewrite Hout; [vm_compute; reflexivity|].
      intros [k Hk]. apply (f_equal length) in Hk.
      rewrite length_app in Hk. simpl in Hk. lia.
  - pose proof (cleanup_webtop_spec runtime_missing (lit "bob") bob_world) as T.
    cbv zeta in T. destruct T as (_ & _ & T).
    destruct (T bob_world_workload _ _ bob_world_manifests) as (_ & _ & _ & T2).
    destruct (T2 _ eq_refl) as (body & Hc & _ & Hm).
    exists body. split; [exact Hc | exact Hm].
Defined.

Lemma deploy_writes_stay_inside_witness :
  exists r w',
    deploy_webtop no_unicode nfkd_id launcher no_traceback
                  traversal_files empty_world
    = (r, w')
    /\ forall p,
         In (EvWrite p) (trace w') ->
         exists name,
           resolve p
           = [lit "opt"; lit "webtops"; lit "uploads"; lit "webtop_bob"; name].
Proof.
  exists traversal_run.1, traversal_run.2.
  split; [apply surjective_pairing|].
  destruct (deploy_writes_stay_inside no_unicode nfkd_id launcher no_traceback
              traversal_files empty_world _ _
              (surjective_pairing traversal_run))
    as [_ T].
  destruct (T _ eq_refl) as [(evs & Ht & Hev) _].
  intros p Hp. cbn [trace empty_world app] in Ht. rewrite Ht in Hp.
  destruct (Hev p Hp) as (name & _ & _ & _ & _ & Hres).
  exists name. exact Hres.
Defined.

Lemma list_webtops_spec_witness :
  list_webtops no_unicode runtime_ok empty_world
  = (Ok (JDict [ ("status", JStr (lit "success"));
                 ("webtops", JList []);
                 ("count", JInt 0) ], 200), empty_world)
  /\ exists body w',
       list_webtops no_unicode runtime_ok bob_world = (Ok (body, 200), w')
       /\ jget "count" body = Some (JInt 1).
Proof.
  split.
  - apply (proj1 (list_webtops_spec no_unicode runtime_ok empty_world)).
    reflexivity.
  - destruct (proj2 (proj2 (list_webtops_spec no_unicode runtime_ok bob_world)))
      as (flags & w' & Hl & _).
    + vm_compute. reflexivity.
    + intros w1 argv. eexists. reflexivity.
    + eexists _, w'. split; [exact Hl|]. vm_compute. reflexivity.
Defined.

Lemma deploy_identity_is_safe_witness :
  exists resp w',
    deploy_webtop no_unicode nfkd_id launcher no_traceback
                  scenario_files empty_world
    = (Ok (resp, 200), w')
    /\ jget "webtop_id" resp = Some (JStr (lit "bob"))
    /\ fs w' !! [lit "opt"; lit "webtops"; lit "uploads"; lit "webtop_bob"]
       = Some DirObj.
Proof.
  destruct (deploy_identity_is_safe no_unicode nfkd_id launcher no_traceback
              scenario_files empty_world _ _ scenario_run_ok)
    as (yaml_file & id & _ & Hid & _ & _ & _ & _ & Hfs).
  vm_compute in Hid. injection Hid as <-.
  exists (ok_body scenario_run.1), scenario_run.2.
  split; [exact scenario_run_ok|]. split; [vm_compute; reflexivity | exact Hfs].
Defined.

(** ** The further properties at concrete inputs *)

Local Abbreviation upper_case_run :=
  (deploy_example upper_case_files empty_world).

Local Abbreviation undecodable_run :=
  (deploy_example undecodable_files empty_world).

Local Abbreviation restored_run := (deploy_example scenario_files root_world).

Lemma upper_case_run_ok :
  upper_case_run = (Ok (ok_body upper_case_run.1, 200), upper_case_run.2).
Proof. apply run_eq. vm_compute. reflexivity. Qed.

Lemma undecodable_run_ok :
  undecodable_run = (Ok (ok_body undecodable_run.1, 200), undecodable_run.2).
Proof. apply run_eq. vm_compute. reflexivity. Qed.

Lemma restored_run_ok :
  restored_run = (Ok (ok_body restored_run.1, 200), restored_run.2).
Proof. apply run_eq. vm_compute. reflexivity. Qed.

Lemma empty_world_lookup loc : fs empty_world !! loc = None.
Proof. apply lookup_empty. Qed.

Lemma root_world_dirs loc :
  loc `prefix_of` [lit "opt"; lit "webtops"; lit "uploads"] -> loc <> [] ->
  fs root_world !! loc = Some DirObj.
Proof.
  intros [k Hk] Hne.
  destruct loc as [|a [|b [|c [|d loc]]]]; cbn [app] in Hk; simplify_eq;
    vm_compute; reflexivity.
Qed.

Lemma root_world_below loc :
  [lit "opt"; lit "webtops"; lit "uploads"; lit "webtop_bob"] `prefix_of` loc ->
  fs root_world !! loc = None.
Proof.
  intros [k ->]. unfold root_world. cbn [fs list_to_map foldr app uncurry].
  rewrite !lookup_insert_ne; [apply lookup_empty | | |]; by intros [=].
Qed.

Lemma deploy_effects_follow_plan_witness :
  trace (deploy_webtop no_unicode nfkd_id launcher no_traceback
           two_build_files empty_world).2
  = [ EvMakedirs (lit "/opt/webtops/uploads/webtop_bob");
      EvWrite (lit "/opt/webtops/uploads/webtop_bob/docker-compose.yml");
      EvWrite (lit "/opt/webtops/uploads/webtop_bob/Dockerfile.db");
      EvWrite (lit "/opt/webtops/uploads/webtop_bob/Dockerfile.web");
      EvWrite (lit "/opt/webtops/uploads/webtop_bob/run.sh");
      EvChmod (lit "/opt/webtops/uploads/webtop_bob/run.sh") 493;
      EvPopen [lit "bash"; lit "/opt/webtops/uploads/webtop_bob/run.sh"]
              (lit "/opt/webtops/uploads/webtop_bob") ].
Proof.
  destruct (deploy_effects_follow_plan no_unicode nfkd_id launcher no_traceback
              two_build_files scenario_file empty_world _ _
              eq_refl building_run_ok)
    as (evs & Ht & _ & Hall & _).
  rewrite Ht, (Hall _ eq_refl). vm_compute. reflexivity.
Defined.

Lemma deploy_saves_manifest_witness :
  (exists mode,
      fs (deploy_webtop no_unicode nfkd_id launcher no_traceback
            scenario_files empty_world).2
      !! [lit "opt"; lit "webtops"; lit "uploads"; lit "webtop_bob";
          lit "docker-compose.yml"]
      = Some (FileObj scenario_manifest mode))
  /\ (exists mode,
         fs (deploy_webtop no_unicode nfkd_id launcher no_traceback
               undecodable_files empty_world).2
         !! [lit "opt"; lit "webtops"; lit "uploads"; lit "webtop_default_user";
             lit "compose.yml"]
         = Some (FileObj [] mode)).
Proof.
  split.
  - destruct (deploy_saves_manifest no_unicode nfkd_id launcher no_traceback
                scenario_files scenario_file empty_world _ _
                eq_refl scenario_run_ok)
      as (_ & mode & Hfs & _).
    + intros Hin. vm_compute in Hin. destruct Hin as [Hin | []]. discriminate.
    + exists mode. exact Hfs.
  - destruct (deploy_saves_manifest no_unicode nfkd_id launcher no_traceback
                undecodable_files undecodable_manifest empty_world _ _
                eq_refl undecodable_run_ok)
      as (_ & mode & Hfs & _).
    + intros Hin. vm_compute in Hin. destruct Hin as [Hin | []]. discriminate.
    + exists mode. exact Hfs.
Defined.

Lemma deploy_directory_contents_witness :
  is_Some
    (fs (deploy_webtop no_unicode nfkd_id launcher no_traceback
           two_build_files empty_world).2
     !! [lit "opt"; lit "webtops"; lit "uploads"; lit "webtop_bob";
         lit "Dockerfile.db"])
  /\ ~ is_Some
        (fs (deploy_webtop no_unicode nfkd_id launcher no_traceback
               two_build_files empty_world).2
         !! [lit "opt"; lit "webtops"; lit "uploads"; lit "webtop_bob";
             lit "Dockerfile"]).
Proof.
  destruct (deploy_directory_contents no_unicode nfkd_id launcher no_traceback
              two_build_files scenario_file empty_world _ _
              eq_refl building_run_ok)
    as (_ & _ & Hent & _).
  split.
  - apply (proj2 (Hent (lit "Dockerfile.db"))). right.
    vm_compute. right. left. reflexivity.
  - intros Hs. apply (proj1 (Hent (lit "Dockerfile"))) in Hs.
    destruct Hs as [[o Ho] | Hin].
    + by rewrite empty_world_lookup in Ho.
    + vm_compute in Hin.
      destruct Hin as [Hin | [Hin | [Hin | [Hin | []]]]]; discriminate.
Defined.

Lemma deploy_unnameable_manifest_witness :
  exists body w',
    deploy_webtop no_unicode nfkd_id launcher no_traceback
                  unnameable_files empty_world
    = (Ok (body, 500), w')
    /\ jget "webtop_id" body = Some (JStr (lit "bob")).
Proof.
  destruct (deploy_unnameable_manifest no_unicode nfkd_id launcher no_traceback
              unnameable_files _ empty_world eq_refl)
    as (body & w' & Hrun & Hid & _).
  - discriminate.
  - vm_compute. reflexivity.
  - exists body, w'. split; [exact Hrun | exact Hid].
Defined.

Lemma stop_after_deploy_witness :
  exists resp w' body w'',
    deploy_webtop no_unicode nfkd_id launcher no_traceback
                  scenario_files empty_world
    = (Ok (resp, 200), w')
    /\ stop_webtop runtime_ok (lit "bob") w' = (Ok (body, 200), w'').
Proof.
  destruct (stop_after_deploy no_unicode nfkd_id runtime_ok launcher
              no_traceback scenario_files scenario_file empty_world _ _
              eq_refl scenario_run_ok eq_refl)
    as (_ & first & _ & _ & Hstop).
  exists (ok_body scenario_run.1), scenario_run.2.
  eexists _, _. split; [exact scenario_run_ok | exact Hstop].
Defined.

Lemma stop_misses_manifest_witness :
  exists resp w',
    deploy_webtop no_unicode nfkd_id launcher no_traceback
                  upper_case_files empty_world
    = (Ok (resp, 200), w')
    /\ jget "files" resp
       = Some (saved_files_json (lit "docker-compose.YML") [] [])
    /\ exists body, stop_webtop runtime_ok (lit "bob") w' = (Ok (body, 404), w').
Proof.
  destruct (stop_misses_manifest no_unicode nfkd_id runtime_ok launcher
              no_traceback upper_case_files _ empty_world _ _
              eq_refl upper_case_run_ok)
    as (_ & Hstop).
  - intros name [o Ho]. by rewrite empty_world_lookup in Ho.
  - intros name Hin. vm_compute in Hin.
    destruct Hin as [<- | [<- | []]]; reflexivity.
  - exists (ok_body upper_case_run.1), upper_case_run.2.
    split; [exact upper_case_run_ok|]. split; [vm_compute; reflexivity|].
    eexists. exact Hstop.
Defined.

Lemma cleanup_then_gone_witness :
  exists body w',
    cleanup_webtop runtime_failing (lit "bob") bob_world = (Ok (body, 200), w')
    /\ cleanup_webtop runtime_failing (lit "bob") w'
       = (Ok (dir_not_found (lit "bob")), w')
    /\ fs w' !! [lit "opt"; lit "webtops"; lit "uploads"] = Some DirObj.
Proof.
  assert (cleanup_webtop runtime_failing (lit "bob") bob_world
          = (Ok (ok_body (cleanup_webtop runtime_failing (lit "bob") bob_world).1,
                 200),
             (cleanup_webtop runtime_failing (lit "bob") bob_world).2)) as Hrun
    by (apply run_eq; vm_compute; reflexivity).
  destruct (cleanup_then_gone runtime_failing (lit "bob") bob_world _ _
              ltac:(by repeat constructor) Hrun)
    as (Hagain & _ & Hout & _).
  eexists _, _. split; [exact Hrun|]. split; [exact Hagain|].
  rewrite Hout; [vm_compute; reflexivity|].
  intros [k Hk]. apply (f_equal length) in Hk.
  rewrite length_app in Hk. simpl in Hk. lia.
Defined.

Lemma cleanup_undoes_deploy_witness :
  exists resp w' w'',
    deploy_webtop no_unicode nfkd_id launcher no_traceback
                  scenario_files root_world
    = (Ok (resp, 200), w')
    /\ cleanup_webtop runtime_failing (lit "bob") w'
       = (Ok (cleaned_up (lit "bob") (lit "/opt/webtops/uploads/webtop_bob")),
          w'')
    /\ fs w'' = fs root_world.
Proof.
  destruct (cleanup_undoes_deploy no_unicode nfkd_id runtime_failing launcher
              no_traceback scenario_files scenario_file root_world _ _
              eq_refl restored_run_ok)
    as (w'' & Hclean & Hfs).
  - exact root_world_dirs.
  - exact root_world_below.
  - intros w1 argv cwd. eexists. reflexivity.
  - exists (ok_body restored_run.1), restored_run.2, w''.
    split; [exact restored_run_ok|]. split; [exact Hclean | exact Hfs].
Defined.

Lemma list_after_deploy_witness :
  exists resp w' webtops w'' entry,
    deploy_webtop no_unicode nfkd_id launcher no_traceback
                  scenario_files empty_world
    = (Ok (resp, 200), w')
    /\ list_webtops no_unicode runtime_ok w' = (Ok (listing webtops), w'')
    /\ In entry webtops
    /\ jget "directory" entry
       = Some (JStr (lit "/opt/webtops/uploads/webtop_bob"))
    /\ jget "webtop_id" entry = Some (JStr (lit "bob")).
Proof.
  destruct (list_after_deploy no_unicode nfkd_id runtime_ok launcher
              no_traceback scenario_files scenario_file empty_world _ _
              eq_refl scenario_run_ok)
    as (_ & webtops & w'' & entry & Hlist & Hin & Hdir & Hid).
  - intros w1 argv. eexists. reflexivity.
  - exists (ok_body scenario_run.1), scenario_run.2, webtops, w'', entry.
    split; [exact scenario_run_ok|]. split; [exact Hlist|].
    split; [exact Hin|]. split; [exact Hdir | exact Hid].
Defined.

Lemma check_webtop_status_spec_witness :
  check_webtop_status no_unicode runtime_down (lit "bob") empty_world
  = (Ok (not_running (lit "bob")),
     log empty_world (EvRun (docker_ps (lit "bob")) None))
  /\ exists w',
       check_webtop_status no_unicode runtime_up (lit "bob") empty_world
       = (Ok (running (lit "bob") (lit "webtop-ubuntu-xfce-bob")
                (lit "webtop-ubuntu-xfce-bob") (lit "webtop-ubuntu-xfce-bob")),
          w').
Proof.
  split.
  - destruct (check_webtop_status_spec no_unicode runtime_down (lit "bob")
                empty_world) as (_ & Hdown & _).
    apply (Hdown _ eq_refl). by repeat constructor.
  - destruct (check_webtop_status_spec no_unicode runtime_up (lit "bob")
                empty_world) as (_ & _ & Hup & _).
    destruct (Hup _ 119 eq_refl) as [_ Hrun];
      [by left | reflexivity |].
    eexists. exact (Hrun _ _ eq_refl eq_refl).
Defined.

Lemma create_run_sh_file_spec_witness :
  exists w',
    create_run_sh_file (lit "/opt/webtops/uploads") (lit "webtop") root_world
    = (Ok 0, w')
    /\ exists data,
         utf8_decode data
         = Some (lit "#!/bin/sh" ++ nl
                 ++ lit "# Script utilis" ++ [233] ++ lit " pour ex" ++ [233]
                 ++ lit "cuter l'image webtop dans le conteneur webtop" ++ nl
                 ++ lit "docker compose -f webtop.yml up" ++ nl)
         /\ fs w' !! [lit "opt"; lit "webtops"; lit "uploads"; lit "run.sh"]
            = Some (FileObj data 493).
Proof.
  destruct (create_run_sh_file_spec (lit "/opt/webtops/uploads") (lit "webtop")
              root_world eq_refl)
    as (code & w' & Hrun & _ & Hzero & Hfile & _).
  assert (code = 0) as ->.
  { apply Hzero. split; [vm_compute; discriminate|].
    vm_compute. by eexists. }
  destruct (Hfile eq_refl) as (data & Henc & Hfs).
  exists w'. split; [exact Hrun|]. exists data. split; [|exact Hfs].
  apply (utf8_decode_encode no_unicode). rewrite <- Henc.
  vm_compute. reflexivity.
Defined.

Lemma delete_undoes_create_witness :
  exists w1 w2,
    create_run_sh_file (lit "/opt/webtops/uploads") (lit "webtop") root_world
    = (Ok 0, w1)
    /\ delete_run_sh_file (lit "/opt/webtops/uploads") w1 = (Ok 0, w2)
    /\ fs w2 = fs root_world.
Proof.
  assert (create_run_sh_file (lit "/opt/webtops/uploads") (lit "webtop")
            root_world
          = (Ok 0,
             (create_run_sh_file (lit "/opt/webtops/uploads") (lit "webtop")
                root_world).2)) as Hrun
    by (apply run_eq; vm_compute; reflexivity).
  destruct (delete_undoes_create (lit "/opt/webtops/uploads") (lit "webtop")
              root_world _ eq_refl eq_refl Hrun)
    as (w2 & Hdel & Hfs & _).
  eexists _, w2. split; [exact Hrun|]. split; [exact Hdel | exact Hfs].
Defined.

Local Abbreviation colliding_run :=
  (deploy_example colliding_files empty_world).

Lemma colliding_run_ok :
  colliding_run = (Ok (ok_body colliding_run.1, 200), colliding_run.2).
Proof. apply run_eq. vm_compute. reflexivity. Qed.

Lemma extract_port_any_number_witness :
  (extract_port_from_yaml no_unicode large_port_manifest).1 = Some 70000.
Proof.
  rewrite (extract_port_any_number no_unicode large_port_manifest
             (lit "ports:" ++ nl ++ lit "  ") [32] (Z.to_nat 70000) nl).
  - vm_compute. reflexivity.
  - vm_compute. reflexivity.
  - by repeat constructor.
  - by repeat constructor.
Defined.

Lemma run_script_insertions_are_plain_witness :
  exists resp w',
    deploy_webtop no_unicode nfkd_id launcher no_traceback
                  two_build_files empty_world
    = (Ok (resp, 200), w')
    /\ script_of w' (lit "bob")
       = Some (run_sh_text (lit "bob") (lit "/opt/webtops/uploads/webtop_bob")
                 (lit "docker-compose.yml")
                 [lit "Dockerfile.db"; lit "Dockerfile.web"]).
Proof.
  destruct (run_script_insertions_are_plain no_unicode nfkd_id launcher
              no_traceback two_build_files scenario_file empty_world _ _
              eq_refl building_run_ok)
    as (Hs & _).
  exists (ok_body building_run.1), building_run.2.
  split; [exact building_run_ok|].
  etransitivity; [exact Hs|]. vm_compute. reflexivity.
Defined.

Lemma deploy_file_contents_witness :
  exists resp w' script,
    deploy_webtop no_unicode nfkd_id launcher no_traceback
                  colliding_files empty_world
    = (Ok (resp, 200), w')
    /\ fs w' !! [lit "opt"; lit "webtops"; lit "uploads"; lit "webtop_bob";
                 lit "docker-compose.yml"]
       = Some (FileObj (blit "services: {}") 420)
    /\ utf8_decode script
       = Some (run_sh_text (lit "bob") (lit "/opt/webtops/uploads/webtop_bob")
                 (lit "docker-compose.yml") [])
    /\ fs w' !! [lit "opt"; lit "webtops"; lit "uploads"; lit "webtop_bob";
                 lit "run.sh"]
       = Some (FileObj script 493).
Proof.
  destruct (deploy_file_contents no_unicode nfkd_id launcher no_traceback
              colliding_files scenario_file empty_world _ _
              eq_refl colliding_run_ok)
    as (script & Henc & Hall).
  exists (ok_body colliding_run.1), colliding_run.2, script.
  split; [exact colliding_run_ok|]. split; [|split].
  - etransitivity; [exact (Hall (lit "docker-compose.yml"))|].
    vm_compute. reflexivity.
  - apply (utf8_decode_encode no_unicode). rewrite <- Henc.
    vm_compute. reflexivity.
  - etransitivity; [exact (Hall (lit "run.sh"))|].
    vm_compute. reflexivity.
Defined.

Lemma redeploy_changes_nothing_witness :
  exists resp1 w1 resp2 w2,
    deploy_webtop no_unicode nfkd_id launcher no_traceback
                  scenario_files empty_world
    = (Ok (resp1, 200), w1)
    /\ deploy_webtop no_unicode nfkd_id launcher no_traceback
                     scenario_files w1
       = (Ok (resp2, 200), w2)
    /\ fs w2 = fs w1.
Proof.
  assert (deploy_example scenario_files scenario_run.2
          = (Ok (ok_body (deploy_example scenario_files scenario_run.2).1, 200),
             (deploy_example scenario_files scenario_run.2).2)) as E2
    by (apply run_eq; vm_compute; reflexivity).
  destruct (redeploy_changes_nothing no_unicode nfkd_id launcher no_traceback
              scenario_files empty_world _ _ _ _ scenario_run_ok E2)
    as (Hfs & _).
  eexists _, _, _, _. split; [exact scenario_run_ok|].
  split; [exact E2 | exact Hfs].
Defined.

(** The names [list_webtops] reports in the registry of [bob]. *)
Lemma bob_world_listed : listed bob_world = [lit "webtop_bob"].
Proof. vm_compute. reflexivity. Qed.

Lemma bob_world_root :
  lookup_path (fs bob_world) UPLOAD_DIR = Some DirObj.
Proof. vm_compute. reflexivity. Qed.

Lemma list_webtops_effects_witness :
  (exists webtops,
      list_webtops no_unicode runtime_ok bob_world
      = (Ok (listing webtops), asked bob_world [lit "webtop_bob"])
      /\ length webtops = 1%nat)
  /\ list_webtops no_unicode runtime_missing bob_world
     = (Ok (list_failed (Exception "FileNotFoundError" (lit "docker"))),
        asked bob_world [lit "webtop_bob"])
  /\ trace (asked bob_world [lit "webtop_bob"])
     = [EvRun (docker_ps (lit "bob")) None].
Proof.
  split; [|split].
  - destruct (list_webtops_effects no_unicode runtime_ok bob_world)
      as (_ & _ & _ & T).
    destruct (T bob_world_root) as (T1 & _).
    rewrite bob_world_listed in T1. apply T1.
    intros pre dir_name post _. eexists. reflexivity.
  - destruct (list_webtops_effects no_unicode runtime_missing bob_world)
      as (_ & _ & _ & T).
    destruct (T bob_world_root) as (_ & T2).
    apply (T2 [] (lit "webtop_bob") [] _ bob_world_listed); [|reflexivity].
    intros pre dir_name post Hsplit. by destruct pre.
  - destruct (list_webtops_effects no_unicode runtime_ok bob_world)
      as (T & _).
    rewrite (proj2 (T [lit "webtop_bob"])). vm_compute. reflexivity.
Defined.
